(** * CSV-to-JSON converters of the Titanic tutorial: model and properties

    A shallow embedding of [titanic/titanic.py] (whole-file and single-row
    conversion) and [titanic/titanic_bigdata.py] (class [BigDataCSVConverter]:
    chunked conversion, dtype narrowing, streaming, file inspection), together
    with the part of Python, numpy and pandas those two files call.

    Layout: the Python layer (values, exceptions, dicts, floats), the pandas
    layer (dtypes, arrays, frames, [read_csv], [where], [to_dict], [iloc],
    [astype]), the two source modules, and then the properties.

    What is modelled and what is not.  Floats are IEEE-754 binary64 and
    binary32 numbers with round-to-nearest-even.  A CSV file is given by its
    size, the lengths of its lines and its tokenized fields; type inference,
    per whole file or per chunk, is modelled, the tokenizer is not.  The
    pandas operations follow pandas 1.3 to 2.x.  Files written are recorded
    as path and content; writing and directory creation are taken to
    succeed, log lines are left out, and the clock is an input. *)

From Stdlib Require Import ZArith List String Ascii Bool Lia DecimalString.
From Stdlib Require Import Floats.SpecFloat.
From Stdlib Require DecimalZ.
Import ListNotations.

Local Open Scope string_scope.
Local Open Scope Z_scope.

(* ===================================================================== *)
(** * Python layer *)
(* ===================================================================== *)

Module Py.

(** The scalar values that end up in a converted record: [int], [float],
    [str] and [None].  A float is an IEEE-754 binary64 given by the
    Standard Library's [spec_float]. *)
Inductive value :=
| VInt (z : Z)
| VFloat (f : spec_float)
| VStr (s : string)
| VNone.

(** The exception classes the two modules raise, catch or let through.
    [Exception_] is the bare [Exception] class. *)
Inductive exn :=
| FileNotFoundError (msg : string)
| EmptyDataError (msg : string)
| ParserError (msg : string)
| IndexError (msg : string)
| ValueError (msg : string)
| ZeroDivisionError (msg : string)
| OverflowError (msg : string)
| Exception_ (msg : string).

(** [str(e)] *)
Definition str_exn (e : exn) : string :=
  match e with
  | FileNotFoundError m | EmptyDataError m | ParserError m | IndexError m
  | ValueError m | ZeroDivisionError m | OverflowError m | Exception_ m => m
  end.

Inductive result (A : Type) :=
| Ok (a : A)
| Raise (e : exn).
Arguments Ok {A} a.
Arguments Raise {A} e.

Definition bind {A B} (r : result A) (k : A -> result B) : result B :=
  match r with
  | Ok a => k a
  | Raise e => Raise e
  end.

(** [str(n)] for an [int]. *)
Definition str_int (z : Z) : string := NilZero.string_of_int (Z.to_int z).

(** ** Dictionaries

    A [dict] keeps its keys in insertion order; assigning to a key that is
    already present replaces the value and leaves the position alone. *)
Definition dict := list (string * value).

Fixpoint dict_set (d : dict) (k : string) (v : value) : dict :=
  match d with
  | [] => [(k, v)]
  | (k', v') :: d' =>
      if String.eqb k k' then (k, v) :: d' else (k', v') :: dict_set d' k v
  end.

(** [dict(pairs)] *)
Definition dict_of (pairs : list (string * value)) : dict :=
  fold_left (fun d kv => dict_set d (fst kv) (snd kv)) pairs [].

Definition keys (d : dict) : list string := map fst d.

Fixpoint dict_get (d : dict) (k : string) : option value :=
  match d with
  | [] => None
  | (k', v) :: d' => if String.eqb k k' then Some v else dict_get d' k
  end.

(** ** Floats *)

Definition float_of_int (z : Z) : spec_float :=
  binary_normalize 53 1024 z 0 false.

(** An [int] as an exact, not yet rounded, binary number. *)
Definition exact_of_int (z : Z) : spec_float :=
  match z with
  | Z0 => S754_zero false
  | Zpos p => S754_finite false p 0
  | Zneg p => S754_finite true p 0
  end.

Definition is_finite (f : spec_float) : bool :=
  match f with
  | S754_zero _ | S754_finite _ _ _ => true
  | _ => false
  end.

Definition is_zero (f : spec_float) : bool :=
  match f with
  | S754_zero _ => true
  | _ => false
  end.

(** [a / b] on two [int]s: the quotient rounded once to the nearest
    binary64; [ZeroDivisionError] for [b = 0], [OverflowError] when the
    quotient is beyond the largest float. *)
Definition int_truediv (a b : Z) : result spec_float :=
  if b =? 0 then Raise (ZeroDivisionError "division by zero")
  else
    let q := SFdiv 53 1024 (exact_of_int a) (exact_of_int b) in
    if is_finite q then Ok q
    else Raise (OverflowError "integer division result too large for a float").

(** [float(n)] with its [OverflowError]. *)
Definition float_ (z : Z) : result spec_float :=
  let f := float_of_int z in
  if is_finite f then Ok f
  else Raise (OverflowError "int too large to convert to float").

(** [x / y] on two [float]s. *)
Definition float_truediv (x y : spec_float) : result spec_float :=
  if is_zero y then Raise (ZeroDivisionError "float division by zero")
  else Ok (SFdiv 53 1024 x y).

(** [n / y] for an [int] [n] and a [float] [y]: [n] is converted first. *)
Definition int_float_truediv (n : Z) (y : spec_float) : result spec_float :=
  bind (float_ n) (fun x => float_truediv x y).

(** [int(x)] for a [float]: truncation towards zero. *)
Definition int_ (x : spec_float) : result Z :=
  match x with
  | S754_zero _ => Ok 0
  | S754_finite s m e =>
      let a := match e with
               | Zneg p => Z.shiftr (Zpos m) (Zpos p)
               | _ => Z.shiftl (Zpos m) e
               end in
      Ok (if s then - a else a)
  | S754_infinity _ =>
      Raise (OverflowError "cannot convert float infinity to integer")
  | S754_nan => Raise (ValueError "cannot convert float NaN to integer")
  end.

End Py.

Import Py.

(* ===================================================================== *)
(** * numpy and pandas layer *)
(* ===================================================================== *)

Module Pandas.

(** ** dtypes *)

Inductive int_dtype := uint8 | uint16 | int8 | int16 | int32 | int64.
Inductive float_dtype := float32 | float64.
Inductive dtype :=
| DInt (t : int_dtype)
| DFloat (t : float_dtype)
| DObject.

Definition int_bits (t : int_dtype) : Z :=
  match t with
  | uint8 | int8 => 8
  | uint16 | int16 => 16
  | int32 => 32
  | int64 => 64
  end.

Definition int_signed (t : int_dtype) : bool :=
  match t with
  | uint8 | uint16 => false
  | _ => true
  end.

Definition int_min (t : int_dtype) : Z :=
  if int_signed t then - 2 ^ (int_bits t - 1) else 0.

Definition int_max (t : int_dtype) : Z :=
  if int_signed t then 2 ^ (int_bits t - 1) - 1 else 2 ^ int_bits t - 1.

Definition in_range (t : int_dtype) (z : Z) : bool :=
  (int_min t <=? z) && (z <=? int_max t).

Definition int_dtype_eqb (a b : int_dtype) : bool :=
  match a, b with
  | uint8, uint8 | uint16, uint16 | int8, int8
  | int16, int16 | int32, int32 | int64, int64 => true
  | _, _ => false
  end.

Definition float_dtype_eqb (a b : float_dtype) : bool :=
  match a, b with
  | float32, float32 | float64, float64 => true
  | _, _ => false
  end.

Definition dtype_eqb (a b : dtype) : bool :=
  match a, b with
  | DInt x, DInt y => int_dtype_eqb x y
  | DFloat x, DFloat y => float_dtype_eqb x y
  | DObject, DObject => true
  | _, _ => false
  end.

(** The C cast of an integer to an integer dtype: two's complement
    wrap-around. *)
Definition wrap (t : int_dtype) (z : Z) : Z :=
  let m := 2 ^ int_bits t in
  if int_signed t then (z + m / 2) mod m - m / 2 else z mod m.

Definition float_prec (t : float_dtype) : Z :=
  match t with float32 => 24 | float64 => 53 end.
Definition float_emax (t : float_dtype) : Z :=
  match t with float32 => 128 | float64 => 1024 end.

(** Rounding of a binary number to a float dtype (nearest, ties to even,
    overflow to infinity). *)
Definition round_to (t : float_dtype) (f : spec_float) : spec_float :=
  match f with
  | S754_finite s m e => binary_round (float_prec t) (float_emax t) s m e
  | _ => f
  end.

Definition float_of_Z (t : float_dtype) (z : Z) : spec_float :=
  binary_normalize (float_prec t) (float_emax t) z 0 false.

(** [float(x)] for a numpy float scalar: exact, and nothing to do for a
    float64. *)
Definition box_float (t : float_dtype) (f : spec_float) : spec_float :=
  match t with
  | float64 => f
  | float32 => round_to float64 f
  end.

(** numpy's promotion of two dtypes ([np.result_type]). *)
Definition signed_of_bits (b : Z) : int_dtype :=
  if b <=? 8 then int8 else if b <=? 16 then int16
  else if b <=? 32 then int32 else int64.

Definition promote_int (a b : int_dtype) : int_dtype :=
  if Bool.eqb (int_signed a) (int_signed b) then
    if int_bits a <=? int_bits b then b else a
  else
    let u := if int_signed a then b else a in
    let s := if int_signed a then a else b in
    if int_bits u <? int_bits s then s else signed_of_bits (2 * int_bits u).

Definition promote_int_float (a : int_dtype) (b : float_dtype) : float_dtype :=
  match b with
  | float64 => float64
  | float32 => if int_bits a <=? 16 then float32 else float64
  end.

Definition promote (a b : dtype) : dtype :=
  match a, b with
  | DObject, _ | _, DObject => DObject
  | DInt x, DInt y => DInt (promote_int x y)
  | DInt x, DFloat y | DFloat y, DInt x => DFloat (promote_int_float x y)
  | DFloat float32, DFloat float32 => DFloat float32
  | DFloat _, DFloat _ => DFloat float64
  end.

(** [find_common_type] of the column dtypes of a frame. *)
Definition find_common_type (ds : list dtype) : dtype :=
  match ds with
  | [] => DObject
  | d :: ds' => fold_left promote ds' d
  end.

(** ** Arrays *)

Inductive ndarray :=
| IntArray (t : int_dtype) (a : list Z)
| FloatArray (t : float_dtype) (a : list spec_float)
| ObjectArray (a : list value).

Definition dtype_of (a : ndarray) : dtype :=
  match a with
  | IntArray t _ => DInt t
  | FloatArray t _ => DFloat t
  | ObjectArray _ => DObject
  end.

Definition size (a : ndarray) : nat :=
  match a with
  | IntArray _ l => List.length l
  | FloatArray _ l => List.length l
  | ObjectArray l => List.length l
  end.

(** The element at position [i] as a native Python value ([Series.__iter__]
    and [maybe_box_native]). *)
Definition item (a : ndarray) (i : nat) : value :=
  match a with
  | IntArray _ l => VInt (nth i l 0)
  | FloatArray t l => VFloat (box_float t (nth i l S754_nan))
  | ObjectArray l => nth i l VNone
  end.

(** [pd.isnull] on one element. *)
Definition isnull (v : value) : bool :=
  match v with
  | VNone => true
  | VFloat S754_nan => true
  | _ => false
  end.

(** [a.where(pd.notnull(a), None)] on one block of values, as pandas does
    it since version 1.3.  [Block.where] first standardizes the replacement
    ([_standardize_fill_value]): for a block whose dtype is not object a
    [None] becomes the block's own missing value, NaN, so a float block keeps
    its dtype and its NaNs (an integer block has no missing element and is
    returned as it is); only an object block receives [None]. *)
Definition where_notnull_None (a : ndarray) : ndarray :=
  match a with
  | ObjectArray l => ObjectArray (map (fun v => if isnull v then VNone else v) l)
  | _ => a
  end.

(** [a.astype(t)] for an integer target. *)
Definition astype_int (t : int_dtype) (a : ndarray) : ndarray :=
  match a with
  | IntArray _ l => IntArray t (map (wrap t) l)
  | _ => a
  end.

(** [a.astype('float32')] *)
Definition astype_float32 (a : ndarray) : ndarray :=
  match a with
  | FloatArray _ l => FloatArray float32 (map (round_to float32) l)
  | IntArray _ l => FloatArray float32 (map (float_of_Z float32) l)
  | ObjectArray _ => a
  end.

(** [a.min()] and [a.max()] of an integer column; [None] stands for the
    NaN pandas returns on an empty column. *)
Definition list_min (l : list Z) : option Z :=
  match l with
  | [] => None
  | x :: l' => Some (fold_left Z.min l' x)
  end.

Definition list_max (l : list Z) : option Z :=
  match l with
  | [] => None
  | x :: l' => Some (fold_left Z.max l' x)
  end.

Definition amin (a : ndarray) : option Z :=
  match a with IntArray _ l => list_min l | _ => None end.
Definition amax (a : ndarray) : option Z :=
  match a with IntArray _ l => list_max l | _ => None end.

(** Comparisons of such a result with an integer constant: every
    comparison with NaN is false. *)
Definition ge (x : option Z) (c : Z) : bool :=
  match x with Some v => c <=? v | None => false end.
Definition gt (x : option Z) (c : Z) : bool :=
  match x with Some v => c <? v | None => false end.
Definition lt (x : option Z) (c : Z) : bool :=
  match x with Some v => v <? c | None => false end.

(** One element converted for storage in an array of dtype [d], as the
    interleaving of a row does. *)
Inductive cell :=
| CInt (z : Z)
| CFloat (f : spec_float)
| CObj (v : value).

Definition cast_item (d : dtype) (a : ndarray) (i : nat) : cell :=
  match d, a with
  | DInt t, IntArray _ l => CInt (wrap t (nth i l 0))
  | DFloat t, IntArray _ l => CFloat (float_of_Z t (nth i l 0))
  | DFloat float64, FloatArray s l => CFloat (box_float s (nth i l S754_nan))
  | DFloat float32, FloatArray _ l => CFloat (nth i l S754_nan)
  | _, _ => CObj (item a i)
  end.

Definition cells_to_array (d : dtype) (cs : list cell) : ndarray :=
  match d with
  | DInt t => IntArray t (map (fun c => match c with CInt z => z | _ => 0 end) cs)
  | DFloat t => FloatArray t (map (fun c => match c with CFloat f => f | _ => S754_nan end) cs)
  | DObject => ObjectArray (map (fun c => match c with CObj v => v | _ => VNone end) cs)
  end.

(** ** Series and frames *)

Record Series := { s_index : list string; s_values : ndarray }.

(** A frame: its columns, in order, each a label and an array, and the
    length of its row index. *)
Record DataFrame := { df_data : list (string * ndarray); df_len : nat }.

Definition columns (df : DataFrame) : list string := map fst (df_data df).
Definition dtypes (df : DataFrame) : list (string * dtype) :=
  map (fun c => (fst c, dtype_of (snd c))) (df_data df).

(** [df[col]] (the first column of that label). *)
Fixpoint getitem (cols : list (string * ndarray)) (col : string) : option ndarray :=
  match cols with
  | [] => None
  | (k, a) :: cols' => if String.eqb col k then Some a else getitem cols' col
  end.

(** [df[col] = a] on an existing label. *)
Fixpoint setitem (cols : list (string * ndarray)) (col : string) (a : ndarray)
  : list (string * ndarray) :=
  match cols with
  | [] => [(col, a)]
  | (k, b) :: cols' =>
      if String.eqb col k then (k, a) :: cols' else (k, b) :: setitem cols' col a
  end.

(** [df.where(pd.notnull(df), None)] *)
Definition df_where_notnull_None (df : DataFrame) : DataFrame :=
  {| df_data := map (fun c => (fst c, where_notnull_None (snd c))) (df_data df);
     df_len := df_len df |}.

(** [df.to_dict('records')]: one [dict(zip(columns, row))] per row. *)
Definition record_at (df : DataFrame) (i : nat) : dict :=
  dict_of (map (fun c => (fst c, item (snd c) i)) (df_data df)).

Definition to_dict_records (df : DataFrame) : list dict :=
  map (record_at df) (seq 0 (df_len df)).

(** [df.iloc[i]] and the rows of [df.iterrows()]: the row as a Series
    indexed by the column labels, its values interleaved into one array of
    the common dtype of the columns. *)
Definition row_series (df : DataFrame) (i : nat) : Series :=
  let d := find_common_type (map (fun c => dtype_of (snd c)) (df_data df)) in
  {| s_index := columns df;
     s_values := cells_to_array d (map (fun c => cast_item d (snd c) i) (df_data df)) |}.

Definition iterrows (df : DataFrame) : list Series :=
  map (row_series df) (seq 0 (df_len df)).

(** [s.where(pd.notnull(s), None)] *)
Definition series_where_notnull_None (s : Series) : Series :=
  {| s_index := s_index s; s_values := where_notnull_None (s_values s) |}.

(** [s.to_dict()] *)
Definition series_to_dict (s : Series) : dict :=
  dict_of (combine (s_index s) (map (item (s_values s)) (seq 0 (size (s_values s))))).

(** ** Reading a CSV file

    A file is described by what the three library calls of the source
    observe of it: [os.path.getsize], the lengths [len(line)] of its lines
    as text-mode iteration yields them (a line is never empty), and the
    outcome of the pandas tokenizer.  A tokenized field is a missing-value
    token, an integer literal, any other numeric literal (with the binary64
    nearest to it), or other text; numeric fields keep their text. *)

Inductive field :=
| FNA
| FInt (z : Z) (txt : string)
| FFloat (f : spec_float) (txt : string)
| FText (txt : string).

Inductive csv_source :=
| SrcEmpty
| SrcMalformed (msg : string)
| SrcTable (header : list string) (rows : list (list field)).

Record file := {
  st_size : Z;
  line_lengths : list positive;
  csv : csv_source
}.

Definition filesystem := string -> option file.

Definition is_int_field (c : field) : bool :=
  match c with FInt _ _ => true | _ => false end.
Definition is_numeric_field (c : field) : bool :=
  match c with FText _ => false | _ => true end.

Definition int_of_field (c : field) : Z :=
  match c with FInt z _ => z | _ => 0 end.
Definition float_of_field (c : field) : spec_float :=
  match c with
  | FInt z _ => float_of_Z float64 z
  | FFloat f _ => f
  | _ => S754_nan
  end.
Definition object_of_field (c : field) : value :=
  match c with
  | FNA => VFloat S754_nan
  | FInt _ txt | FFloat _ txt | FText txt => VStr txt
  end.

(** Type inference on the fields of one column: int64 when every field is
    an integer literal, float64 when every field is numeric or missing,
    object otherwise; a column without rows is object. *)
Definition infer_column (cells : list field) : ndarray :=
  match cells with
  | [] => ObjectArray []
  | _ =>
      if forallb is_int_field cells then IntArray int64 (map int_of_field cells)
      else if forallb is_numeric_field cells
           then FloatArray float64 (map float_of_field cells)
           else ObjectArray (map object_of_field cells)
  end.

(** The fields of column [j]; a row that is too short is filled with
    missing values. *)
Definition column_fields (j : nat) (rows : list (list field)) : list field :=
  map (fun r => nth j r FNA) rows.

Definition parse_frame (header : list string) (rows : list (list field)) : DataFrame :=
  {| df_data := map (fun jc => (snd jc, infer_column (column_fields (fst jc) rows)))
                    (combine (seq 0 (List.length header)) header);
     df_len := List.length rows |}.

Definition open_csv (fs : filesystem) (path : string) : result (list string * list (list field)) :=
  match fs path with
  | None =>
      Raise (FileNotFoundError ("[Errno 2] No such file or directory: '" ++ path ++ "'"))
  | Some f =>
      match csv f with
      | SrcEmpty => Raise (EmptyDataError "No columns to parse from file")
      | SrcMalformed msg => Raise (ParserError msg)
      | SrcTable header rows => Ok (header, rows)
      end
  end.

(** [pd.read_csv(path)] *)
Definition read_csv (fs : filesystem) (path : string) : result DataFrame :=
  bind (open_csv fs path) (fun t => Ok (parse_frame (fst t) (snd t))).

(** [pd.read_csv(path, nrows=n)] *)
Definition read_csv_nrows (fs : filesystem) (path : string) (n : nat) : result DataFrame :=
  bind (open_csv fs path) (fun t => Ok (parse_frame (fst t) (firstn n (snd t)))).

(** The successive reads of [n] rows; [fuel] bounds their number. *)
Fixpoint chunk_rows {A} (fuel : nat) (n : nat) (rows : list A) : list (list A) :=
  match fuel with
  | O => []
  | S fuel' =>
      match rows with
      | [] => []
      | _ => firstn n rows :: chunk_rows fuel' n (skipn n rows)
      end
  end.

(** The frames [pd.read_csv(path, chunksize=n)] yields when iterated to the
    end: every chunk is parsed, and its column types inferred, on its own.
    A table without rows still yields one, empty, first chunk. *)
Definition chunk_frames (header : list string) (rows : list (list field)) (n : nat)
  : list DataFrame :=
  match rows with
  | [] => [parse_frame header []]
  | _ => map (parse_frame header) (chunk_rows (List.length rows) n rows)
  end.

Definition read_csv_chunks (fs : filesystem) (path : string) (chunksize : Z)
  : result (list DataFrame) :=
  if chunksize <? 1 then Raise (ValueError "'chunksize' must be an integer >=1")
  else
    bind (open_csv fs path) (fun t =>
      Ok (chunk_frames (fst t) (snd t) (Z.to_nat chunksize))).

End Pandas.

Import Pandas.

(* ===================================================================== *)
(** * titanic/titanic.py *)
(* ===================================================================== *)

Module Titanic.

(** The three [except] clauses shared by [csv_to_json_formatter] and
    [csv_row_to_json], in the order they are tried. *)
Definition handlers {A} (csv_file_path : string) (r : result A) : result A :=
  match r with
  | Ok a => Ok a
  | Raise (FileNotFoundError _) =>
      Raise (FileNotFoundError ("CSV 파일을 찾을 수 없습니다: " ++ csv_file_path))
  | Raise (EmptyDataError _) =>
      Raise (ValueError "CSV 파일이 비어있습니다.")
  | Raise e =>
      Raise (Exception_ ("CSV 파일 처리 중 오류가 발생했습니다: " ++ str_exn e))
  end.

Definition csv_to_json_formatter (fs : filesystem) (csv_file_path : string)
  : result (list dict) :=
  handlers csv_file_path
    (bind (read_csv fs csv_file_path) (fun df =>
     let df := df_where_notnull_None df in
     let json_data := to_dict_records df in
     Ok json_data)).

Definition csv_row_to_json (fs : filesystem) (csv_file_path : string) (row_index : Z)
  : result dict :=
  handlers csv_file_path
    (bind (read_csv fs csv_file_path) (fun df =>
     let len_df := Z.of_nat (df_len df) in
     if (row_index <? 0) || (len_df <=? row_index) then
       Raise (IndexError ("행 인덱스가 범위를 벗어났습니다. 유효 범위: 0-"
                          ++ str_int (len_df - 1)))
     else
       let row := row_series df (Z.to_nat row_index) in
       let row_dict := series_to_dict (series_where_notnull_None row) in
       Ok row_dict)).

(** [range(n)] *)
Definition range (n : Z) : list Z := map Z.of_nat (seq 0 (Z.to_nat n)).

(** [data[i]] on a list: a negative index counts from the end. *)
Definition list_getitem {A} (data : list A) (i : Z) : result A :=
  let n := Z.of_nat (List.length data) in
  let j := if i <? 0 then i + n else i in
  match (if j <? 0 then None else nth_error data (Z.to_nat j)) with
  | Some x => Ok x
  | None => Raise (IndexError "list index out of range")
  end.

Definition rule : string := "--------------------------------------------------".

Definition sample_title (i : Z) : string := "샘플 " ++ str_int (i + 1) ++ ":".

(** The body of the loop of [print_json_sample] over the indices [indices];
    [out] holds the lines printed so far.  [dumps] is
    [json.dumps(_, ensure_ascii=False, indent=2)]. *)
Fixpoint print_samples (dumps : dict -> string) (data : list dict) (indices : list Z)
         (out : list string) : list string * result unit :=
  match indices with
  | [] => (out, Ok tt)
  | i :: indices' =>
      let out := (out ++ [sample_title i])%list in
      match list_getitem data i with
      | Raise e => (out, Raise e)
      | Ok d => print_samples dumps data indices' (out ++ [dumps d; rule])%list
      end
  end.

(** [print_json_sample]: the lines printed, and how the call ends. *)
Definition print_json_sample (dumps : dict -> string) (data : list dict) (num_samples : Z)
  : list string * result unit :=
  let len_data := Z.of_nat (List.length data) in
  let out := [ "총 " ++ str_int len_data ++ "개의 데이터 중 처음 "
                ++ str_int (Z.min num_samples len_data) ++ "개 샘플:";
               rule ] in
  print_samples dumps data (range (Z.min num_samples len_data)) out.

End Titanic.

(* ===================================================================== *)
(** * titanic/titanic_bigdata.py *)
(* ===================================================================== *)

Module BigData.

(** The instance attributes set by [__init__]. *)
Record BigDataCSVConverter := { chunk_size : Z; max_memory_mb : Z }.

Definition __init__ (chunk_size max_memory_mb : Z) : BigDataCSVConverter :=
  {| chunk_size := chunk_size; max_memory_mb := max_memory_mb |}.

(** The dictionary returned by [convert_large_csv]. *)
Record Stats := {
  total_rows : Z;
  chunk_count : Z;
  output_files : Z;
  processing_time : spec_float
}.

(** A file written by [_save_json_chunk]: its path and the list that was
    dumped into it.  Writing is taken to succeed; log lines are left out. *)
Definition artifact := (string * list dict)%type.

Definition _save_json_chunk (data : list dict) (output_file : string)
           (written : list artifact) : list artifact :=
  (written ++ [(output_file, data)])%list.

(** [os.path.getsize] *)
Definition getsize (fs : filesystem) (path : string) : result Z :=
  match fs path with
  | None =>
      Raise (FileNotFoundError ("[Errno 2] No such file or directory: '" ++ path ++ "'"))
  | Some f => Ok (st_size f)
  end.

(** The format specification [04d]. *)
Definition format_04d (z : Z) : string :=
  let digits := str_int (Z.abs z) in
  let sign := if z <? 0 then "-" else EmptyString in
  let width := (String.length sign + String.length digits)%nat in
  sign ++ String.concat EmptyString (repeat "0" (4 - width)%nat) ++ digits.

(** The body of the loop of [_optimize_dtypes] for the label [col]. *)
Definition optimize_step (df : list (string * ndarray)) (col : string)
  : list (string * ndarray) :=
  match getitem df col with
  | None => df
  | Some df_col =>
      if dtype_eqb (dtype_of df_col) (DInt int64) then
        if ge (amin df_col) 0 then
          if lt (amax df_col) 256 then setitem df col (astype_int uint8 df_col)
          else if lt (amax df_col) 65536 then setitem df col (astype_int uint16 df_col)
          else df
        else
          if gt (amin df_col) (-128) && lt (amax df_col) 128
          then setitem df col (astype_int int8 df_col)
          else if gt (amin df_col) (-32768) && lt (amax df_col) 32768
          then setitem df col (astype_int int16 df_col)
          else df
      else if dtype_eqb (dtype_of df_col) (DFloat float64) then
        setitem df col (astype_float32 df_col)
      else df
  end.

Definition _optimize_dtypes (df : DataFrame) : DataFrame :=
  {| df_data := fold_left optimize_step (columns df) (df_data df);
     df_len := df_len df |}.

(** The variables of [_process_large_file] that the loop updates, and the
    files written so far. *)
Record loop_state := {
  ls_total_rows : Z;
  ls_chunk_count : Z;
  ls_all_data : option (list dict);
  ls_written : list artifact
}.

Definition loop_body (output_dir : string) (split_files : bool)
           (st : loop_state) (chunk_df : DataFrame) : loop_state :=
  let chunk_count := ls_chunk_count st + 1 in
  let current_rows := Z.of_nat (df_len chunk_df) in
  let total_rows := ls_total_rows st + current_rows in
  let chunk_df := _optimize_dtypes chunk_df in
  let chunk_df := df_where_notnull_None chunk_df in
  let chunk_json := to_dict_records chunk_df in
  if split_files then
    let output_file := output_dir ++ "/chunk_" ++ format_04d chunk_count ++ ".json" in
    {| ls_total_rows := total_rows; ls_chunk_count := chunk_count;
       ls_all_data := ls_all_data st;
       ls_written := _save_json_chunk chunk_json output_file (ls_written st) |}
  else
    {| ls_total_rows := total_rows; ls_chunk_count := chunk_count;
       ls_all_data := option_map (fun all_data => (all_data ++ chunk_json)%list) (ls_all_data st);
       ls_written := ls_written st |}.

(** [_process_large_file]; [t1] and [t2] are the two readings of
    [datetime.now()] in the [return] statement, in microseconds.  The
    result comes with the files written, also when an exception leaves. *)
Definition _process_large_file (self : BigDataCSVConverter) (fs : filesystem)
           (t1 t2 : Z) (csv_file_path output_dir : string) (split_files : bool)
  : result Stats * list artifact :=
  let init := {| ls_total_rows := 0; ls_chunk_count := 0;
                 ls_all_data := if negb split_files then Some [] else None;
                 ls_written := [] |} in
  match read_csv_chunks fs csv_file_path (chunk_size self) with
  | Raise e => (Raise e, [])
  | Ok chunks =>
      let st := fold_left (loop_body output_dir split_files) chunks init in
      let written :=
        match ls_all_data st with
        | Some ((_ :: _) as all_data) =>
            if negb split_files then
              _save_json_chunk all_data (output_dir ++ "/complete_data.json") (ls_written st)
            else ls_written st
        | _ => ls_written st
        end in
      (Ok {| total_rows := ls_total_rows st;
             chunk_count := ls_chunk_count st;
             output_files := if split_files then ls_chunk_count st else 1;
             processing_time :=
               SFdiv 53 1024 (exact_of_int (t1 - t2)) (exact_of_int 1000000) |},
       written)
  end.

(** [convert_large_csv]; [clock n] is the [n]-th reading of
    [datetime.now()] during the call.  The output directory is taken to be
    creatable. *)
Definition convert_large_csv (self : BigDataCSVConverter) (fs : filesystem)
           (clock : nat -> Z) (csv_file_path output_dir : string) (split_files : bool)
  : result Stats * list artifact :=
  let start_time := clock 0%nat in
  match getsize fs csv_file_path with
  | Raise e => (Raise e, [])
  | Ok file_size =>
      _process_large_file self fs (clock 1%nat) (clock 2%nat)
                          csv_file_path output_dir split_files
  end.

(** [stream_json_processor]: the records the generator yields, in order,
    and the exception that ends it, if any. *)
Definition stream_json_processor (self : BigDataCSVConverter) (fs : filesystem)
           (csv_file_path : string) : list dict * option exn :=
  match read_csv_chunks fs csv_file_path (chunk_size self) with
  | Raise e => ([], Some e)
  | Ok chunks =>
      (flat_map (fun chunk_df =>
                   let chunk_df := _optimize_dtypes chunk_df in
                   let chunk_df := df_where_notnull_None chunk_df in
                   map series_to_dict (iterrows chunk_df))
                chunks,
       None)
  end.

(** The loop of [_estimate_total_rows] over the lines of the open file:
    [i] is the index [enumerate] gives, [lines] the list built so far. *)
Fixpoint sample_lines (i : Z) (f : list positive) (lines : list Z) : list Z :=
  match f with
  | [] => lines
  | line :: f' =>
      if 1000 <=? i then lines
      else sample_lines (i + 1) f' (lines ++ [Zpos line])%list
  end.

Definition sum (l : list Z) : Z := fold_left Z.add l 0.

Definition _estimate_total_rows (fs : filesystem) (csv_file_path : string)
  : result Z :=
  match fs csv_file_path with
  | None =>
      Raise (FileNotFoundError
               ("[Errno 2] No such file or directory: '" ++ csv_file_path ++ "'"))
  | Some f =>
      let lines := sample_lines 0 (line_lengths f) [] in
      bind (int_truediv (sum lines) (Z.of_nat (List.length lines))) (fun avg_line_length =>
      bind (getsize fs csv_file_path) (fun file_size =>
      bind (int_float_truediv file_size avg_line_length) int_))
  end.

Definition _recommend_chunk_size (file_size : Z) : result Z :=
  bind (int_truediv file_size (1024 * 1024)) (fun size_mb =>
  if SFltb size_mb (float_of_int 10) then Ok 1000
  else if SFltb size_mb (float_of_int 100) then Ok 5000
  else if SFltb size_mb (float_of_int 1000) then Ok 10000
  else Ok 50000).

Record FileInfo := {
  file_size_mb : spec_float;
  estimated_rows : Z;
  info_columns : list string;
  info_dtypes : list (string * dtype);
  recommended_chunk_size : Z
}.

Definition get_file_info (fs : filesystem) (csv_file_path : string)
  : result FileInfo :=
  bind (getsize fs csv_file_path) (fun file_size =>
  bind (read_csv_nrows fs csv_file_path 5) (fun sample_df =>
  bind (int_truediv file_size (1024 * 1024)) (fun size_mb =>
  bind (_estimate_total_rows fs csv_file_path) (fun est =>
  bind (_recommend_chunk_size file_size) (fun rec =>
  Ok {| file_size_mb := size_mb;
        estimated_rows := est;
        info_columns := columns sample_df;
        info_dtypes := dtypes sample_df;
        recommended_chunk_size := rec |}))))).

(** [_process_small_file]: the whole file as one frame, written to
    [data.json].  The [processing_time] entry is the constant 0. *)
Definition _process_small_file (self : BigDataCSVConverter) (fs : filesystem)
           (csv_file_path output_dir : string) : result Stats * list artifact :=
  match read_csv fs csv_file_path with
  | Raise e => (Raise e, [])
  | Ok df =>
      let df := _optimize_dtypes df in
      let df := df_where_notnull_None df in
      let json_data := to_dict_records df in
      let output_file := output_dir ++ "/data.json" in
      (Ok {| total_rows := Z.of_nat (df_len df);
             chunk_count := 1;
             output_files := 1;
             processing_time := S754_zero false |},
       _save_json_chunk json_data output_file [])
  end.

End BigData.

Import Titanic BigData.

(* ===================================================================== *)
(** * Notions used by the statements *)
(* ===================================================================== *)

(** The error kinds of the specification, read on the Python exception a
    call ends with. *)
Definition is_NotFound {A} (r : result A) : Prop :=
  exists msg, r = Raise (FileNotFoundError msg).
Definition is_EmptyInput {A} (r : result A) : Prop :=
  exists msg, r = Raise (ValueError msg).
Definition is_IndexOutOfRange {A} (r : result A) : Prop :=
  exists msg, r = Raise (IndexError msg).
Definition is_ProcessingError {A} (r : result A) : Prop :=
  exists msg, r = Raise (Exception_ msg).

(** A file with no data row: nothing at all in it, or a header alone. *)
Definition zero_data_rows (f : file) : Prop :=
  csv f = SrcEmpty \/ exists header, csv f = SrcTable header [].

(** ** A small passenger table

    Three rows in the layout of [data_sets/train.csv]; the second has no age
    and no cabin, the first no cabin. *)
Module Sample.

Definition f7_25 : spec_float := S754_finite false 8162774324609024 (-50).
Definition f71_2833 : spec_float := S754_finite false 5016116301839676 (-46).
Definition f8_4583 : spec_float := S754_finite false 4761599591023483 (-49).
Definition f22 : spec_float := S754_finite false 6192449487634432 (-48).
Definition f38 : spec_float := S754_finite false 5348024557502464 (-47).

Definition header : list string := ["PassengerId"; "Name"; "Age"; "Fare"; "Cabin"].

Definition rows : list (list field) :=
  [ [FInt 1 "1"; FText "Braund, Mr. Owen Harris"; FInt 22 "22"; FFloat f7_25 "7.25"; FNA];
    [FInt 6 "6"; FText "Moran, Mr. James"; FNA; FFloat f8_4583 "8.4583"; FNA];
    [FInt 2 "2"; FText "Cumings, Mrs. John Bradley"; FInt 38 "38";
     FFloat f71_2833 "71.2833"; FText "C85"] ].

Definition train : file :=
  {| st_size := 131; line_lengths := [35; 41; 25; 30]%positive;
     csv := SrcTable header rows |}.

Definition header_only : file :=
  {| st_size := 35; line_lengths := [35]%positive; csv := SrcTable header [] |}.

Definition empty : file :=
  {| st_size := 0; line_lengths := []; csv := SrcEmpty |}.

(** A table of integers and text only. *)
Definition id_header : list string := ["id"; "name"].

Definition id_rows : list (list field) :=
  [ [FInt 1 "1"; FText "a"]; [FInt 300 "300"; FText "b"]; [FInt 3 "3"; FText "c"] ].

Definition ids : file :=
  {| st_size := 22; line_lengths := [8; 4; 6; 4]%positive;
     csv := SrcTable id_header id_rows |}.

(** A table of numbers only: a class and a fare. *)
Definition numeric : file :=
  {| st_size := 19; line_lengths := [12; 7]%positive;
     csv := SrcTable ["Pclass"; "Fare"] [[FInt 3 "3"; FFloat f7_25 "7.25"]] |}.

Definition fs : filesystem := fun path =>
  if String.eqb path "train.csv" then Some train
  else if String.eqb path "numeric.csv" then Some numeric
  else if String.eqb path "header_only.csv" then Some header_only
  else if String.eqb path "empty.csv" then Some empty
  else if String.eqb path "ids.csv" then Some ids
  else None.

End Sample.

(** The exception that leaves [csv_row_to_json] on a bad index of a table
    of [n] rows. *)
Definition wrapped_index_error (n : nat) : exn :=
  Exception_ ("CSV 파일 처리 중 오류가 발생했습니다: "
              ++ "행 인덱스가 범위를 벗어났습니다. 유효 범위: 0-"
              ++ str_int (Z.of_nat n - 1)).

(** The error conditions of the whole-file conversion as the specification
    words them. *)
Definition convertAll_errors_as_stated (fs : filesystem) (path : string) : Prop :=
  let r := csv_to_json_formatter fs path in
  (is_NotFound r <-> fs path = None) /\
  (is_EmptyInput r <-> exists f, fs path = Some f /\ zero_data_rows f).

(** ** The chunked conversion, step by step *)

(** What [_optimize_dtypes] does to one column. *)
Definition narrowed (a : ndarray) : ndarray :=
  if dtype_eqb (dtype_of a) (DInt int64) then
    if ge (amin a) 0 then
      if lt (amax a) 256 then astype_int uint8 a
      else if lt (amax a) 65536 then astype_int uint16 a
      else a
    else
      if gt (amin a) (-128) && lt (amax a) 128 then astype_int int8 a
      else if gt (amin a) (-32768) && lt (amax a) 32768 then astype_int int16 a
      else a
  else if dtype_eqb (dtype_of a) (DFloat float64) then astype_float32 a
  else a.

(** The records [_process_large_file] makes of one chunk. *)
Definition chunk_json (chunk_df : DataFrame) : list dict :=
  to_dict_records (df_where_notnull_None (_optimize_dtypes chunk_df)).

(** The path of the file of the [k]-th chunk. *)
Definition chunk_file (output_dir : string) (k : Z) : string :=
  output_dir ++ "/chunk_" ++ format_04d k ++ ".json".

(** [enumerate(chunks, start=k)] *)
Fixpoint enumerate_from {A} (k : Z) (l : list A) : list (Z * A) :=
  match l with
  | [] => []
  | x :: l' => (k, x) :: enumerate_from (k + 1) l'
  end.

(** The files [_process_large_file] has written after the chunks [chunks]. *)
Definition files_written (output_dir : string) (split_files : bool)
           (chunks : list DataFrame) : list artifact :=
  if split_files then
    map (fun kc => (chunk_file output_dir (fst kc), chunk_json (snd kc)))
        (enumerate_from 1 chunks)
  else
    match flat_map chunk_json chunks with
    | [] => []
    | all_data => [(output_dir ++ "/complete_data.json", all_data)]
    end.

(** [ceil(a / b)] for [b > 0]. *)
Definition ceil_div (a b : Z) : Z := (a + b - 1) / b.

(** ** Narrowing *)

(** Every value of the list lies in the range of the dtype. *)
Definition fits (t : int_dtype) (l : list Z) : bool := forallb (in_range t) l.

(** The clause of the specification on signed columns: a column with a
    negative value whose values all fit in [int8] becomes [int8]. *)
Definition signed_narrowing_as_stated (df : DataFrame) : Prop :=
  forall col l lo,
    In (col, IntArray int64 l) (df_data df) ->
    list_min l = Some lo -> lo < 0 ->
    fits int8 l = true ->
    In (col, IntArray int8 l) (df_data (_optimize_dtypes df)).

Module NarrowingSample.

(** One column of temperature differences that reaches the least [int8]. *)
Definition deltas : DataFrame :=
  {| df_data := [("delta", IntArray int64 [-128; 5])]; df_len := 2 |}.

End NarrowingSample.

(** ** Records as a function of the source row *)

(** The dtype inferred for column [j] of a table. *)
Definition col_dtype (rows : list (list field)) (j : nat) : dtype :=
  dtype_of (infer_column (column_fields j rows)).

(** The value a field has in a whole-file record, given the dtype of its
    column. *)
Definition object_cell (c : field) : value :=
  if isnull (object_of_field c) then VNone else object_of_field c.

Definition cell_value (d : dtype) (c : field) : value :=
  match d with
  | DInt _ => VInt (int_of_field c)
  | DFloat _ => VFloat (float_of_field c)
  | DObject => object_cell c
  end.

(** The record of one source row under the column dtypes [dt]. *)
Definition row_record (dt : nat -> dtype) (header : list string) (r : list field) : dict :=
  map (fun jc => (snd jc, cell_value (dt (fst jc)) (nth (fst jc) r FNA)))
      (combine (seq 0 (List.length header)) header).

(** A float value after a passage through float32. *)
Definition narrow_value (v : value) : value :=
  match v with
  | VFloat f => VFloat (round_to float64 (round_to float32 f))
  | _ => v
  end.

Definition map_values (g : value -> value) (d : dict) : dict :=
  map (fun kv => (fst kv, g (snd kv))) d.

(** Every chunk of [n] rows infers, for every column, the dtype the whole
    table infers. *)
Definition dtypes_stable (header : list string) (rows : list (list field)) (n : nat) : bool :=
  forallb (fun chunk =>
             forallb (fun j => dtype_eqb (col_dtype chunk j) (col_dtype rows j))
                     (seq 0 (List.length header)))
          (chunk_rows (List.length rows) n rows).

Definition is_float_dtype (d : dtype) : bool :=
  match d with DFloat _ => true | _ => false end.

(** No column of the table is inferred as a float column. *)
Definition no_float_column (header : list string) (rows : list (list field)) : bool :=
  forallb (fun j => negb (is_float_dtype (col_dtype rows j))) (seq 0 (List.length header)).

(** All the records [convert_large_csv] has written, file after file. *)
Definition records_written (written : list artifact) : list dict :=
  List.concat (map snd written).

(** The equality of the chunked and the whole-file record sequences, as the
    specification states it. *)
Definition chunks_equal_whole_as_stated (self : BigDataCSVConverter) (fs : filesystem)
           (clock : nat -> Z) (path out : string) (split : bool) : Prop :=
  forall whole,
    csv_to_json_formatter fs path = Ok whole ->
    records_written (snd (convert_large_csv self fs clock path out split)) = whole.

(** ** Sizes

    What the operating system and the interpreter guarantee of the numbers
    read from a file: its size and the length of each of its lines are
    non-negative 64-bit quantities ([off_t], [Py_ssize_t]). *)
Definition word_sized (f : file) : Prop :=
  0 <= st_size f < 2 ^ 63
  /\ Forall (fun n => Zpos n < 2 ^ 63) (line_lengths f).

(** ** Single rows *)

(** The element of a freshly read column, before any null handling. *)
Definition raw_cell_value (d : dtype) (c : field) : value :=
  match d with
  | DInt _ => VInt (int_of_field c)
  | DFloat _ => VFloat (float_of_field c)
  | DObject => object_of_field c
  end.

(** [None] in place of a null value. *)
Definition null_to_None (v : value) : value := if isnull v then VNone else v.

(** The record [csv_row_to_json] makes of a source row when the row Series
    has the object dtype. *)
Definition object_row_record (dt : nat -> dtype) (header : list string) (r : list field)
  : dict :=
  map (fun jc => (snd jc, null_to_None (raw_cell_value (dt (fst jc)) (nth (fst jc) r FNA))))
      (combine (seq 0 (List.length header)) header).

Definition is_object_dtype (d : dtype) : bool :=
  match d with DObject => true | _ => false end.

(** Some column of the table is inferred as a text (object) column. *)
Definition has_object_column (header : list string) (rows : list (list field)) : bool :=
  existsb (fun j => is_object_dtype (col_dtype rows j)) (seq 0 (List.length header)).

(** No cell of the row is null in a float column. *)
Definition no_missing_number (header : list string) (rows : list (list field))
           (r : list field) : bool :=
  forallb (fun j => negb (is_float_dtype (col_dtype rows j)
                          && isnull (VFloat (float_of_field (nth j r FNA)))))
          (seq 0 (List.length header)).

(** ** Chunk numbers *)

(** The number a string of decimal digits denotes ([int(s)]). *)
Definition number_of_digits (s : string) : option Z :=
  option_map Z.of_uint (NilEmpty.uint_of_string s).

(** Every chunk of [n] rows has a column inferred as text. *)
Definition every_chunk_has_text (header : list string) (rows : list (list field)) (n : nat)
  : bool :=
  forallb (has_object_column header) (chunk_rows (List.length rows) n rows).

(** ** File sizes in megabytes *)

(** The binary64 that is exactly [x / 2 ^ 20], for [0 < x < 2 ^ 53]. *)
Definition megabytes (x : Z) : spec_float :=
  S754_finite false (Z.to_pos (x * 2 ^ (53 - Zdigits2 x))) (Zdigits2 x - 73).

(** The recommended chunk size as a table over the size in bytes. *)
Definition chunk_size_bracket (file_size : Z) : Z :=
  if file_size <? 10 * 2 ^ 20 then 1000
  else if file_size <? 100 * 2 ^ 20 then 5000
  else if file_size <? 1000 * 2 ^ 20 then 10000
  else 50000.

(** ** Rows of a table of numbers *)

(** Some column of the table is inferred as a float column. *)
Definition has_float_column (header : list string) (rows : list (list field)) : bool :=
  existsb (fun j => is_float_dtype (col_dtype rows j)) (seq 0 (List.length header)).

(** The record of a source row all of whose values are floats. *)
Definition float_row_record (header : list string) (r : list field) : dict :=
  map (fun jc => (snd jc, VFloat (float_of_field (nth (fst jc) r FNA))))
      (combine (seq 0 (List.length header)) header).

(** ** Printed samples *)

(** The three lines printed for the sample numbered [k]. *)
Definition sample_lines_of (dumps : dict -> string) (kd : Z * dict) : list string :=
  ["샘플 " ++ str_int (fst kd) ++ ":"; dumps (snd kd); rule].

(** The dtypes [read_csv] gives a column of numbers. *)
Definition is_number_dtype (d : dtype) : Prop := d = DInt int64 \/ d = DFloat float64.

(* ===================================================================== *)
(** * Properties *)
(* ===================================================================== *)

(** ** Error translation in [titanic.py] *)

Lemma handlers_Ok {A} path (r : result A) (a : A) :
  handlers path r = Ok a <-> r = Ok a.
Proof.
  destruct r as [a' | e]; simpl.
  - tauto.
  - destruct e; split; discriminate.
Qed.

Lemma read_csv_table fs path f header rows :
  fs path = Some f -> csv f = SrcTable header rows ->
  read_csv fs path = Ok (parse_frame header rows).
Proof.
  intros Hf Hc. unfold read_csv, open_csv. now rewrite Hf, Hc.
Qed.

Lemma length_to_dict_records df :
  List.length (to_dict_records df) = df_len df.
Proof.
  unfold to_dict_records. now rewrite length_map, length_seq.
Qed.

(** C4. On a file with [n] data rows, an index below 0 or at least [n] makes
    [csv_row_to_json] raise: the [IndexError] of the range check is caught by
    the last [except] clause of the same function, so what leaves is a bare
    [Exception] whose text names the valid range only; it is not an
    [IndexError].  Every index from 0 to [n - 1] gives a record. *)
Theorem csv_row_to_json_index_check fs path f header rows idx :
  fs path = Some f ->
  csv f = SrcTable header rows ->
  (idx < 0 \/ Z.of_nat (List.length rows) <= idx ->
   csv_row_to_json fs path idx = Raise (wrapped_index_error (List.length rows))
   /\ ~ is_IndexOutOfRange (csv_row_to_json fs path idx))
  /\ (0 <= idx < Z.of_nat (List.length rows) ->
      exists r, csv_row_to_json fs path idx = Ok r).
Proof.
  intros Hf Hc. unfold csv_row_to_json.
  rewrite (read_csv_table _ _ _ _ _ Hf Hc). cbn [bind parse_frame df_len].
  split.
  - intros Hout.
    assert (Hb : (idx <? 0) || (Z.of_nat (List.length rows) <=? idx) = true).
    { apply orb_true_iff. destruct Hout; [left; apply Z.ltb_lt | right; apply Z.leb_le]; lia. }
    rewrite Hb. cbn [handlers str_exn]. split; [reflexivity|].
    intros [msg Hmsg]. discriminate Hmsg.
  - intros Hin.
    assert (Hb : (idx <? 0) || (Z.of_nat (List.length rows) <=? idx) = false).
    { apply orb_false_iff. split; [apply Z.ltb_ge | apply Z.leb_gt]; lia. }
    rewrite Hb. cbn [handlers]. eexists. reflexivity.
Qed.

Lemma csv_row_to_json_index_check_witness :
  (csv_row_to_json Sample.fs "train.csv" 3 = Raise (wrapped_index_error 3)
   /\ ~ is_IndexOutOfRange (csv_row_to_json Sample.fs "train.csv" 3))
  /\ (exists r, csv_row_to_json Sample.fs "train.csv" 2 = Ok r).
Proof.
  split.
  - apply (proj1 (csv_row_to_json_index_check Sample.fs "train.csv" Sample.train
                    Sample.header Sample.rows 3 eq_refl eq_refl)).
    right. simpl. lia.
  - apply (proj2 (csv_row_to_json_index_check Sample.fs "train.csv" Sample.train
                    Sample.header Sample.rows 2 eq_refl eq_refl)).
    simpl. lia.
Defined.

(** ** Outcomes of the whole-file conversion *)

Lemma convertAll_header_only :
  csv_to_json_formatter Sample.fs "header_only.csv" = Ok [].
Proof. reflexivity. Qed.

(** C5, as stated, fails on a file that holds a header and no data row: the
    conversion returns the empty list instead of failing with a
    [ValueError]. *)
Lemma convertAll_errors_as_stated_fails :
  ~ convertAll_errors_as_stated Sample.fs "header_only.csv".
Proof.
  intros [_ [_ H]].
  destruct H as [msg Hmsg].
  - exists Sample.header_only. split; [reflexivity|].
    right. exists Sample.header. reflexivity.
  - rewrite convertAll_header_only in Hmsg. discriminate Hmsg.
Qed.

(** C5, amended.  [csv_to_json_formatter] raises [FileNotFoundError] exactly
    when the path does not exist, [ValueError] exactly when the file has no
    column to parse (nothing in it), and a bare [Exception] carrying the text
    of the cause exactly when the tokenizer fails; on a file with a header it
    returns one record per data row, none for a header alone. *)
Theorem csv_to_json_formatter_outcomes fs path :
  let r := csv_to_json_formatter fs path in
  (is_NotFound r <-> fs path = None)
  /\ (is_EmptyInput r <-> exists f, fs path = Some f /\ csv f = SrcEmpty)
  /\ (is_ProcessingError r <->
      exists f msg, fs path = Some f /\ csv f = SrcMalformed msg)
  /\ (forall f msg,
        fs path = Some f -> csv f = SrcMalformed msg ->
        r = Raise (Exception_ ("CSV 파일 처리 중 오류가 발생했습니다: " ++ msg)))
  /\ (forall f header rows,
        fs path = Some f -> csv f = SrcTable header rows ->
        exists recs, r = Ok recs /\ List.length recs = List.length rows).
Proof.
  unfold csv_to_json_formatter, read_csv, open_csv,
    is_NotFound, is_EmptyInput, is_ProcessingError.
  destruct (fs path) as [f|] eqn:Hf; [destruct (csv f) eqn:Hc|]; cbn;
    repeat match goal with
           | |- _ /\ _ => split
           | |- _ <-> _ => split
           | |- _ -> _ => intro
           | H : exists _, _ |- _ => destruct H
           | H : _ /\ _ |- _ => destruct H
           | H : Some _ = Some _ |- _ => injection H as H; subst
           end;
    try discriminate; try congruence; eauto.
  - eexists. split; [reflexivity|].
    unfold to_dict_records. rewrite length_map, length_seq. cbn. congruence.
Qed.

Lemma csv_to_json_formatter_outcomes_witness :
  exists recs, csv_to_json_formatter Sample.fs "train.csv" = Ok recs
               /\ List.length recs = 3%nat.
Proof.
  exact (proj2 (proj2 (proj2 (proj2
           (csv_to_json_formatter_outcomes Sample.fs "train.csv"))))
           Sample.train Sample.header Sample.rows eq_refl eq_refl).
Defined.

(** ** The memory limit *)

(** C9. Two converters with the same [chunk_size] behave alike whatever
    their [max_memory_mb]: [convert_large_csv] returns the same statistics
    and writes the same files with the same contents, and
    [stream_json_processor] yields the same records. *)
Theorem max_memory_mb_is_not_read (c1 c2 : BigDataCSVConverter) fs clock path out split :
  chunk_size c1 = chunk_size c2 ->
  convert_large_csv c1 fs clock path out split
  = convert_large_csv c2 fs clock path out split
  /\ stream_json_processor c1 fs path = stream_json_processor c2 fs path.
Proof.
  intros H.
  unfold convert_large_csv, _process_large_file, stream_json_processor.
  rewrite H. split; reflexivity.
Qed.

Lemma max_memory_mb_is_not_read_witness :
  convert_large_csv (__init__ 2 500) Sample.fs (fun _ => 0) "train.csv" "out" true
  = convert_large_csv (__init__ 2 1) Sample.fs (fun _ => 0) "train.csv" "out" true
  /\ stream_json_processor (__init__ 2 500) Sample.fs "train.csv"
     = stream_json_processor (__init__ 2 1) Sample.fs "train.csv".
Proof.
  apply max_memory_mb_is_not_read. reflexivity.
Defined.

(** ** Dictionaries built from distinct keys *)

Lemma dict_set_fresh (d : dict) k v :
  ~ In k (keys d) -> dict_set d k v = (d ++ [(k, v)])%list.
Proof.
  induction d as [|[k' v'] d IH]; simpl; intros Hk; [reflexivity|].
  destruct (String.eqb_spec k k') as [->|Hne].
  - exfalso. apply Hk. now left.
  - rewrite IH; [reflexivity|]. intros Hin. apply Hk. now right.
Qed.

Lemma dict_of_acc (pairs acc : list (string * value)) :
  NoDup (map fst acc ++ map fst pairs) ->
  fold_left (fun d kv => dict_set d (fst kv) (snd kv)) pairs acc
  = (acc ++ pairs)%list.
Proof.
  revert acc. induction pairs as [|[k v] pairs IH]; intros acc Hnd; simpl.
  - now rewrite app_nil_r.
  - rewrite dict_set_fresh.
    + rewrite IH.
      * now rewrite <- app_assoc.
      * rewrite map_app. simpl. rewrite <- app_assoc. exact Hnd.
    + simpl in Hnd. apply NoDup_remove_2 in Hnd.
      intros Hin. apply Hnd. apply in_or_app. now left.
Qed.

Lemma dict_of_distinct (pairs : list (string * value)) :
  NoDup (map fst pairs) -> dict_of pairs = pairs.
Proof.
  intros Hnd. unfold dict_of. now rewrite dict_of_acc.
Qed.

Lemma keys_dict_of_distinct (pairs : list (string * value)) :
  NoDup (map fst pairs) -> keys (dict_of pairs) = map fst pairs.
Proof.
  intros Hnd. now rewrite dict_of_distinct.
Qed.

(** ** Column labels of a frame *)

Lemma map_snd_combine_seq {A} (l : list A) (s : nat) :
  map snd (combine (seq s (List.length l)) l) = l.
Proof.
  revert s. induction l as [|x l IH]; intros s; simpl; [reflexivity|].
  now rewrite IH.
Qed.

Lemma columns_parse_frame header rows :
  columns (parse_frame header rows) = header.
Proof.
  unfold columns, parse_frame. cbn [df_data].
  rewrite map_map. cbn [fst]. apply map_snd_combine_seq.
Qed.

Lemma columns_where df :
  columns (df_where_notnull_None df) = columns df.
Proof.
  unfold columns, df_where_notnull_None. cbn [df_data].
  now rewrite map_map.
Qed.

Lemma keys_record_at df i :
  NoDup (columns df) -> keys (record_at df i) = columns df.
Proof.
  intros Hnd. unfold record_at.
  rewrite keys_dict_of_distinct; rewrite map_map; cbn [fst]; auto.
Qed.

(** ** [_optimize_dtypes] column by column *)

Lemma getitem_at done k a todo :
  ~ In k (map fst done) ->
  getitem (done ++ (k, a) :: todo) k = Some a.
Proof.
  induction done as [|[k' b] done IH]; simpl; intros Hk.
  - now rewrite String.eqb_refl.
  - destruct (String.eqb_spec k k') as [->|Hne]; [tauto|].
    apply IH. tauto.
Qed.

Lemma setitem_at done k a b todo :
  ~ In k (map fst done) ->
  setitem (done ++ (k, a) :: todo) k b = (done ++ (k, b) :: todo)%list.
Proof.
  induction done as [|[k' c] done IH]; simpl; intros Hk.
  - now rewrite String.eqb_refl.
  - destruct (String.eqb_spec k k') as [->|Hne]; [tauto|].
    rewrite IH; tauto.
Qed.

Lemma optimize_step_at done k a todo :
  ~ In k (map fst done) ->
  optimize_step (done ++ (k, a) :: todo) k = (done ++ (k, narrowed a) :: todo)%list.
Proof.
  intros Hk. unfold optimize_step, narrowed.
  rewrite getitem_at by assumption.
  repeat match goal with
         | |- context [if ?c then _ else _] => destruct c
         end;
    try reflexivity; now rewrite setitem_at.
Qed.

Lemma optimize_fold done todo :
  NoDup (map fst done ++ map fst todo) ->
  fold_left optimize_step (map fst todo) (done ++ todo)%list
  = (done ++ map (fun c => (fst c, narrowed (snd c))) todo)%list.
Proof.
  revert done. induction todo as [|[k a] todo IH]; intros done Hnd; simpl.
  - reflexivity.
  - rewrite optimize_step_at.
    + change (done ++ (k, narrowed a) :: todo)%list
        with (done ++ [(k, narrowed a)] ++ todo)%list.
      rewrite app_assoc, IH.
      * now rewrite <- app_assoc.
      * rewrite map_app. simpl. rewrite <- app_assoc. exact Hnd.
    + simpl in Hnd. apply NoDup_remove_2 in Hnd.
      intros Hin. apply Hnd. apply in_or_app. now left.
Qed.

Lemma optimize_dtypes_columnwise df :
  NoDup (columns df) ->
  df_data (_optimize_dtypes df)
  = map (fun c => (fst c, narrowed (snd c))) (df_data df).
Proof.
  intros Hnd. unfold _optimize_dtypes. cbn [df_data].
  apply (optimize_fold [] (df_data df)). exact Hnd.
Qed.

Lemma columns_optimize df :
  NoDup (columns df) -> columns (_optimize_dtypes df) = columns df.
Proof.
  intros Hnd. unfold columns at 1.
  rewrite optimize_dtypes_columnwise by assumption.
  now rewrite map_map.
Qed.

(** ** Reading in chunks *)

Lemma concat_chunk_rows {A} (n fuel : nat) (rows : list A) :
  (1 <= n)%nat -> (List.length rows <= fuel)%nat ->
  List.concat (chunk_rows fuel n rows) = rows.
Proof.
  intros Hn. revert rows.
  induction fuel as [|fuel IH]; intros rows Hlen.
  - destruct rows; [reflexivity | simpl in Hlen; lia].
  - destruct rows as [|r rows]; [reflexivity|].
    cbn [chunk_rows List.concat].
    rewrite IH.
    + apply firstn_skipn.
    + rewrite length_skipn. cbn [List.length] in *. lia.
Qed.

Lemma length_chunk_rows {A} (n fuel : nat) (rows : list A) :
  (1 <= n)%nat -> (List.length rows <= fuel)%nat ->
  Z.of_nat (List.length (chunk_rows fuel n rows))
  = ceil_div (Z.of_nat (List.length rows)) (Z.of_nat n).
Proof.
  intros Hn. unfold ceil_div. revert rows.
  induction fuel as [|fuel IH]; intros rows Hlen.
  - destruct rows; [|simpl in Hlen; lia].
    simpl. symmetry. apply Z.div_small. lia.
  - destruct rows as [|r rows].
    + simpl. symmetry. apply Z.div_small. lia.
    + cbn [chunk_rows].
      change (List.length (firstn n (r :: rows) :: chunk_rows fuel n (skipn n (r :: rows))))
        with (S (List.length (chunk_rows fuel n (skipn n (r :: rows))))).
      rewrite Nat2Z.inj_succ, IH
        by (rewrite length_skipn; cbn [List.length] in *; lia).
      rewrite length_skipn.
      remember (List.length (r :: rows)) as len eqn:Hl.
      assert (1 <= len)%nat by (subst len; cbn [List.length]; lia).
      destruct (Nat.le_gt_cases len n) as [Hle|Hgt].
      * replace (len - n)%nat with 0%nat by lia.
        rewrite (Z.div_small (Z.of_nat 0 + _ - 1)) by lia.
        apply Z.div_unique with (r := Z.of_nat len - 1); lia.
      * rewrite Nat2Z.inj_sub by lia.
        replace (Z.of_nat len + Z.of_nat n - 1)
          with ((Z.of_nat len - Z.of_nat n + Z.of_nat n - 1) + 1 * Z.of_nat n) by lia.
        rewrite Z.div_add by lia. lia.
Qed.

Lemma list_sum_lengths {A} (ls : list (list A)) :
  list_sum (map (@List.length A) ls) = List.length (List.concat ls).
Proof.
  induction ls as [|l ls IH]; simpl; [reflexivity|].
  now rewrite length_app, IH.
Qed.

Lemma rows_of_chunk_frames header rows n :
  (1 <= n)%nat ->
  list_sum (map df_len (chunk_frames header rows n)) = List.length rows.
Proof.
  intros Hn. unfold chunk_frames.
  destruct rows as [|r rows]; [reflexivity|].
  rewrite map_map.
  rewrite (map_ext _ (@List.length (list field))) by reflexivity.
  rewrite list_sum_lengths, concat_chunk_rows; auto.
Qed.

Lemma length_chunk_frames header rows n :
  (1 <= n)%nat -> rows <> [] ->
  Z.of_nat (List.length (chunk_frames header rows n))
  = ceil_div (Z.of_nat (List.length rows)) (Z.of_nat n).
Proof.
  intros Hn Hrows. unfold chunk_frames.
  destruct rows as [|r rows]; [congruence|].
  rewrite length_map. apply length_chunk_rows; auto.
Qed.

(** ** The loop of [_process_large_file] *)

Lemma loop_total_rows out split chunks st :
  ls_total_rows (fold_left (loop_body out split) chunks st)
  = ls_total_rows st + Z.of_nat (list_sum (map df_len chunks)).
Proof.
  revert st. induction chunks as [|c chunks IH]; intros st; simpl.
  - lia.
  - rewrite IH. unfold loop_body. destruct split; cbn [ls_total_rows]; lia.
Qed.

Lemma loop_chunk_count out split chunks st :
  ls_chunk_count (fold_left (loop_body out split) chunks st)
  = ls_chunk_count st + Z.of_nat (List.length chunks).
Proof.
  revert st. induction chunks as [|c chunks IH]; intros st.
  - simpl. lia.
  - cbn [fold_left List.length]. rewrite IH.
    unfold loop_body. destruct split; cbn [ls_chunk_count]; lia.
Qed.

Lemma loop_written_split out chunks st :
  ls_written (fold_left (loop_body out true) chunks st)
  = (ls_written st
     ++ map (fun kc => (chunk_file out (fst kc), chunk_json (snd kc)))
            (enumerate_from (ls_chunk_count st + 1) chunks))%list.
Proof.
  revert st. induction chunks as [|c chunks IH]; intros st.
  - simpl. now rewrite app_nil_r.
  - cbn [fold_left enumerate_from map]. rewrite IH.
    unfold loop_body. cbn [ls_written ls_chunk_count].
    unfold _save_json_chunk. rewrite <- app_assoc. reflexivity.
Qed.

Lemma loop_written_single out chunks st :
  ls_written (fold_left (loop_body out false) chunks st) = ls_written st.
Proof.
  revert st. induction chunks as [|c chunks IH]; intros st; simpl; [reflexivity|].
  now rewrite IH.
Qed.

Lemma loop_all_data out split chunks st :
  ls_all_data (fold_left (loop_body out split) chunks st)
  = if split then ls_all_data st
    else option_map (fun d => (d ++ flat_map chunk_json chunks)%list) (ls_all_data st).
Proof.
  revert st. induction chunks as [|c chunks IH]; intros st.
  - simpl. destruct split; [reflexivity|].
    destruct (ls_all_data st); simpl; [now rewrite app_nil_r | reflexivity].
  - cbn [fold_left flat_map]. rewrite IH.
    unfold loop_body. destruct split; cbn [ls_all_data]; [reflexivity|].
    destruct (ls_all_data st); simpl; [|reflexivity].
    unfold chunk_json. now rewrite <- app_assoc.
Qed.

(** The outcome of [_process_large_file] on a file with a header, in closed
    form. *)
Lemma process_large_file_table self fs t1 t2 path out split f header rows :
  fs path = Some f -> csv f = SrcTable header rows -> 1 <= chunk_size self ->
  let chunks := chunk_frames header rows (Z.to_nat (chunk_size self)) in
  _process_large_file self fs t1 t2 path out split
  = (Ok {| total_rows := Z.of_nat (List.length rows);
           chunk_count := Z.of_nat (List.length chunks);
           output_files := if split then Z.of_nat (List.length chunks) else 1;
           processing_time :=
             SFdiv 53 1024 (exact_of_int (t1 - t2)) (exact_of_int 1000000) |},
     files_written out split chunks).
Proof.
  intros Hf Hc Hn chunks.
  unfold _process_large_file, read_csv_chunks, open_csv.
  rewrite Hf, Hc. replace (chunk_size self <? 1) with false by (symmetry; apply Z.ltb_ge; lia).
  cbn [bind fst snd]. fold chunks.
  rewrite loop_total_rows, loop_chunk_count, loop_all_data.
  cbn [ls_total_rows ls_chunk_count ls_all_data].
  replace (list_sum (map df_len chunks)) with (List.length rows)
    by (symmetry; apply rows_of_chunk_frames; lia).
  unfold files_written.
  destruct split; cbn [negb option_map app].
  - rewrite loop_written_split. reflexivity.
  - rewrite loop_written_single. cbn [ls_written].
    destruct (flat_map chunk_json chunks); reflexivity.
Qed.

Lemma nth_error_enumerate_from {A} (l : list A) (k : Z) (i : nat) :
  nth_error (enumerate_from k l) i
  = option_map (fun x => (k + Z.of_nat i, x)) (nth_error l i).
Proof.
  revert k i. induction l as [|x l IH]; intros k [|i]; cbn [enumerate_from nth_error option_map].
  - reflexivity.
  - reflexivity.
  - do 2 f_equal. lia.
  - rewrite IH. destruct (nth_error l i); cbn [option_map]; [|reflexivity].
    do 2 f_equal. lia.
Qed.

Lemma length_enumerate_from {A} (l : list A) (k : Z) :
  List.length (enumerate_from k l) = List.length l.
Proof.
  revert k. induction l as [|x l IH]; intros k; simpl; [reflexivity|].
  now rewrite IH.
Qed.

Lemma df_len_chunk_json c : List.length (chunk_json c) = df_len c.
Proof.
  unfold chunk_json. now rewrite length_to_dict_records.
Qed.

Lemma length_flat_map_chunk_json chunks :
  List.length (flat_map chunk_json chunks) = list_sum (map df_len chunks).
Proof.
  induction chunks as [|c chunks IH]; simpl; [reflexivity|].
  now rewrite length_app, IH, df_len_chunk_json.
Qed.

(** ** The format of the chunk number *)

Lemma format_04d_digit k :
  1 <= k <= 9 -> format_04d k = "000" ++ str_int k.
Proof.
  intros H.
  assert (Hk : k = 1 \/ k = 2 \/ k = 3 \/ k = 4 \/ k = 5 \/ k = 6 \/ k = 7
               \/ k = 8 \/ k = 9) by lia.
  repeat (destruct Hk as [->|Hk]; [reflexivity|]). subst k. reflexivity.
Qed.

Lemma format_04d_width k :
  0 <= k <= 9999 -> String.length (format_04d k) = 4%nat.
Proof.
  intros H.
  assert (Hall : forallb (fun n => Nat.eqb (String.length (format_04d (Z.of_nat n))) 4)
                         (seq 0 (Z.to_nat 10000)) = true) by (vm_compute; reflexivity).
  rewrite forallb_forall in Hall.
  specialize (Hall (Z.to_nat k)).
  rewrite Z2Nat.id in Hall by lia.
  apply Nat.eqb_eq, Hall, in_seq. lia.
Qed.

(** ** Statistics and files of the chunked conversion *)

(** C6. On a file with [N > 0] data rows and a converter reading [R >= 1]
    rows per chunk, [convert_large_csv] returns statistics with
    [total_rows = N], [chunk_count = ceil(N / R)] and [output_files] equal to
    [chunk_count] when files are split and to 1 otherwise, and it has written
    exactly [output_files] files: when split, the records of the [k]-th chunk
    go to [output_dir/chunk_<k>.json] with [k] in the format [04d] (which is
    [000k] for one digit and four characters up to 9999); otherwise all
    records go to [output_dir/complete_data.json]. *)
Theorem convert_large_csv_counts self fs clock path out split f header rows :
  fs path = Some f ->
  csv f = SrcTable header rows ->
  rows <> [] ->
  1 <= chunk_size self ->
  exists stats written,
    convert_large_csv self fs clock path out split = (Ok stats, written)
    /\ total_rows stats = Z.of_nat (List.length rows)
    /\ chunk_count stats = ceil_div (Z.of_nat (List.length rows)) (chunk_size self)
    /\ output_files stats = (if split then chunk_count stats else 1)
    /\ Z.of_nat (List.length written) = output_files stats
    /\ (let chunks := chunk_frames header rows (Z.to_nat (chunk_size self)) in
        if split then
          forall i c, nth_error chunks i = Some c ->
                      nth_error written i
                      = Some (out ++ "/chunk_" ++ format_04d (Z.of_nat i + 1) ++ ".json",
                              chunk_json c)
        else
          written = [(out ++ "/complete_data.json", flat_map chunk_json chunks)])
    /\ (forall k, 1 <= k <= 9 -> format_04d k = "000" ++ str_int k)
    /\ (forall k, 0 <= k <= 9999 -> String.length (format_04d k) = 4%nat).
Proof.
  intros Hf Hc Hrows Hn.
  unfold convert_large_csv, getsize. rewrite Hf.
  rewrite (process_large_file_table _ _ _ _ _ _ _ _ _ _ Hf Hc Hn).
  cbv zeta.
  set (chunks := chunk_frames header rows (Z.to_nat (chunk_size self))).
  assert (Hcount : Z.of_nat (List.length chunks)
                   = ceil_div (Z.of_nat (List.length rows)) (chunk_size self)).
  { unfold chunks. rewrite length_chunk_frames by (auto; lia).
    now rewrite Z2Nat.id by lia. }
  assert (Hdata : flat_map chunk_json chunks <> []).
  { intros Hnil. apply (f_equal (@List.length dict)) in Hnil.
    rewrite length_flat_map_chunk_json in Hnil.
    unfold chunks in Hnil. rewrite rows_of_chunk_frames in Hnil by lia.
    destruct rows; [congruence | discriminate]. }
  do 2 eexists. split; [reflexivity|].
  cbn [total_rows chunk_count output_files].
  repeat split; auto using format_04d_digit, format_04d_width.
  - unfold files_written. destruct split.
    + now rewrite length_map, length_enumerate_from.
    + destruct (flat_map chunk_json chunks); [congruence | reflexivity].
  - unfold files_written. destruct split.
    + intros i c Hi.
      rewrite nth_error_map, nth_error_enumerate_from, Hi. cbn [option_map fst snd].
      replace (1 + Z.of_nat i) with (Z.of_nat i + 1) by lia. reflexivity.
    + destruct (flat_map chunk_json chunks); [congruence | reflexivity].
Qed.

Lemma convert_large_csv_counts_witness :
  exists stats written,
    convert_large_csv (__init__ 2 500) Sample.fs (fun _ => 0) "train.csv" "out" true
    = (Ok stats, written)
    /\ total_rows stats = 3
    /\ chunk_count stats = 2
    /\ output_files stats = 2
    /\ map fst written = ["out/chunk_0001.json"; "out/chunk_0002.json"].
Proof.
  destruct (convert_large_csv_counts (__init__ 2 500) Sample.fs (fun _ => 0)
              "train.csv" "out" true Sample.train Sample.header Sample.rows
              eq_refl eq_refl ltac:(discriminate) ltac:(cbn; lia))
    as (stats & written & Heq & Ht & Hc & Ho & Hl & Hw & _).
  exists stats, written.
  split; [exact Heq|].
  split; [exact Ht|].
  split; [exact Hc|].
  split; [rewrite Ho; exact Hc|].
  vm_compute in Heq. injection Heq as _ <-. reflexivity.
Defined.

(** ** Keys of the records *)

Lemma map_fst_combine {A B} (l : list A) (l' : list B) :
  List.length l = List.length l' -> map fst (combine l l') = l.
Proof.
  revert l'. induction l as [|x l IH]; intros [|y l'] H; simpl in *;
    try reflexivity; try discriminate.
  now rewrite IH by lia.
Qed.

Lemma size_cells_to_array d cs : size (cells_to_array d cs) = List.length cs.
Proof.
  destruct d; simpl; now rewrite length_map.
Qed.

Lemma size_where a : size (where_notnull_None a) = size a.
Proof.
  destruct a; simpl; [reflexivity | reflexivity | now rewrite length_map].
Qed.

Lemma keys_series_to_dict s :
  NoDup (s_index s) -> List.length (s_index s) = size (s_values s) ->
  keys (series_to_dict s) = s_index s.
Proof.
  intros Hnd Hlen. unfold series_to_dict.
  assert (Hfst : map fst (combine (s_index s)
                                  (map (item (s_values s)) (seq 0 (size (s_values s)))))
                 = s_index s).
  { apply map_fst_combine. now rewrite length_map, length_seq. }
  rewrite keys_dict_of_distinct; rewrite Hfst; auto.
Qed.

Lemma keys_row_series df i :
  NoDup (columns df) -> keys (series_to_dict (row_series df i)) = columns df.
Proof.
  intros Hnd. rewrite keys_series_to_dict; cbn [row_series s_index s_values]; auto.
  rewrite size_cells_to_array, length_map. unfold columns. now rewrite length_map.
Qed.

Lemma keys_row_series_where df i :
  NoDup (columns df) ->
  keys (series_to_dict (series_where_notnull_None (row_series df i))) = columns df.
Proof.
  intros Hnd.
  rewrite keys_series_to_dict;
    cbn [series_where_notnull_None row_series s_index s_values]; auto.
  rewrite size_where, size_cells_to_array, length_map.
  unfold columns. now rewrite length_map.
Qed.

Lemma keys_to_dict_records df :
  NoDup (columns df) ->
  Forall (fun r => keys r = columns df) (to_dict_records df).
Proof.
  intros Hnd. unfold to_dict_records. apply Forall_map, Forall_forall.
  intros i _. now apply keys_record_at.
Qed.

Lemma keys_chunk_json c :
  NoDup (columns c) -> Forall (fun r => keys r = columns c) (chunk_json c).
Proof.
  intros Hnd. unfold chunk_json.
  rewrite <- (columns_optimize c Hnd), <- columns_where.
  apply keys_to_dict_records.
  now rewrite columns_where, columns_optimize.
Qed.

Lemma columns_chunk_frames header rows n :
  Forall (fun c => columns c = header) (chunk_frames header rows n).
Proof.
  unfold chunk_frames. destruct rows as [|r rows].
  - constructor; [apply columns_parse_frame | constructor].
  - apply Forall_map, Forall_forall. intros c _. apply columns_parse_frame.
Qed.

Lemma Forall_flat_map {A B} (P : B -> Prop) (f : A -> list B) (l : list A) :
  Forall (fun x => Forall P (f x)) l -> Forall P (flat_map f l).
Proof.
  induction 1; simpl; [constructor | apply Forall_app; auto].
Qed.

Lemma keys_files_written out split header chunks :
  NoDup header ->
  Forall (fun c => columns c = header) chunks ->
  Forall (fun art : artifact => Forall (fun r => keys r = header) (snd art))
         (files_written out split chunks).
Proof.
  intros Hnd Hcols.
  assert (Hall : Forall (fun c => Forall (fun r => keys r = header) (chunk_json c)) chunks).
  { eapply Forall_impl; [|exact Hcols]. intros c Hc. cbv beta in Hc.
    rewrite <- Hc. apply keys_chunk_json. now rewrite Hc. }
  unfold files_written. destruct split.
  - apply Forall_map. cbn [snd]. clear Hcols.
    generalize 1. induction Hall as [|c chunks Hc _ IH]; intros k; simpl; constructor; auto.
  - apply Forall_flat_map in Hall.
    destruct (flat_map chunk_json chunks) as [|r l]; constructor; [|constructor].
    exact Hall.
Qed.

(** C8. On a file whose header labels are distinct, every record that
    [csv_to_json_formatter], [csv_row_to_json], [convert_large_csv] (in each
    file it writes) and [stream_json_processor] produce has exactly the header
    labels as its keys, in the order of the header. *)
Theorem records_carry_header fs path f header rows :
  fs path = Some f ->
  csv f = SrcTable header rows ->
  NoDup header ->
  (forall recs, csv_to_json_formatter fs path = Ok recs ->
                Forall (fun r => keys r = header) recs)
  /\ (forall i r, csv_row_to_json fs path i = Ok r -> keys r = header)
  /\ (forall self clock out split,
        Forall (fun art : artifact => Forall (fun r => keys r = header) (snd art))
               (snd (convert_large_csv self fs clock path out split)))
  /\ (forall self,
        Forall (fun r => keys r = header) (fst (stream_json_processor self fs path))).
Proof.
  intros Hf Hc Hnd.
  assert (Hcols : forall rs, NoDup (columns (parse_frame header rs)))
    by (intros; now rewrite columns_parse_frame).
  repeat split.
  - intros recs. unfold csv_to_json_formatter.
    rewrite (read_csv_table _ _ _ _ _ Hf Hc). cbn [bind handlers].
    intros [= <-].
    pose proof (keys_to_dict_records (df_where_notnull_None (parse_frame header rows))) as H.
    rewrite columns_where, columns_parse_frame in H. now apply H.
  - intros i r. unfold csv_row_to_json.
    rewrite (read_csv_table _ _ _ _ _ Hf Hc). cbn [bind].
    destruct (_ || _); cbn [handlers str_exn]; [discriminate|].
    intros [= <-]. rewrite keys_row_series_where by auto.
    apply columns_parse_frame.
  - intros self clock out split.
    unfold convert_large_csv, getsize. rewrite Hf.
    destruct (Z_lt_le_dec (chunk_size self) 1) as [Hlt|Hle].
    + unfold _process_large_file, read_csv_chunks.
      replace (chunk_size self <? 1) with true by (symmetry; apply Z.ltb_lt; lia).
      constructor.
    + rewrite (process_large_file_table _ _ _ _ _ _ _ _ _ _ Hf Hc Hle).
      cbn [snd]. apply keys_files_written; auto using columns_chunk_frames.
  - intros self. unfold stream_json_processor, read_csv_chunks, open_csv.
    rewrite Hf, Hc.
    destruct (chunk_size self <? 1); cbn [bind fst snd]; [constructor|].
    apply Forall_flat_map.
    eapply Forall_impl; [|apply columns_chunk_frames].
    intros c Hcc. cbv beta in Hcc.
    unfold iterrows. apply Forall_map, Forall_map, Forall_forall. intros i _.
    rewrite keys_row_series.
    + now rewrite columns_where, columns_optimize, Hcc by (now rewrite Hcc).
    + now rewrite columns_where, columns_optimize, Hcc by (now rewrite Hcc).
Qed.

Lemma records_carry_header_witness :
  (forall recs, csv_to_json_formatter Sample.fs "train.csv" = Ok recs ->
                Forall (fun r => keys r = Sample.header) recs)
  /\ (forall i r, csv_row_to_json Sample.fs "train.csv" i = Ok r ->
                  keys r = Sample.header)
  /\ (forall self clock out split,
        Forall (fun art : artifact => Forall (fun r => keys r = Sample.header) (snd art))
               (snd (convert_large_csv self Sample.fs clock "train.csv" out split)))
  /\ (forall self,
        Forall (fun r => keys r = Sample.header)
               (fst (stream_json_processor self Sample.fs "train.csv"))).
Proof.
  apply (records_carry_header Sample.fs "train.csv" Sample.train Sample.header
           Sample.rows eq_refl eq_refl).
  unfold Sample.header.
  repeat (constructor; [simpl; intuition discriminate|]). constructor.
Defined.

(** ** Narrowing of the column types *)

Lemma fold_min_spec (l : list Z) (x : Z) :
  fold_left Z.min l x <= x /\ Forall (fun z => fold_left Z.min l x <= z) l.
Proof.
  revert x. induction l as [|y l IH]; intros x; simpl.
  - split; [lia | constructor].
  - destruct (IH (Z.min x y)) as [H1 H2]. split; [lia|].
    constructor; [lia | exact H2].
Qed.

Lemma fold_max_spec (l : list Z) (x : Z) :
  x <= fold_left Z.max l x /\ Forall (fun z => z <= fold_left Z.max l x) l.
Proof.
  revert x. induction l as [|y l IH]; intros x; simpl.
  - split; [lia | constructor].
  - destruct (IH (Z.max x y)) as [H1 H2]. split; [lia|].
    constructor; [lia | exact H2].
Qed.

Lemma list_min_le l lo : list_min l = Some lo -> Forall (fun z => lo <= z) l.
Proof.
  destruct l as [|x l]; [discriminate|]. intros [= <-].
  destruct (fold_min_spec l x). constructor; auto.
Qed.

Lemma list_max_ge l hi : list_max l = Some hi -> Forall (fun z => z <= hi) l.
Proof.
  destruct l as [|x l]; [discriminate|]. intros [= <-].
  destruct (fold_max_spec l x). constructor; auto.
Qed.

Lemma wrap_in_range t z : in_range t z = true -> wrap t z = z.
Proof.
  unfold in_range, wrap, int_min, int_max. intros H.
  apply andb_true_iff in H. destruct H as [H1 H2].
  apply Z.leb_le in H1, H2.
  destruct t; cbn in *; try (apply Z.mod_small; lia);
    rewrite Z.mod_small; lia.
Qed.

Lemma bounds_fit t l lo hi :
  list_min l = Some lo -> list_max l = Some hi ->
  int_min t <= lo -> hi <= int_max t -> fits t l = true.
Proof.
  intros Hlo Hhi Hmin Hmax. apply forallb_forall. intros z Hz.
  pose proof (list_min_le _ _ Hlo) as Hl. pose proof (list_max_ge _ _ Hhi) as Hh.
  rewrite Forall_forall in Hl, Hh. specialize (Hl z Hz). specialize (Hh z Hz).
  unfold in_range. apply andb_true_iff. split; apply Z.leb_le; lia.
Qed.

Lemma astype_int_fits t s l :
  fits t l = true -> astype_int t (IntArray s l) = IntArray t l.
Proof.
  intros H. cbn [astype_int]. f_equal.
  rewrite <- (map_id l) at 2. apply map_ext_in. intros z Hz.
  apply wrap_in_range. unfold fits in H. rewrite forallb_forall in H. auto.
Qed.

(** The dtype chosen for an int64 column, its values untouched. *)
Lemma narrowed_int64 l :
  exists t,
    narrowed (IntArray int64 l) = IntArray t l
    /\ (fits int64 l = true -> fits t l = true)
    /\ forall lo hi,
        list_min l = Some lo -> list_max l = Some hi ->
        (0 <= lo -> hi < 256 -> t = uint8)
        /\ (0 <= lo -> 256 <= hi < 65536 -> t = uint16)
        /\ (0 <= lo -> 65536 <= hi -> t = int64)
        /\ (-128 < lo < 0 -> hi < 128 -> t = int8)
        /\ (-32768 < lo < 0 -> lo < -128 \/ 128 <= hi -> hi < 32768 -> t = int16)
        /\ (lo < 0 -> lo < -32768 \/ 32768 <= hi -> t = int64).
Proof.
  unfold narrowed. cbn [dtype_of dtype_eqb int_dtype_eqb amin amax].
  destruct (list_min l) as [lo|] eqn:Hlo.
  2:{ exists int64. cbn. repeat split; auto; discriminate. }
  destruct (list_max l) as [hi|] eqn:Hhi.
  2:{ destruct l; discriminate. }
  cbn [ge gt lt].
  destruct (Z.leb_spec 0 lo) as [H0|H0].
  - destruct (Z.ltb_spec hi 256) as [H1|H1]; [|destruct (Z.ltb_spec hi 65536) as [H2|H2]].
    + exists uint8. rewrite astype_int_fits by (eapply bounds_fit; eauto; cbn; lia).
      split; [reflexivity|]. split; [intros _; eapply bounds_fit; eauto; cbn; lia|].
      intros lo' hi' [= <-] [= <-]. repeat split; intros; try reflexivity; lia.
    + exists uint16. rewrite astype_int_fits by (eapply bounds_fit; eauto; cbn; lia).
      split; [reflexivity|]. split; [intros _; eapply bounds_fit; eauto; cbn; lia|].
      intros lo' hi' [= <-] [= <-]. repeat split; intros; try reflexivity; lia.
    + exists int64. split; [reflexivity|]. split; [auto|].
      intros lo' hi' [= <-] [= <-]. repeat split; intros; try reflexivity; lia.
  - destruct (Z.ltb_spec (-128) lo) as [H1|H1]; cbn [andb].
    + destruct (Z.ltb_spec hi 128) as [H2|H2].
      * exists int8. rewrite astype_int_fits by (eapply bounds_fit; eauto; cbn; lia).
        split; [reflexivity|]. split; [intros _; eapply bounds_fit; eauto; cbn; lia|].
        intros lo' hi' [= <-] [= <-]. repeat split; intros; try reflexivity; lia.
      * destruct (Z.ltb_spec (-32768) lo) as [H3|H3]; [|lia]. cbn [andb].
        destruct (Z.ltb_spec hi 32768) as [H4|H4].
        -- exists int16. rewrite astype_int_fits by (eapply bounds_fit; eauto; cbn; lia).
           split; [reflexivity|]. split; [intros _; eapply bounds_fit; eauto; cbn; lia|].
           intros lo' hi' [= <-] [= <-]. repeat split; intros; try reflexivity; lia.
        -- exists int64. split; [reflexivity|]. split; [auto|].
           intros lo' hi' [= <-] [= <-]. repeat split; intros; try reflexivity; lia.
    + destruct (Z.ltb_spec (-32768) lo) as [H3|H3]; cbn [andb].
      * destruct (Z.ltb_spec hi 32768) as [H4|H4].
        -- exists int16. rewrite astype_int_fits by (eapply bounds_fit; eauto; cbn; lia).
           split; [reflexivity|]. split; [intros _; eapply bounds_fit; eauto; cbn; lia|].
           intros lo' hi' [= <-] [= <-]. repeat split; intros; try reflexivity; lia.
        -- exists int64. split; [reflexivity|]. split; [auto|].
           intros lo' hi' [= <-] [= <-]. repeat split; intros; try reflexivity; lia.
      * exists int64. split; [reflexivity|]. split; [auto|].
        intros lo' hi' [= <-] [= <-]. repeat split; intros; try reflexivity; lia.
Qed.

Lemma narrowed_float64 l :
  narrowed (FloatArray float64 l) = FloatArray float32 (map (round_to float32) l).
Proof. reflexivity. Qed.

Lemma narrowed_other a :
  dtype_of a <> DInt int64 -> dtype_of a <> DFloat float64 -> narrowed a = a.
Proof.
  intros Hi Hf. unfold narrowed.
  destruct a as [[] l|[] l|l]; cbn in *; congruence.
Qed.

Lemma in_optimize_dtypes df col a :
  NoDup (columns df) ->
  In (col, a) (df_data df) -> In (col, narrowed a) (df_data (_optimize_dtypes df)).
Proof.
  intros Hnd Hin. rewrite optimize_dtypes_columnwise by assumption.
  apply (in_map (fun c => (fst c, narrowed (snd c))) _ _ Hin).
Qed.

(** C7, as stated, fails on a column that reaches -128: all its values fit
    in [int8], and [_optimize_dtypes] makes it an [int16] column. *)
Lemma signed_narrowing_as_stated_fails :
  ~ signed_narrowing_as_stated NarrowingSample.deltas
  /\ df_data (_optimize_dtypes NarrowingSample.deltas)
     = [("delta", IntArray int16 [-128; 5])].
Proof.
  split; [|reflexivity].
  intros H.
  specialize (H "delta" [-128; 5] (-128) (or_introl eq_refl) eq_refl eq_refl eq_refl).
  cbn in H. destruct H as [H|[]]. discriminate H.
Qed.

(** C7, amended.  On a frame with distinct labels [_optimize_dtypes] keeps
    labels, order and length; it turns every float64 column into the float32
    column of its values rounded to single precision; it gives every int64
    column one of the dtypes uint8, uint16, int8, int16 or leaves it int64,
    with its values unchanged and all inside the range of the dtype chosen,
    namely: uint8 for a minimum of at least 0 and a maximum under 256, uint16
    for a maximum from 256 to 65535, int8 for a negative minimum above -128
    and a maximum under 128, int16 for a negative minimum above -32768 and a
    maximum under 32768 when the column is not inside the int8 range, and
    int64 (no change) beyond the 16-bit ranges; every other column is left as
    it is. *)
Theorem optimize_dtypes_narrowing df :
  NoDup (columns df) ->
  columns (_optimize_dtypes df) = columns df
  /\ df_len (_optimize_dtypes df) = df_len df
  /\ (forall col l,
        In (col, FloatArray float64 l) (df_data df) ->
        In (col, FloatArray float32 (map (round_to float32) l))
           (df_data (_optimize_dtypes df)))
  /\ (forall col l,
        In (col, IntArray int64 l) (df_data df) ->
        exists t,
          In (col, IntArray t l) (df_data (_optimize_dtypes df))
          /\ (fits int64 l = true -> fits t l = true)
          /\ forall lo hi,
              list_min l = Some lo -> list_max l = Some hi ->
              (0 <= lo -> hi < 256 -> t = uint8)
              /\ (0 <= lo -> 256 <= hi < 65536 -> t = uint16)
              /\ (0 <= lo -> 65536 <= hi -> t = int64)
              /\ (-128 < lo < 0 -> hi < 128 -> t = int8)
              /\ (-32768 < lo < 0 -> lo < -128 \/ 128 <= hi -> hi < 32768 -> t = int16)
              /\ (lo < 0 -> lo < -32768 \/ 32768 <= hi -> t = int64))
  /\ (forall col a,
        In (col, a) (df_data df) ->
        dtype_of a <> DInt int64 -> dtype_of a <> DFloat float64 ->
        In (col, a) (df_data (_optimize_dtypes df))).
Proof.
  intros Hnd.
  split; [now apply columns_optimize|].
  split; [reflexivity|].
  split; [|split].
  - intros col l Hin. rewrite <- narrowed_float64. now apply in_optimize_dtypes.
  - intros col l Hin.
    destruct (narrowed_int64 l) as (t & Ht & Hfit & Hsel).
    exists t. split; [|split; assumption].
    rewrite <- Ht. now apply in_optimize_dtypes.
  - intros col a Hin Hi Hf.
    pose proof (in_optimize_dtypes df col a Hnd Hin) as H.
    now rewrite (narrowed_other a Hi Hf) in H.
Qed.

Lemma optimize_dtypes_narrowing_witness :
  let df := parse_frame Sample.header Sample.rows in
  columns (_optimize_dtypes df) = Sample.header
  /\ In ("PassengerId", IntArray uint8 [1; 6; 2]) (df_data (_optimize_dtypes df))
  /\ In ("Fare", FloatArray float32
                  (map (round_to float32) [Sample.f7_25; Sample.f8_4583; Sample.f71_2833]))
        (df_data (_optimize_dtypes df)).
Proof.
  intros df.
  assert (Hnd : NoDup (columns df)).
  { unfold df. rewrite columns_parse_frame. unfold Sample.header.
    repeat (constructor; [simpl; intuition discriminate|]). constructor. }
  destruct (optimize_dtypes_narrowing df Hnd) as (Hc & _ & Hf & Hi & _).
  split; [rewrite Hc; apply columns_parse_frame|].
  split.
  - destruct (Hi "PassengerId" [1; 6; 2]) as (t & Hin & _ & Hsel).
    + cbn. auto.
    + destruct (Hsel 1 6 eq_refl eq_refl) as (H8 & _).
      rewrite (H8 ltac:(lia) ltac:(lia)) in Hin. exact Hin.
  - apply Hf. cbn. auto 6.
Defined.

(** ** Records as a function of the source row *)

Lemma dtype_eqb_eq a b : dtype_eqb a b = true -> a = b.
Proof.
  destruct a as [[]|[]|], b as [[]|[]|]; cbn; congruence.
Qed.

Lemma map_nth_seq {A B} (g : A -> B) (l : list A) (d : A) :
  map (fun i => g (nth i l d)) (seq 0 (List.length l)) = map g l.
Proof.
  induction l as [|x l IH]; [reflexivity|].
  cbn [List.length seq map nth]. f_equal.
  rewrite <- seq_shift, map_map. exact IH.
Qed.

Lemma nth_column_fields j rows i :
  nth i (column_fields j rows) FNA = nth j (nth i rows []) FNA.
Proof.
  unfold column_fields.
  transitivity (nth i (map (fun r => nth j r FNA) rows) (nth j [] FNA)).
  - f_equal. destruct j; reflexivity.
  - apply (map_nth (fun r => nth j r FNA)).
Qed.

Lemma nth_map_default {A B} (f : A -> B) (l : list A) (d : A) (d' : B) (i : nat) :
  d' = f d -> nth i (map f l) d' = f (nth i l d).
Proof. intros ->. apply map_nth. Qed.

Lemma item_whole cells i :
  item (where_notnull_None (infer_column cells)) i
  = cell_value (dtype_of (infer_column cells)) (nth i cells FNA).
Proof.
  unfold infer_column.
  destruct cells as [|c0 cells]; [destruct i; reflexivity|].
  set (cs := c0 :: cells).
  destruct (forallb is_int_field cs); [|destruct (forallb is_numeric_field cs)];
    cbn [where_notnull_None item dtype_of cell_value box_float].
  - f_equal. now apply nth_map_default.
  - f_equal. now apply nth_map_default.
  - rewrite map_map. now apply (nth_map_default object_cell).
Qed.

Lemma narrow_cell_object c : narrow_value (cell_value DObject c) = cell_value DObject c.
Proof. destruct c; reflexivity. Qed.

Lemma item_chunk cells i :
  item (where_notnull_None (narrowed (infer_column cells))) i
  = narrow_value (cell_value (dtype_of (infer_column cells)) (nth i cells FNA)).
Proof.
  unfold infer_column.
  destruct cells as [|c0 cells]; [destruct i; reflexivity|].
  set (cs := c0 :: cells).
  destruct (forallb is_int_field cs); [|destruct (forallb is_numeric_field cs)].
  - destruct (narrowed_int64 (map int_of_field cs)) as (t & -> & _).
    cbn [where_notnull_None item dtype_of cell_value narrow_value].
    f_equal. now apply nth_map_default.
  - rewrite narrowed_float64.
    cbn [where_notnull_None item dtype_of cell_value narrow_value box_float].
    rewrite map_map. do 2 f_equal.
    now apply (nth_map_default (fun x => round_to float32 (float_of_field x))).
  - rewrite narrowed_other by discriminate.
    cbn [dtype_of]. rewrite narrow_cell_object.
    cbn [where_notnull_None item cell_value]. rewrite map_map.
    now apply (nth_map_default object_cell).
Qed.

Lemma NoDup_columns_parse_frame header rows :
  NoDup header -> NoDup (columns (parse_frame header rows)).
Proof. now rewrite columns_parse_frame. Qed.

Lemma record_at_whole header rows i :
  NoDup header ->
  record_at (df_where_notnull_None (parse_frame header rows)) i
  = row_record (col_dtype rows) header (nth i rows []).
Proof.
  intros Hnd. unfold record_at.
  rewrite dict_of_distinct.
  - cbn [df_where_notnull_None parse_frame df_data]. rewrite !map_map.
    unfold row_record. apply map_ext. intros [j c]. cbn [fst snd].
    rewrite item_whole, nth_column_fields. reflexivity.
  - rewrite map_map. cbn [fst].
    change (NoDup (columns (df_where_notnull_None (parse_frame header rows)))).
    now rewrite columns_where, columns_parse_frame.
Qed.

Lemma record_at_chunk header rows i :
  NoDup header ->
  record_at (df_where_notnull_None (_optimize_dtypes (parse_frame header rows))) i
  = map_values narrow_value (row_record (col_dtype rows) header (nth i rows [])).
Proof.
  intros Hnd. unfold record_at.
  pose proof (NoDup_columns_parse_frame header rows Hnd) as Hnd'.
  rewrite dict_of_distinct.
  - cbn [df_where_notnull_None df_data].
    rewrite optimize_dtypes_columnwise by assumption.
    cbn [parse_frame df_data]. unfold row_record, map_values. rewrite !map_map.
    apply map_ext. intros [j c]. cbn [fst snd].
    rewrite item_chunk, nth_column_fields. reflexivity.
  - rewrite map_map. cbn [fst].
    change (NoDup (columns (df_where_notnull_None
                              (_optimize_dtypes (parse_frame header rows))))).
    now rewrite columns_where, columns_optimize.
Qed.

Lemma whole_records header rows :
  NoDup header ->
  to_dict_records (df_where_notnull_None (parse_frame header rows))
  = map (row_record (col_dtype rows) header) rows.
Proof.
  intros Hnd. unfold to_dict_records.
  cbn [df_where_notnull_None parse_frame df_len].
  rewrite <- (map_nth_seq (row_record (col_dtype rows) header) rows []).
  apply map_ext. intros i. now apply record_at_whole.
Qed.

Lemma chunk_records header rows :
  NoDup header ->
  chunk_json (parse_frame header rows)
  = map (fun r => map_values narrow_value (row_record (col_dtype rows) header r)) rows.
Proof.
  intros Hnd. unfold chunk_json, to_dict_records.
  cbn [df_where_notnull_None _optimize_dtypes parse_frame df_len].
  rewrite <- (map_nth_seq (fun r => map_values narrow_value
                                     (row_record (col_dtype rows) header r)) rows []).
  apply map_ext. intros i. now apply record_at_chunk.
Qed.

(** ** Chunked against whole-file conversion *)

Lemma records_of_files_written out split chunks :
  records_written (files_written out split chunks) = flat_map chunk_json chunks.
Proof.
  unfold records_written, files_written. destruct split.
  - generalize 1. induction chunks as [|c chunks IH]; intros k; [reflexivity|].
    cbn [enumerate_from map List.concat flat_map fst snd]. now rewrite IH.
  - destruct (flat_map chunk_json chunks) as [|r l]; [reflexivity|].
    cbn [map List.concat snd]. apply app_nil_r.
Qed.

Lemma row_record_ext dt dt' header r :
  (forall j, (j < List.length header)%nat -> dt j = dt' j) ->
  row_record dt header r = row_record dt' header r.
Proof.
  intros H. unfold row_record. apply map_ext_in. intros [j c] Hin.
  apply in_combine_l, in_seq in Hin. cbn [fst snd]. rewrite H by lia. reflexivity.
Qed.

Lemma chunked_records header rows n :
  NoDup header -> (1 <= n)%nat ->
  dtypes_stable header rows n = true ->
  flat_map chunk_json (chunk_frames header rows n)
  = map (fun r => map_values narrow_value (row_record (col_dtype rows) header r)) rows.
Proof.
  intros Hnd Hn Hst. unfold chunk_frames.
  destruct rows as [|r0 rows']; [reflexivity|].
  set (rows := r0 :: rows') in *.
  unfold dtypes_stable in Hst. rewrite forallb_forall in Hst.
  rewrite <- (concat_chunk_rows n (List.length rows) rows) at 3 by auto.
  rewrite concat_map, flat_map_concat_map, map_map. f_equal.
  apply map_ext_in. intros c Hc.
  rewrite chunk_records by assumption.
  apply map_ext. intros r. f_equal. apply row_record_ext. intros j Hj.
  specialize (Hst c Hc). rewrite forallb_forall in Hst.
  apply dtype_eqb_eq, Hst, in_seq. lia.
Qed.

Lemma map_values_id g (d : dict) :
  (forall kv, In kv d -> g (snd kv) = snd kv) -> map_values g d = d.
Proof.
  intros H. unfold map_values. rewrite <- (map_id d) at 2.
  apply map_ext_in. intros [k v] Hin. cbn [fst snd]. f_equal. exact (H _ Hin).
Qed.

Lemma narrow_row_record_no_float header rows r :
  no_float_column header rows = true ->
  map_values narrow_value (row_record (col_dtype rows) header r)
  = row_record (col_dtype rows) header r.
Proof.
  intros Hnf. apply map_values_id. intros [k v] Hin.
  unfold row_record in Hin. apply in_map_iff in Hin.
  destruct Hin as ([j c] & Heq & Hin). cbn [fst snd] in *. injection Heq as _ <-.
  apply in_combine_l, in_seq in Hin.
  unfold no_float_column in Hnf. rewrite forallb_forall in Hnf.
  specialize (Hnf j). rewrite in_seq in Hnf. specialize (Hnf Hin).
  destruct (col_dtype rows j); cbn in *; [reflexivity | discriminate |].
  apply narrow_cell_object.
Qed.

(** C3, as stated, fails on the three-row sample read in one chunk of ten
    rows: the fares 8.4583 and 71.2833 come out of the chunked conversion
    rounded to single precision. *)
Lemma chunks_equal_whole_as_stated_fails :
  ~ chunks_equal_whole_as_stated (__init__ 10 500) Sample.fs (fun _ => 0)
      "train.csv" "out" true.
Proof.
  intros H. specialize (H _ eq_refl). vm_compute in H. discriminate H.
Qed.

(** C3, amended.  For a file with distinct header labels and a chunk size of
    at least 1 such that every chunk infers the column types the whole table
    infers, the records written by [convert_large_csv], chunk after chunk in
    order, are the records of [csv_to_json_formatter] with every float value
    rounded to single precision; the two sequences are equal when the table
    has no float column. *)
Theorem chunked_records_vs_whole self fs clock path out split f header rows :
  fs path = Some f ->
  csv f = SrcTable header rows ->
  NoDup header ->
  1 <= chunk_size self ->
  dtypes_stable header rows (Z.to_nat (chunk_size self)) = true ->
  exists whole,
    csv_to_json_formatter fs path = Ok whole
    /\ records_written (snd (convert_large_csv self fs clock path out split))
       = map (map_values narrow_value) whole
    /\ (no_float_column header rows = true ->
        records_written (snd (convert_large_csv self fs clock path out split)) = whole).
Proof.
  intros Hf Hc Hnd Hn Hst.
  exists (map (row_record (col_dtype rows) header) rows).
  assert (Hwritten :
            records_written (snd (convert_large_csv self fs clock path out split))
            = map (map_values narrow_value) (map (row_record (col_dtype rows) header) rows)).
  { unfold convert_large_csv, getsize. rewrite Hf.
    rewrite (process_large_file_table _ _ _ _ _ _ _ _ _ _ Hf Hc Hn).
    cbn [snd]. rewrite records_of_files_written, chunked_records by (auto; lia).
    now rewrite map_map. }
  split; [|split].
  - unfold csv_to_json_formatter.
    rewrite (read_csv_table _ _ _ _ _ Hf Hc). cbn [bind handlers].
    now rewrite whole_records.
  - exact Hwritten.
  - intros Hnf. rewrite Hwritten, map_map.
    apply map_ext. intros r. now apply narrow_row_record_no_float.
Qed.

Lemma chunked_records_vs_whole_witness :
  (exists whole,
     csv_to_json_formatter Sample.fs "train.csv" = Ok whole
     /\ records_written
          (snd (convert_large_csv (__init__ 10 500) Sample.fs (fun _ => 0)
                                  "train.csv" "out" false))
        = map (map_values narrow_value) whole)
  /\ (exists whole,
        csv_to_json_formatter Sample.fs "ids.csv" = Ok whole
        /\ records_written
             (snd (convert_large_csv (__init__ 2 500) Sample.fs (fun _ => 0)
                                     "ids.csv" "out" true))
           = whole).
Proof.
  split.
  - destruct (chunked_records_vs_whole (__init__ 10 500) Sample.fs (fun _ => 0)
                "train.csv" "out" false Sample.train Sample.header Sample.rows
                eq_refl eq_refl) as (whole & Hw & Hr & _).
    + unfold Sample.header.
      repeat (constructor; [simpl; intuition discriminate|]). constructor.
    + cbn. lia.
    + vm_compute. reflexivity.
    + exists whole. split; assumption.
  - destruct (chunked_records_vs_whole (__init__ 2 500) Sample.fs (fun _ => 0)
                "ids.csv" "out" true Sample.ids Sample.id_header Sample.id_rows
                eq_refl eq_refl) as (whole & Hw & _ & He).
    + unfold Sample.id_header.
      repeat (constructor; [simpl; intuition discriminate|]). constructor.
    + cbn. lia.
    + vm_compute. reflexivity.
    + exists whole. split; [assumption|]. apply He. vm_compute. reflexivity.
Defined.

(** ** Missing cells *)

(** C2 at a failing input.  The second row of the sample has no age; the
    column is numeric, so [where] leaves its NaN in place: the record of
    [csv_to_json_formatter], the record [convert_large_csv] writes and the
    record [stream_json_processor] yields all carry the float NaN under
    ["Age"], not [None]. *)
Theorem missing_age_stays_nan :
  nth 2 (nth 1 Sample.rows []) FNA = FNA
  /\ (exists whole rec,
        csv_to_json_formatter Sample.fs "train.csv" = Ok whole
        /\ nth_error whole 1 = Some rec
        /\ dict_get rec "Age" = Some (VFloat S754_nan))
  /\ (exists rec,
        nth_error (records_written
                     (snd (convert_large_csv (__init__ 10 500) Sample.fs (fun _ => 0)
                                             "train.csv" "out" true))) 1 = Some rec
        /\ dict_get rec "Age" = Some (VFloat S754_nan))
  /\ (exists rec,
        nth_error (fst (stream_json_processor (__init__ 10 500) Sample.fs "train.csv")) 1
        = Some rec
        /\ dict_get rec "Age" = Some (VFloat S754_nan)).
Proof.
  split; [reflexivity|].
  split; [|split].
  - do 2 eexists. split; [reflexivity|]. split; reflexivity.
  - eexists. split; [vm_compute; reflexivity | reflexivity].
  - eexists. split; [vm_compute; reflexivity | reflexivity].
Qed.

(** ** Single row against whole file *)

(** C1 at two failing inputs.  For the sample row without an age,
    [csv_row_to_json] gives [None] under ["Age"] (the row is an object
    Series) where the record of [csv_to_json_formatter] has NaN.  For a table
    of numbers only, the row is a float Series and [csv_row_to_json] gives
    the class as the float 3.0 where [csv_to_json_formatter] has the int 3. *)
Theorem row_differs_from_whole :
  (exists row whole rec,
     csv_row_to_json Sample.fs "train.csv" 1 = Ok row
     /\ csv_to_json_formatter Sample.fs "train.csv" = Ok whole
     /\ nth_error whole 1 = Some rec
     /\ dict_get row "Age" = Some VNone
     /\ dict_get rec "Age" = Some (VFloat S754_nan)
     /\ row <> rec)
  /\ (exists row whole rec,
        csv_row_to_json Sample.fs "numeric.csv" 0 = Ok row
        /\ csv_to_json_formatter Sample.fs "numeric.csv" = Ok whole
        /\ nth_error whole 0 = Some rec
        /\ dict_get row "Pclass" = Some (VFloat (float_of_int 3))
        /\ dict_get rec "Pclass" = Some (VInt 3)
        /\ row <> rec).
Proof.
  split.
  - do 3 eexists. split; [vm_compute; reflexivity|].
    split; [vm_compute; reflexivity|].
    split; [reflexivity|]. split; [reflexivity|]. split; [reflexivity|].
    discriminate.
  - do 3 eexists. split; [vm_compute; reflexivity|].
    split; [vm_compute; reflexivity|].
    split; [reflexivity|]. split; [reflexivity|]. split; [reflexivity|].
    discriminate.
Qed.

(** ** Binary64 rounding stays finite *)

Lemma digits2_pos_bounds (p : positive) :
  2 ^ (Zpos (digits2_pos p) - 1) <= Zpos p < 2 ^ Zpos (digits2_pos p).
Proof.
  induction p as [p IH|p IH|]; cbn [digits2_pos].
  - rewrite Pos2Z.inj_succ.
    replace (Z.succ (Zpos (digits2_pos p)) - 1) with (Z.succ (Zpos (digits2_pos p) - 1)) by lia.
    rewrite !Z.pow_succ_r by lia. lia.
  - rewrite Pos2Z.inj_succ.
    replace (Z.succ (Zpos (digits2_pos p)) - 1) with (Z.succ (Zpos (digits2_pos p) - 1)) by lia.
    rewrite !Z.pow_succ_r by lia. lia.
  - cbn. lia.
Qed.

Lemma Zdigits2_bounds (m : Z) :
  0 < m -> 2 ^ (Zdigits2 m - 1) <= m < 2 ^ Zdigits2 m.
Proof.
  destruct m as [|p|p]; try lia. intros _. apply digits2_pos_bounds.
Qed.

Lemma Zdigits2_pos (m : Z) : 0 < m -> 0 < Zdigits2 m.
Proof. destruct m; cbn; lia. Qed.

Lemma Zdigits2_unique (m k : Z) :
  2 ^ (k - 1) <= m < 2 ^ k -> 0 < k -> Zdigits2 m = k.
Proof.
  intros [Hlo Hhi] Hk.
  assert (Hm : 0 < m) by (pose proof (Z.pow_pos_nonneg 2 (k - 1)); lia).
  pose proof (Zdigits2_bounds m Hm) as [Hlo' Hhi'].
  pose proof (Zdigits2_pos m Hm) as Hd.
  destruct (Z.lt_trichotomy (Zdigits2 m) k) as [Hlt|[Heq|Hgt]]; [|exact Heq|].
  - assert (2 ^ Zdigits2 m <= 2 ^ (k - 1)) by (apply Z.pow_le_mono_r; lia). lia.
  - assert (2 ^ k <= 2 ^ (Zdigits2 m - 1)) by (apply Z.pow_le_mono_r; lia). lia.
Qed.

Lemma Zdigits2_le (m k : Z) : 0 < m -> m < 2 ^ k -> 0 <= k -> Zdigits2 m <= k.
Proof.
  intros Hm Hk Hk0.
  pose proof (Zdigits2_bounds m Hm) as [Hlo _].
  destruct (Z_le_gt_dec (Zdigits2 m) k) as [|Hgt]; [assumption|].
  assert (2 ^ k <= 2 ^ (Zdigits2 m - 1)) by (apply Z.pow_le_mono_r; lia). lia.
Qed.

Lemma Zdigits2_ge (m k : Z) : 2 ^ (k - 1) <= m -> 0 < k -> k <= Zdigits2 m.
Proof.
  intros Hk Hk0.
  assert (Hm : 0 < m) by (pose proof (Z.pow_pos_nonneg 2 (k - 1)); lia).
  pose proof (Zdigits2_bounds m Hm) as [_ Hhi].
  pose proof (Zdigits2_pos m Hm).
  destruct (Z_le_gt_dec k (Zdigits2 m)) as [|Hgt]; [assumption|].
  assert (2 ^ Zdigits2 m <= 2 ^ (k - 1)) by (apply Z.pow_le_mono_r; lia). lia.
Qed.

(** Shifting a mantissa record to the right divides the mantissa. *)
Lemma shr_1_m mrs : 0 <= shr_m mrs -> shr_m (shr_1 mrs) = shr_m mrs / 2.
Proof.
  destruct mrs as [m r s]. cbn [shr_m shr_1]. intros Hm.
  destruct m as [|[p|p|]|p]; cbn [shr_m].
  - reflexivity.
  - apply Z.div_unique with (r := 1); [left; split; [discriminate | reflexivity] | reflexivity].
  - apply Z.div_unique with (r := 0); [left; split; [discriminate | reflexivity] | reflexivity].
  - reflexivity.
  - exfalso. apply Hm. reflexivity.
Qed.

Lemma pow2_xO (n : positive) : 2 ^ Zpos n~0 = 2 ^ Zpos n * 2 ^ Zpos n.
Proof.
  replace (Zpos n~0) with (Zpos n + Zpos n) by lia.
  apply Z.pow_add_r; lia.
Qed.

Lemma pow2_xI (n : positive) : 2 ^ Zpos n~1 = 2 * (2 ^ Zpos n * 2 ^ Zpos n).
Proof.
  replace (Zpos n~1) with (1 + Zpos n~0) by lia.
  rewrite Z.pow_add_r by lia. rewrite pow2_xO. reflexivity.
Qed.

Lemma div_pow2_nonneg (m n : Z) : 0 <= m -> 0 <= n -> 0 <= m / 2 ^ n.
Proof.
  intros Hm Hn. apply Z.div_pos; [exact Hm | apply Z.pow_pos_nonneg; lia].
Qed.

Lemma iter_shr_1_m (n : positive) mrs :
  0 <= shr_m mrs ->
  shr_m (iter_pos shr_1 n mrs) = shr_m mrs / 2 ^ Zpos n.
Proof.
  revert mrs. induction n as [n IH|n IH|]; intros mrs Hm; cbn [iter_pos].
  - assert (Hp : 0 < 2 ^ Zpos n) by (apply Z.pow_pos_nonneg; lia).
    assert (H1 : 0 <= shr_m (shr_1 mrs)).
    { rewrite shr_1_m by exact Hm. apply Z.div_pos; [exact Hm | lia]. }
    assert (H2 : 0 <= shr_m (iter_pos shr_1 n (shr_1 mrs))).
    { rewrite IH by exact H1. apply div_pow2_nonneg; [exact H1 | lia]. }
    rewrite (IH _ H2), (IH _ H1), (shr_1_m _ Hm), pow2_xI.
    rewrite Z.div_div by lia. rewrite Z.div_div by lia.
    f_equal; ring.
  - assert (Hp : 0 < 2 ^ Zpos n) by (apply Z.pow_pos_nonneg; lia).
    assert (H2 : 0 <= shr_m (iter_pos shr_1 n mrs)).
    { rewrite IH by exact Hm. apply div_pow2_nonneg; [exact Hm | lia]. }
    rewrite (IH _ H2), (IH _ Hm), pow2_xO.
    rewrite Z.div_div by lia. reflexivity.
  - rewrite (shr_1_m _ Hm). reflexivity.
Qed.

Lemma shr_m_of_loc m l : shr_m (shr_record_of_loc m l) = m.
Proof. destruct l as [|[]]; reflexivity. Qed.

(** The mantissa and exponent [shr_fexp] leaves. *)
Lemma shr_fexp_spec (m e : Z) (l : location) :
  0 <= m ->
  let n := Z.max 0 (fexp 53 1024 (Zdigits2 m + e) - e) in
  shr_m (fst (shr_fexp 53 1024 m e l)) = m / 2 ^ n
  /\ snd (shr_fexp 53 1024 m e l) = e + n.
Proof.
  intros Hm n. unfold shr_fexp, shr. subst n.
  destruct (fexp 53 1024 (Zdigits2 m + e) - e) as [|p|p] eqn:Hn; cbn [fst snd].
  - rewrite shr_m_of_loc. cbn. rewrite Z.div_1_r. split; lia.
  - rewrite iter_shr_1_m by (rewrite shr_m_of_loc; lia).
    rewrite shr_m_of_loc. rewrite Z.max_r by lia. split; reflexivity.
  - rewrite shr_m_of_loc. rewrite Z.max_l by lia. cbn. rewrite Z.div_1_r. split; lia.
Qed.

Lemma round_nearest_even_bounds m l :
  m <= round_nearest_even m l <= m + 1.
Proof.
  unfold round_nearest_even. destruct l as [|[]]; try lia.
  destruct (Z.even m); lia.
Qed.

(** Digits after a right shift that keeps at least one. *)
Lemma Zdigits2_shift (m n : Z) :
  0 < m -> 0 <= n < Zdigits2 m -> Zdigits2 (m / 2 ^ n) = Zdigits2 m - n.
Proof.
  intros Hm Hn.
  pose proof (Zdigits2_bounds m Hm) as [Hlo Hhi].
  assert (Hp : 0 < 2 ^ n) by (apply Z.pow_pos_nonneg; lia).
  apply Zdigits2_unique; [|lia]. split.
  - apply Z.div_le_lower_bound; [lia|].
    rewrite <- Z.pow_add_r by lia.
    replace (n + (Zdigits2 m - n - 1)) with (Zdigits2 m - 1) by lia. exact Hlo.
  - apply Z.div_lt_upper_bound; [lia|].
    rewrite <- Z.pow_add_r by lia.
    replace (n + (Zdigits2 m - n)) with (Zdigits2 m) by lia. exact Hhi.
Qed.

Lemma div_pow2_pos (m n : Z) :
  0 < m -> 0 <= n < Zdigits2 m -> 0 < m / 2 ^ n.
Proof.
  intros Hm Hn.
  pose proof (Zdigits2_bounds m Hm) as [Hlo _].
  assert (Hp : 0 < 2 ^ n) by (apply Z.pow_pos_nonneg; lia).
  assert (2 ^ n <= 2 ^ (Zdigits2 m - 1)) by (apply Z.pow_le_mono_r; lia).
  assert (1 <= m / 2 ^ n) by (apply Z.div_le_lower_bound; lia).
  lia.
Qed.

(** Rounding a positive binary number whose magnitude lies inside the
    binary64 range gives a finite float of nearly the same magnitude. *)
Lemma binary_round_aux_finite (s : bool) (m e : Z) (l : location) :
  0 < m -> -1073 <= Zdigits2 m + e <= 1023 -> e <= 971 ->
  exists m' e',
    binary_round_aux 53 1024 s m e l = S754_finite s m' e'
    /\ Zdigits2 m + e <= Zdigits2 (Zpos m') + e' <= Zdigits2 m + e + 1.
Proof.
  intros Hm Hde He.
  pose proof (Zdigits2_pos m Hm) as Hd.
  unfold binary_round_aux.
  pose proof (shr_fexp_spec m e l ltac:(lia)) as [Hm1 He1]. cbv zeta in Hm1, He1.
  destruct (shr_fexp 53 1024 m e l) as [mrs1 e1]. cbn [fst snd] in Hm1, He1.
  unfold fexp, emin in Hm1, He1.
  set (n1 := Z.max 0 (Z.max (Zdigits2 m + e - 53) (3 - 1024 - 53) - e)) in *.
  assert (Hn1 : 0 <= n1 < Zdigits2 m) by lia.
  pose proof (div_pow2_pos m n1 Hm Hn1) as Hm1pos.
  pose proof (Zdigits2_shift m n1 Hm Hn1) as Hd1.
  rewrite <- Hm1 in Hm1pos, Hd1.
  pose proof (round_nearest_even_bounds (shr_m mrs1) (loc_of_shr_record mrs1)) as Hr.
  set (mr := round_nearest_even (shr_m mrs1) (loc_of_shr_record mrs1)) in *.
  assert (Hmr : 0 < mr) by lia.
  pose proof (Zdigits2_bounds (shr_m mrs1) Hm1pos) as [Hlo1 Hhi1].
  assert (Hdr_lo : Zdigits2 (shr_m mrs1) <= Zdigits2 mr)
    by (apply Zdigits2_ge; lia).
  assert (Hdr_hi : Zdigits2 mr <= Zdigits2 (shr_m mrs1) + 1).
  { apply Zdigits2_le; [lia| |lia].
    rewrite Z.pow_add_r by lia. lia. }
  pose proof (shr_fexp_spec mr e1 loc_Exact ltac:(lia)) as [Hm2 He2]. cbv zeta in Hm2, He2.
  destruct (shr_fexp 53 1024 mr e1 loc_Exact) as [mrs2 e2]. cbn [fst snd] in Hm2, He2.
  unfold fexp, emin in Hm2, He2.
  set (n2 := Z.max 0 (Z.max (Zdigits2 mr + e1 - 53) (3 - 1024 - 53) - e1)) in *.
  assert (Hn2 : 0 <= n2 < Zdigits2 mr) by lia.
  pose proof (div_pow2_pos mr n2 Hmr Hn2) as Hm2pos.
  pose proof (Zdigits2_shift mr n2 Hmr Hn2) as Hd2.
  rewrite <- Hm2 in Hm2pos, Hd2.
  destruct (shr_m mrs2) as [|p|p] eqn:Hp; try lia.
  replace (e2 <=? 1024 - 53) with true by (symmetry; apply Z.leb_le; lia).
  exists p, e2. split; [reflexivity|]. lia.
Qed.

(** The quotient of two positive finite floats whose magnitudes are not too
    far apart is a positive finite float. *)
Lemma SFdiv_finite (m1 m2 : positive) (e1 e2 : Z) :
  let D := Zdigits2 (Zpos m1) + e1 - (Zdigits2 (Zpos m2) + e2) in
  -1073 <= D <= 1022 ->
  exists m e,
    SFdiv 53 1024 (S754_finite false m1 e1) (S754_finite false m2 e2)
    = S754_finite false m e
    /\ D <= Zdigits2 (Zpos m) + e <= D + 2.
Proof.
  intros D HD.
  unfold SFdiv, SFdiv_core_binary. cbn [xorb].
  set (d1 := Zdigits2 (Zpos m1)) in *. set (d2 := Zdigits2 (Zpos m2)) in *.
  pose proof (Zdigits2_bounds (Zpos m1) ltac:(lia)) as [Hlo1 Hhi1].
  pose proof (Zdigits2_bounds (Zpos m2) ltac:(lia)) as [Hlo2 Hhi2].
  pose proof (Zdigits2_pos (Zpos m1) ltac:(lia)) as Hd1.
  pose proof (Zdigits2_pos (Zpos m2) ltac:(lia)) as Hd2.
  fold d1 in Hlo1, Hhi1, Hd1. fold d2 in Hlo2, Hhi2, Hd2.
  set (e' := Z.min (fexp 53 1024 (d1 + e1 - (d2 + e2))) (e1 - e2)).
  assert (He' : e' <= e1 - e2 /\ e' <= Z.max (D - 53) (-1074)).
  { subst e' D. unfold fexp, emin. lia. }
  set (s := e1 - e2 - e').
  assert (Hs : 0 <= s) by (subst s; lia).
  set (m' := match s with Z.pos _ => Z.shiftl (Zpos m1) s | 0 => Zpos m1 | Z.neg _ => 0 end).
  assert (Hm' : m' = Zpos m1 * 2 ^ s).
  { subst m'. destruct s as [|p|p] eqn:Hsp; [cbn; lia | | lia].
    apply Z.shiftl_mul_pow2. lia. }
  destruct (Z.div_eucl m' (Zpos m2)) as [q r] eqn:Hdiv.
  assert (Hq : q = m' / Zpos m2) by (unfold Z.div; now rewrite Hdiv).
  set (k := d1 + s - d2).
  assert (Hk : 1 <= k) by (subst k s D; lia).
  assert (Hps : 0 < 2 ^ s) by (apply Z.pow_pos_nonneg; lia).
  assert (Hqlo : 2 ^ (k - 1) <= q).
  { rewrite Hq. apply Z.div_le_lower_bound; [lia|].
    rewrite Hm'.
    assert (Zpos m2 * 2 ^ (k - 1) <= 2 ^ d2 * 2 ^ (k - 1))
      by (apply Z.mul_le_mono_nonneg_r; [apply Z.pow_nonneg|]; lia).
    assert (2 ^ d2 * 2 ^ (k - 1) = 2 ^ (d1 - 1) * 2 ^ s).
    { rewrite <- !Z.pow_add_r by lia. f_equal. subst k. lia. }
    assert (2 ^ (d1 - 1) * 2 ^ s <= Zpos m1 * 2 ^ s)
      by (apply Z.mul_le_mono_nonneg_r; lia).
    lia. }
  assert (Hqhi : q < 2 ^ (k + 1)).
  { rewrite Hq. apply Z.div_lt_upper_bound; [lia|].
    rewrite Hm'.
    assert (Zpos m1 * 2 ^ s < 2 ^ d1 * 2 ^ s)
      by (apply Z.mul_lt_mono_pos_r; lia).
    assert (2 ^ d1 * 2 ^ s = 2 ^ (d2 - 1) * 2 ^ (k + 1)).
    { rewrite <- !Z.pow_add_r by lia. f_equal. subst k. lia. }
    assert (2 ^ (d2 - 1) * 2 ^ (k + 1) <= Zpos m2 * 2 ^ (k + 1))
      by (apply Z.mul_le_mono_nonneg_r; [apply Z.pow_nonneg|]; lia).
    lia. }
  assert (Hq0 : 0 < q) by (pose proof (Z.pow_pos_nonneg 2 (k - 1)); lia).
  assert (Hdq_lo : k <= Zdigits2 q) by (apply Zdigits2_ge; lia).
  assert (Hdq_hi : Zdigits2 q <= k + 1) by (apply Zdigits2_le; lia).
  destruct (binary_round_aux_finite false q e' (new_location (Zpos m2) r) Hq0)
    as (m & e & Hr & Hme).
  - subst k s D. lia.
  - subst D. lia.
  - exists m, e. split; [exact Hr|]. subst k s D. lia.
Qed.

Lemma digits2_pos_iter_xO (p d : positive) :
  digits2_pos (Pos.iter xO p d) = (digits2_pos p + d)%positive.
Proof.
  induction d as [|d IH] using Pos.peano_ind.
  - cbn. lia.
  - rewrite Pos.iter_succ. cbn [digits2_pos]. rewrite IH. lia.
Qed.

(** The binary64 nearest to a positive integer below [2 ^ 1000]. *)
Lemma float_of_int_finite (z : Z) :
  0 < z < 2 ^ 1000 ->
  exists m e,
    float_of_int z = S754_finite false m e
    /\ Zdigits2 z <= Zdigits2 (Zpos m) + e <= Zdigits2 z + 1.
Proof.
  intros Hz. destruct z as [|p|p]; try lia.
  unfold float_of_int, binary_normalize, binary_round.
  assert (Hdp : Zdigits2 (Zpos p) <= 1000) by (apply Zdigits2_le; lia).
  pose proof (Zdigits2_pos (Zpos p) ltac:(lia)) as Hdp0.
  cbn [Zdigits2] in Hdp, Hdp0 |- *.
  unfold shl_align.
  destruct (fexp 53 1024 (Zpos (digits2_pos p) + 0) - 0) as [|d|d] eqn:Hsh.
  - destruct (binary_round_aux_finite false (Zpos p) 0 loc_Exact) as (m & e & Hr & Hme);
      cbn [Zdigits2] in *; try lia.
    exists m, e. split; [exact Hr | lia].
  - destruct (binary_round_aux_finite false (Zpos p) 0 loc_Exact) as (m & e & Hr & Hme);
      cbn [Zdigits2] in *; try lia.
    exists m, e. split; [exact Hr | lia].
  - unfold fexp, emin in Hsh.
    destruct (binary_round_aux_finite false (Zpos (Pos.iter xO p d))
                (fexp 53 1024 (Zpos (digits2_pos p) + 0)) loc_Exact)
      as (m & e & Hr & Hme);
      cbn [Zdigits2] in *; rewrite ?digits2_pos_iter_xO; unfold fexp, emin; try lia.
    exists m, e. split; [exact Hr|].
    rewrite digits2_pos_iter_xO in Hme. unfold fexp, emin in Hme. lia.
Qed.

(** ** The estimate of the number of rows *)

Lemma sample_lines_spec (f : list positive) (i : Z) (lines : list Z) :
  0 <= i <= 1000 ->
  sample_lines i f lines
  = (lines ++ map Zpos (firstn (Z.to_nat (1000 - i)) f))%list.
Proof.
  revert i lines. induction f as [|line f IH]; intros i lines Hi; cbn [sample_lines].
  - rewrite firstn_nil. cbn. now rewrite app_nil_r.
  - destruct (Z.leb_spec 1000 i) as [Hge|Hlt].
    + replace (1000 - i) with 0 by lia. cbn. now rewrite app_nil_r.
    + rewrite IH by lia. rewrite <- app_assoc. f_equal.
      replace (Z.to_nat (1000 - i)) with (S (Z.to_nat (1000 - (i + 1)))) by lia.
      reflexivity.
Qed.

Lemma sample_lines_firstn (f : list positive) :
  sample_lines 0 f [] = map Zpos (firstn (Z.to_nat 1000) f).
Proof. now rewrite sample_lines_spec by lia. Qed.

Lemma fold_add_bounds (l : list Z) (acc bound : Z) :
  Forall (fun z => 1 <= z < bound) l ->
  acc + Z.of_nat (List.length l) <= fold_left Z.add l acc
  /\ fold_left Z.add l acc <= acc + Z.of_nat (List.length l) * (bound - 1).
Proof.
  intros H. revert acc. induction H as [|z l Hz _ IH]; intros acc.
  - cbn. lia.
  - cbn [fold_left List.length]. specialize (IH (acc + z)). nia.
Qed.

Lemma Forall_firstn {A} (P : A -> Prop) (n : nat) (l : list A) :
  Forall P l -> Forall P (firstn n l).
Proof.
  intros H. revert n. induction H; intros [|n]; cbn; constructor; auto.
Qed.

(** C10. [_estimate_total_rows] samples the first [min(1000, lineCount)]
    lines and divides without a guard: on a file with no line it raises
    [ZeroDivisionError]; on every file with at least one line (sizes being
    64-bit quantities) the average line length is a float [avg], the quotient
    of the file size by [avg] is a float [q], and the function returns
    [int(q)]. *)
Theorem estimate_total_rows_division fs path f :
  fs path = Some f ->
  let lines := map Zpos (firstn (Z.to_nat 1000) (line_lengths f)) in
  (line_lengths f = [] ->
   _estimate_total_rows fs path = Raise (ZeroDivisionError "division by zero"))
  /\ (line_lengths f <> [] -> word_sized f ->
      Z.of_nat (List.length lines) = Z.min 1000 (Z.of_nat (List.length (line_lengths f)))
      /\ exists avg q n,
          int_truediv (sum lines) (Z.of_nat (List.length lines)) = Ok avg
          /\ int_float_truediv (st_size f) avg = Ok q
          /\ int_ q = Ok n
          /\ _estimate_total_rows fs path = Ok n).
Proof.
  intros Hf lines. unfold _estimate_total_rows, getsize. rewrite Hf.
  rewrite sample_lines_firstn. fold lines.
  split.
  - intros Hnil. subst lines. rewrite Hnil. reflexivity.
  - intros Hne [Hsize Hlens].
    assert (Hlen : Z.of_nat (List.length lines)
                   = Z.min 1000 (Z.of_nat (List.length (line_lengths f)))).
    { subst lines. rewrite length_map, length_firstn. lia. }
    split; [exact Hlen|].
    assert (Hb : 1 <= Z.of_nat (List.length lines) <= 1000).
    { destruct (line_lengths f); [congruence|]. cbn [List.length] in Hlen. lia. }
    assert (Hall : Forall (fun z => 1 <= z < 2 ^ 63) lines).
    { subst lines. apply Forall_map, Forall_firstn.
      eapply Forall_impl; [|exact Hlens]. cbv beta. lia. }
    pose proof (fold_add_bounds lines 0 (2 ^ 63) Hall) as [Hslo Hshi].
    fold (sum lines) in Hslo, Hshi.
    (* the average *)
    unfold int_truediv at 1 2.
    replace (Z.of_nat (List.length lines) =? 0) with false by (symmetry; apply Z.eqb_neq; lia).
    destruct (sum lines) as [|a|a] eqn:Ha; try lia.
    destruct (Z.of_nat (List.length lines)) as [|b|b] eqn:Hbb; try lia.
    cbn [exact_of_int].
    assert (Hda : 1 <= Zdigits2 (Zpos a) <= 73).
    { split; [pose proof (Zdigits2_pos (Zpos a)); lia|].
      apply Zdigits2_le; lia. }
    assert (Hdb : 1 <= Zdigits2 (Zpos b) <= 10).
    { split; [pose proof (Zdigits2_pos (Zpos b)); lia|].
      apply Zdigits2_le; lia. }
    destruct (SFdiv_finite a b 0 0) as (m & e & Havg & Hme); [cbv zeta; lia|].
    cbv zeta in Hme. rewrite Havg. cbn [is_finite bind].
    (* the quotient *)
    unfold int_float_truediv, float_.
    destruct (Z.eq_dec (st_size f) 0) as [H0|H0].
    + rewrite H0. cbn.
      exists (S754_finite false m e), (S754_zero false), 0. repeat split; reflexivity.
    + destruct (float_of_int_finite (st_size f)) as (mx & ex & Hx & Hmx).
      { assert (2 ^ 63 < 2 ^ 1000) by (apply Z.pow_lt_mono_r; lia). lia. }
      assert (Hds : 1 <= Zdigits2 (st_size f) <= 63).
      { split; [pose proof (Zdigits2_pos (st_size f)); lia|].
        apply Zdigits2_le; lia. }
      destruct (SFdiv_finite mx m ex e) as (mq & eq & Hq & _); [cbv zeta; lia|].
      exists (S754_finite false m e), (S754_finite false mq eq).
      eexists.
      split; [reflexivity|].
      split; [|split; [reflexivity|]].
      * rewrite Hx. cbn [is_finite bind]. unfold float_truediv. cbn [is_zero].
        now rewrite Hq.
      * rewrite Hx. cbn [is_finite bind]. unfold float_truediv. cbn [is_zero].
        rewrite Hq. reflexivity.
Qed.

Lemma estimate_total_rows_division_witness :
  _estimate_total_rows Sample.fs "empty.csv" = Raise (ZeroDivisionError "division by zero")
  /\ _estimate_total_rows Sample.fs "train.csv" = Ok 4.
Proof.
  split.
  - apply (proj1 (estimate_total_rows_division Sample.fs "empty.csv" Sample.empty eq_refl)).
    reflexivity.
  - destruct (proj2 (estimate_total_rows_division Sample.fs "train.csv" Sample.train eq_refl))
      as (_ & avg & q & n & _ & _ & _ & Hn).
    + discriminate.
    + split; [cbn; lia|].
      cbn. repeat constructor.
    + rewrite Hn. vm_compute in Hn. exact (eq_sym Hn).
Defined.

(** [get_file_info] does not reach the estimate on an empty file: reading
    the sample rows fails first. *)
Lemma get_file_info_empty :
  get_file_info Sample.fs "empty.csv" = Raise (EmptyDataError "No columns to parse from file").
Proof. reflexivity. Qed.

(** ** Rows of a frame with a text column *)

Lemma fold_promote_object (ds : list dtype) :
  fold_left promote ds DObject = DObject.
Proof. induction ds as [|d ds IH]; [reflexivity | exact IH]. Qed.

Lemma promote_object_r (d : dtype) : promote d DObject = DObject.
Proof. destruct d as [t|[]|]; reflexivity. Qed.

Lemma fold_promote_in_object (ds : list dtype) (d : dtype) :
  In DObject ds -> fold_left promote ds d = DObject.
Proof.
  revert d. induction ds as [|x ds IH]; intros d Hin; [contradiction|].
  cbn [fold_left]. destruct Hin as [->|Hin].
  - rewrite promote_object_r. apply fold_promote_object.
  - now apply IH.
Qed.

Lemma find_common_type_object (ds : list dtype) :
  In DObject ds -> find_common_type ds = DObject.
Proof.
  destruct ds as [|d ds]; [contradiction|]. intros [->|Hin]; cbn [find_common_type].
  - apply fold_promote_object.
  - now apply fold_promote_in_object.
Qed.

Lemma combine_map_map {A B C} (f : A -> B) (g : A -> C) (l : list A) :
  combine (map f l) (map g l) = map (fun x => (f x, g x)) l.
Proof. induction l as [|x l IH]; cbn; [reflexivity | now rewrite IH]. Qed.

Lemma map_nth_seq_id {A} (l : list A) (d : A) :
  map (fun i => nth i l d) (seq 0 (List.length l)) = l.
Proof. rewrite (map_nth_seq (fun x => x) l d). apply map_id. Qed.

Lemma items_object_array (l : list value) :
  map (item (ObjectArray l)) (seq 0 (List.length l)) = l.
Proof. exact (map_nth_seq_id l VNone). Qed.

(** A row of a frame that has an object column, after [where] and
    [to_dict]. *)
Lemma object_row_to_dict df i :
  NoDup (columns df) ->
  In DObject (map (fun c => dtype_of (snd c)) (df_data df)) ->
  series_to_dict (series_where_notnull_None (row_series df i))
  = map (fun c => (fst c, null_to_None (item (snd c) i))) (df_data df).
Proof.
  intros Hnd Hobj. unfold row_series.
  rewrite (find_common_type_object _ Hobj).
  unfold series_where_notnull_None, series_to_dict.
  cbn [s_index s_values cells_to_array where_notnull_None].
  rewrite !map_map. cbn [size item].
  set (l := map (fun c : string * ndarray =>
                   if isnull (item (snd c) i) then VNone else item (snd c) i)
                (df_data df)).
  replace (map (fun x : string * ndarray =>
                  if isnull match cast_item DObject (snd x) i with
                            | CObj v => v | _ => VNone end
                  then VNone
                  else match cast_item DObject (snd x) i with
                       | CObj v => v | _ => VNone end) (df_data df)) with l
    by (subst l; apply map_ext; intros [k a]; reflexivity).
  rewrite items_object_array.
  unfold columns, l. rewrite combine_map_map.
  apply dict_of_distinct. rewrite map_map. exact Hnd.
Qed.

Lemma nth_map_in_range {A B} (f : A -> B) (l : list A) (d : A) (d' : B) (i : nat) :
  (i < List.length l)%nat -> nth i (map f l) d' = f (nth i l d).
Proof.
  intros Hi. rewrite (nth_indep _ d' (f d)) by (now rewrite length_map).
  apply map_nth.
Qed.

Lemma item_raw cells i :
  (i < List.length cells)%nat ->
  item (infer_column cells) i
  = raw_cell_value (dtype_of (infer_column cells)) (nth i cells FNA).
Proof.
  intros Hi. unfold infer_column.
  destruct cells as [|c0 cells]; [cbn in Hi; lia|].
  set (cs := c0 :: cells) in *.
  destruct (forallb is_int_field cs); [|destruct (forallb is_numeric_field cs)];
    cbn [item dtype_of raw_cell_value box_float].
  - f_equal. now apply nth_map_in_range.
  - f_equal. now apply nth_map_in_range.
  - now apply nth_map_in_range.
Qed.

Lemma dtypes_parse_frame header rows :
  map (fun c => dtype_of (snd c)) (df_data (parse_frame header rows))
  = map (col_dtype rows) (seq 0 (List.length header)).
Proof.
  cbn [parse_frame df_data]. rewrite map_map. cbn [snd].
  generalize 0%nat. induction header as [|h header IH]; intros s; [reflexivity|].
  cbn [List.length seq combine map fst]. f_equal. apply IH.
Qed.

Lemma has_object_column_In header rows :
  has_object_column header rows = true ->
  In DObject (map (fun c => dtype_of (snd c)) (df_data (parse_frame header rows))).
Proof.
  intros H. rewrite dtypes_parse_frame.
  unfold has_object_column in H. apply existsb_exists in H.
  destruct H as (j & Hj & Hd). apply in_map_iff. exists j. split; [|exact Hj].
  destruct (col_dtype rows j); try discriminate. reflexivity.
Qed.

(** The record of row [i] when the table has a text column. *)
Lemma object_row_of_table header rows i :
  NoDup header -> has_object_column header rows = true ->
  (i < List.length rows)%nat ->
  series_to_dict (series_where_notnull_None (row_series (parse_frame header rows) i))
  = object_row_record (col_dtype rows) header (nth i rows []).
Proof.
  intros Hnd Hobj Hi.
  rewrite object_row_to_dict
    by (auto using NoDup_columns_parse_frame, has_object_column_In).
  cbn [parse_frame df_data]. rewrite map_map. unfold object_row_record.
  apply map_ext. intros [j c]. cbn [fst snd].
  rewrite item_raw by (unfold column_fields; now rewrite length_map).
  now rewrite nth_column_fields.
Qed.

Lemma null_to_None_not_nan v : null_to_None v <> VFloat S754_nan.
Proof.
  unfold null_to_None. destruct v as [z|[]|s|]; cbn; discriminate.
Qed.

Lemma int_column_has_no_missing rows j i t :
  (i < List.length rows)%nat ->
  col_dtype rows j = DInt t ->
  nth j (nth i rows []) FNA <> FNA.
Proof.
  intros Hi Hd Hna. unfold col_dtype, infer_column in Hd.
  rewrite <- nth_column_fields in Hna.
  assert (Hlen : (i < List.length (column_fields j rows))%nat)
    by (unfold column_fields; now rewrite length_map).
  destruct (column_fields j rows) as [|c0 cells] eqn:Hc; [cbn in Hlen; lia|].
  destruct (forallb is_int_field (c0 :: cells)) eqn:Hint.
  - rewrite forallb_forall in Hint.
    specialize (Hint _ (nth_In _ FNA Hlen)). rewrite Hna in Hint. discriminate.
  - destruct (forallb is_numeric_field (c0 :: cells)); discriminate.
Qed.

Lemma in_combine_seq {A} (l : list A) (d : A) (s j : nat) :
  (j < List.length l)%nat ->
  In ((s + j)%nat, nth j l d) (combine (seq s (List.length l)) l).
Proof.
  revert s j. induction l as [|x l IH]; intros s j Hj; [cbn in Hj; lia|].
  cbn [List.length seq combine]. destruct j as [|j].
  - left. f_equal. lia.
  - right. replace (s + S j)%nat with (S s + j)%nat by lia.
    apply IH. cbn in Hj. lia.
Qed.

Lemma csv_row_to_json_table fs path f header rows i :
  fs path = Some f -> csv f = SrcTable header rows ->
  0 <= i < Z.of_nat (List.length rows) ->
  csv_row_to_json fs path i
  = Ok (series_to_dict (series_where_notnull_None
                          (row_series (parse_frame header rows) (Z.to_nat i)))).
Proof.
  intros Hf Hc Hi. unfold csv_row_to_json.
  rewrite (read_csv_table _ _ _ _ _ Hf Hc). cbn [bind parse_frame df_len].
  replace ((i <? 0) || (Z.of_nat (List.length rows) <=? i)) with false; [reflexivity|].
  symmetry. apply orb_false_iff. split; [apply Z.ltb_ge | apply Z.leb_gt]; lia.
Qed.

(** X2. On a table with distinct labels and at least one text column, a
    valid index gives a record in which no value is the float NaN and every
    field whose source cell is missing is [None], whatever the type of its
    column. *)
Theorem csv_row_to_json_nulls fs path f header rows i :
  fs path = Some f ->
  csv f = SrcTable header rows ->
  NoDup header ->
  has_object_column header rows = true ->
  0 <= i < Z.of_nat (List.length rows) ->
  exists row,
    csv_row_to_json fs path i = Ok row
    /\ (forall kv, In kv row -> snd kv <> VFloat S754_nan)
    /\ (forall j, (j < List.length header)%nat ->
                  nth j (nth (Z.to_nat i) rows []) FNA = FNA ->
                  In (nth j header EmptyString, VNone) row).
Proof.
  intros Hf Hc Hnd Hobj Hi.
  rewrite (csv_row_to_json_table _ _ _ _ _ _ Hf Hc Hi).
  rewrite object_row_of_table by (auto; lia).
  eexists. split; [reflexivity|]. split.
  - intros kv Hin. unfold object_row_record in Hin. apply in_map_iff in Hin.
    destruct Hin as (jc & <- & _). cbn [snd]. apply null_to_None_not_nan.
  - intros j Hj Hna. unfold object_row_record. apply in_map_iff.
    exists (j, nth j header EmptyString). split.
    + cbn [fst snd]. f_equal. rewrite Hna.
      destruct (col_dtype rows j) as [t|t|] eqn:Hd; [|reflexivity|reflexivity].
      exfalso. apply (int_column_has_no_missing rows j (Z.to_nat i) t); auto. lia.
    + exact (in_combine_seq header EmptyString 0 j Hj).
Qed.

Lemma csv_row_to_json_nulls_witness :
  exists row,
    csv_row_to_json Sample.fs "train.csv" 1 = Ok row
    /\ In ("Age", VNone) row /\ In ("Cabin", VNone) row.
Proof.
  destruct (csv_row_to_json_nulls Sample.fs "train.csv" Sample.train Sample.header
              Sample.rows 1 eq_refl eq_refl) as (row & Hrow & _ & Hna).
  - unfold Sample.header.
    repeat (constructor; [simpl; intuition discriminate|]). constructor.
  - vm_compute. reflexivity.
  - cbn. lia.
  - exists row. split; [exact Hrow|]. split.
    + apply (Hna 2%nat); [cbn; lia | reflexivity].
    + apply (Hna 4%nat); [cbn; lia | reflexivity].
Defined.

Lemma object_row_is_whole_row header rows r :
  no_missing_number header rows r = true ->
  object_row_record (col_dtype rows) header r = row_record (col_dtype rows) header r.
Proof.
  intros H. unfold object_row_record, row_record. apply map_ext_in.
  intros [j c] Hin. apply in_combine_l, in_seq in Hin. cbn [fst snd]. f_equal.
  unfold no_missing_number in H. rewrite forallb_forall in H.
  specialize (H j). rewrite in_seq in H. specialize (H Hin).
  destruct (col_dtype rows j) as [t|t|]; cbn [raw_cell_value cell_value].
  - reflexivity.
  - cbn [is_float_dtype andb] in H. unfold null_to_None.
    destruct (isnull (VFloat (float_of_field (nth j r FNA)))); [discriminate | reflexivity].
  - reflexivity.
Qed.

(** X1. On a table with distinct labels and at least one text column, for a
    valid index [i] whose row has no missing cell in a float column,
    [csv_row_to_json] returns exactly the [i]-th record of
    [csv_to_json_formatter]. *)
Theorem csv_row_to_json_is_row_of_whole fs path f header rows i :
  fs path = Some f ->
  csv f = SrcTable header rows ->
  NoDup header ->
  has_object_column header rows = true ->
  0 <= i < Z.of_nat (List.length rows) ->
  no_missing_number header rows (nth (Z.to_nat i) rows []) = true ->
  exists row whole,
    csv_row_to_json fs path i = Ok row
    /\ csv_to_json_formatter fs path = Ok whole
    /\ nth_error whole (Z.to_nat i) = Some row.
Proof.
  intros Hf Hc Hnd Hobj Hi Hnum.
  rewrite (csv_row_to_json_table _ _ _ _ _ _ Hf Hc Hi).
  rewrite object_row_of_table by (auto; lia).
  rewrite object_row_is_whole_row by assumption.
  unfold csv_to_json_formatter.
  rewrite (read_csv_table _ _ _ _ _ Hf Hc). cbn [bind handlers].
  rewrite whole_records by assumption.
  do 2 eexists. split; [reflexivity|]. split; [reflexivity|].
  rewrite nth_error_map.
  rewrite (nth_error_nth' rows []) by lia. reflexivity.
Qed.

Lemma csv_row_to_json_is_row_of_whole_witness :
  exists row whole,
    csv_row_to_json Sample.fs "train.csv" 2 = Ok row
    /\ csv_to_json_formatter Sample.fs "train.csv" = Ok whole
    /\ nth_error whole 2 = Some row.
Proof.
  apply (csv_row_to_json_is_row_of_whole Sample.fs "train.csv" Sample.train
           Sample.header Sample.rows 2 eq_refl eq_refl).
  - unfold Sample.header.
    repeat (constructor; [simpl; intuition discriminate|]). constructor.
  - vm_compute. reflexivity.
  - cbn. lia.
  - vm_compute. reflexivity.
Defined.

(** X3. On a table with distinct labels [csv_to_json_formatter] returns one
    record per data row, in row order: the record pairs each label with the
    integer of the cell in an all-integer column, with the float of the cell
    (NaN when missing) in a numeric column, and with the text of the cell in
    a text column, where every missing cell is [None]. *)
Theorem csv_to_json_formatter_records fs path f header rows :
  fs path = Some f ->
  csv f = SrcTable header rows ->
  NoDup header ->
  csv_to_json_formatter fs path = Ok (map (row_record (col_dtype rows) header) rows)
  /\ (forall r j, In r rows -> (j < List.length header)%nat ->
                  col_dtype rows j = DObject -> nth j r FNA = FNA ->
                  In (nth j header EmptyString, VNone)
                     (row_record (col_dtype rows) header r)).
Proof.
  intros Hf Hc Hnd. split.
  - unfold csv_to_json_formatter.
    rewrite (read_csv_table _ _ _ _ _ Hf Hc). cbn [bind handlers].
    now rewrite whole_records.
  - intros r j Hr Hj Hd Hna. unfold row_record. apply in_map_iff.
    exists (j, nth j header EmptyString). split.
    + cbn [fst snd]. now rewrite Hd, Hna.
    + exact (in_combine_seq header EmptyString 0 j Hj).
Qed.

Lemma csv_to_json_formatter_records_witness :
  csv_to_json_formatter Sample.fs "train.csv"
  = Ok (map (row_record (col_dtype Sample.rows) Sample.header) Sample.rows)
  /\ In ("Cabin", VNone)
        (row_record (col_dtype Sample.rows) Sample.header (nth 0 Sample.rows [])).
Proof.
  destruct (csv_to_json_formatter_records Sample.fs "train.csv" Sample.train
              Sample.header Sample.rows eq_refl eq_refl) as [Heq Hnone].
  - unfold Sample.header.
    repeat (constructor; [simpl; intuition discriminate|]). constructor.
  - split; [exact Heq|].
    apply (Hnone _ 4%nat); [cbn; auto | cbn; lia | reflexivity | reflexivity].
Defined.

(** ** Names of the chunk files *)

Lemma concat_repeat_zero (n : nat) :
  String.concat EmptyString (repeat "0" (S n))
  = String "0" (String.concat EmptyString (repeat "0" n)).
Proof. destruct n; reflexivity. Qed.

Lemma number_of_zero_padded (n : nat) (s : string) :
  number_of_digits (String.concat EmptyString (repeat "0" n) ++ s) = number_of_digits s.
Proof.
  induction n as [|n IH]; [reflexivity|].
  rewrite concat_repeat_zero. unfold number_of_digits in *.
  cbn [append NilEmpty.uint_of_string].
  rewrite <- IH.
  destruct (NilEmpty.uint_of_string (String.concat EmptyString (repeat "0" n) ++ s)) as [d|];
    reflexivity.
Qed.

Lemma number_of_string_of_uint (d : Decimal.uint) :
  number_of_digits (NilZero.string_of_uint d) = Some (Z.of_uint d).
Proof.
  unfold number_of_digits.
  destruct d; [reflexivity | ..];
    unfold NilZero.string_of_uint; rewrite NilEmpty.usu; reflexivity.
Qed.

Lemma number_of_str_int (k : Z) : 0 <= k -> number_of_digits (str_int k) = Some k.
Proof.
  intros Hk. unfold str_int.
  pose proof (DecimalZ.of_to k) as Hrt.
  destruct k as [|p|p]; [reflexivity| |lia].
  cbn [Z.to_int NilZero.string_of_int Z.of_int] in *.
  now rewrite number_of_string_of_uint, Hrt.
Qed.

(** Reading the formatted chunk number back gives the chunk number. *)
Lemma number_of_format_04d (k : Z) : 0 <= k -> number_of_digits (format_04d k) = Some k.
Proof.
  intros Hk. unfold format_04d.
  replace (k <? 0) with false by (symmetry; apply Z.ltb_ge; lia).
  cbn [append]. rewrite number_of_zero_padded, Z.abs_eq by lia.
  now apply number_of_str_int.
Qed.

Lemma append_cancel_l (p a b : string) : p ++ a = p ++ b -> a = b.
Proof.
  induction p as [|c p IH]; cbn [append]; intros H; [exact H|].
  injection H as H. now apply IH.
Qed.

Lemma length_append (a b : string) :
  String.length (a ++ b) = (String.length a + String.length b)%nat.
Proof. induction a as [|c a IH]; cbn; [reflexivity | now rewrite IH]. Qed.

Lemma append_cancel_r (a b c : string) : a ++ c = b ++ c -> a = b.
Proof.
  revert b. induction a as [|x a IH]; intros [|y b] H; cbn [append] in H.
  - reflexivity.
  - apply (f_equal String.length) in H. cbn in H. rewrite length_append in H. lia.
  - apply (f_equal String.length) in H. cbn in H. rewrite length_append in H. lia.
  - injection H as -> H. f_equal. now apply IH.
Qed.

Lemma chunk_file_inj (out : string) (k1 k2 : Z) :
  0 <= k1 -> 0 <= k2 -> chunk_file out k1 = chunk_file out k2 -> k1 = k2.
Proof.
  intros H1 H2 H. unfold chunk_file in H.
  apply append_cancel_l, (append_cancel_l "/chunk_"), append_cancel_r in H.
  apply (f_equal number_of_digits) in H.
  rewrite !number_of_format_04d in H by assumption. congruence.
Qed.

Lemma enumerate_from_ge {A} (l : list A) (k x : Z) :
  In x (map fst (enumerate_from k l)) -> k <= x.
Proof.
  revert k. induction l as [|a l IH]; intros k; cbn; [contradiction|].
  intros [<-|Hin]; [lia|]. apply IH in Hin. lia.
Qed.

Lemma NoDup_enumerate_from {A} (l : list A) (k : Z) :
  NoDup (map fst (enumerate_from k l)).
Proof.
  revert k. induction l as [|a l IH]; intros k; cbn; constructor.
  - intros Hin. apply enumerate_from_ge in Hin. lia.
  - apply IH.
Qed.

(** X6. Two chunk numbers share a file name only when they are equal, so in
    split mode the files [convert_large_csv] writes have pairwise distinct
    paths: no chunk overwrites another, however many chunks there are. *)
Theorem chunk_files_are_distinct self fs clock path out :
  (forall k1 k2, 0 <= k1 -> 0 <= k2 ->
                 out ++ "/chunk_" ++ format_04d k1 ++ ".json"
                 = out ++ "/chunk_" ++ format_04d k2 ++ ".json" -> k1 = k2)
  /\ NoDup (map fst (snd (convert_large_csv self fs clock path out true))).
Proof.
  split; [exact (chunk_file_inj out)|].
  unfold convert_large_csv, getsize.
  destruct (fs path) as [f|] eqn:Hf; [|constructor].
  unfold _process_large_file.
  destruct (read_csv_chunks fs path (chunk_size self)) as [chunks|e]; [|constructor].
  cbn [snd negb]. rewrite loop_all_data. cbn [ls_all_data].
  rewrite loop_written_split. cbn [ls_written ls_chunk_count app Z.add].
  rewrite map_map. cbn [fst].
  rewrite <- (map_map fst (chunk_file out)).
  apply NoDup_map_NoDup_ForallPairs; [|apply NoDup_enumerate_from].
  intros k1 k2 Hk1 Hk2 Heq.
  apply enumerate_from_ge in Hk1, Hk2.
  apply (chunk_file_inj out); auto; lia.
Qed.

Lemma chunk_files_are_distinct_witness :
  "out/chunk_0001.json" <> "out/chunk_0002.json"
  /\ NoDup (map fst (snd (convert_large_csv (__init__ 1 500) Sample.fs (fun _ => 0)
                                            "train.csv" "out" true))).
Proof.
  destruct (chunk_files_are_distinct (__init__ 1 500) Sample.fs (fun _ => 0)
              "train.csv" "out") as [Hinj Hnd].
  split; [|exact Hnd].
  intros H. assert (H12 : 1 = 2) by (apply Hinj; [lia | lia | exact H]).
  discriminate H12.
Defined.

(** ** Failures and the empty table in the chunked conversion *)

(** X4. [convert_large_csv] and [stream_json_processor] let the exception
    of the library through as it is and produce nothing: a missing path
    gives [FileNotFoundError], a chunk size under 1 gives [ValueError], a
    file with nothing in it gives [EmptyDataError].  For the same empty file
    [csv_to_json_formatter] raises [ValueError] instead: the two converters
    do not fail alike. *)
Theorem chunked_conversion_errors self fs clock path out split :
  (fs path = None ->
   (exists msg, convert_large_csv self fs clock path out split
                = (Raise (FileNotFoundError msg), []))
   /\ (1 <= chunk_size self ->
       exists msg, stream_json_processor self fs path
                   = ([], Some (FileNotFoundError msg))))
  /\ (forall f, fs path = Some f -> chunk_size self < 1 ->
        (exists msg, convert_large_csv self fs clock path out split
                     = (Raise (ValueError msg), []))
        /\ exists msg, stream_json_processor self fs path = ([], Some (ValueError msg)))
  /\ (forall f, fs path = Some f -> 1 <= chunk_size self -> csv f = SrcEmpty ->
        (exists msg, convert_large_csv self fs clock path out split
                     = (Raise (EmptyDataError msg), []))
        /\ (exists msg, stream_json_processor self fs path
                        = ([], Some (EmptyDataError msg)))
        /\ is_EmptyInput (csv_to_json_formatter fs path)
        /\ ~ is_EmptyInput (fst (convert_large_csv self fs clock path out split))).
Proof.
  unfold convert_large_csv, _process_large_file, stream_json_processor,
    read_csv_chunks, open_csv, getsize.
  split; [|split].
  - intros Hf. rewrite Hf. split; [eexists; reflexivity|].
    intros Hn. replace (chunk_size self <? 1) with false by (symmetry; apply Z.ltb_ge; lia).
    eexists; reflexivity.
  - intros f Hf Hn. rewrite Hf.
    replace (chunk_size self <? 1) with true by (symmetry; apply Z.ltb_lt; lia).
    split; eexists; reflexivity.
  - intros f Hf Hn Hc. rewrite Hf, Hc.
    replace (chunk_size self <? 1) with false by (symmetry; apply Z.ltb_ge; lia).
    cbn [bind fst]. repeat split; try (eexists; reflexivity).
    + unfold csv_to_json_formatter, read_csv, open_csv. rewrite Hf, Hc.
      eexists; reflexivity.
    + intros [msg H]. discriminate H.
Qed.

Lemma chunked_conversion_errors_witness :
  (exists msg, convert_large_csv (__init__ 10 500) Sample.fs (fun _ => 0)
                                 "missing.csv" "out" true
               = (Raise (FileNotFoundError msg), []))
  /\ (exists msg, stream_json_processor (__init__ 0 500) Sample.fs "train.csv"
                  = ([], Some (ValueError msg)))
  /\ (exists msg, convert_large_csv (__init__ 10 500) Sample.fs (fun _ => 0)
                                    "empty.csv" "out" true
                  = (Raise (EmptyDataError msg), [])).
Proof.
  split; [|split].
  - apply (proj1 (chunked_conversion_errors (__init__ 10 500) Sample.fs (fun _ => 0)
                    "missing.csv" "out" true)). reflexivity.
  - apply (proj1 (proj2 (chunked_conversion_errors (__init__ 0 500) Sample.fs
                           (fun _ => 0) "train.csv" "out" true)) Sample.train eq_refl).
    cbn. lia.
  - apply (proj2 (proj2 (chunked_conversion_errors (__init__ 10 500) Sample.fs
                           (fun _ => 0) "empty.csv" "out" true)) Sample.empty eq_refl).
    + cbn. lia.
    + reflexivity.
Defined.

(** X5. On a file with a header and no data row (chunk size at least 1),
    split mode writes exactly one file, [chunk_0001.json], holding the empty
    list, and reports one chunk; single-file mode writes no file at all and
    still reports [output_files = 1]. *)
Theorem convert_large_csv_header_only self fs clock path out f header :
  fs path = Some f ->
  csv f = SrcTable header [] ->
  1 <= chunk_size self ->
  (exists stats,
     convert_large_csv self fs clock path out true
     = (Ok stats, [(out ++ "/chunk_0001.json", [])])
     /\ total_rows stats = 0 /\ chunk_count stats = 1 /\ output_files stats = 1)
  /\ (exists stats,
        convert_large_csv self fs clock path out false = (Ok stats, [])
        /\ total_rows stats = 0 /\ chunk_count stats = 1 /\ output_files stats = 1).
Proof.
  intros Hf Hc Hn. unfold convert_large_csv, getsize. rewrite Hf.
  rewrite !(process_large_file_table _ _ _ _ _ _ _ _ _ _ Hf Hc Hn).
  split; eexists; (split; [reflexivity|]); repeat split.
Qed.

Lemma convert_large_csv_header_only_witness :
  exists stats,
    convert_large_csv (__init__ 100 500) Sample.fs (fun _ => 0)
                      "header_only.csv" "out" false = (Ok stats, [])
    /\ output_files stats = 1.
Proof.
  destruct (convert_large_csv_header_only (__init__ 100 500) Sample.fs (fun _ => 0)
              "header_only.csv" "out" Sample.header_only Sample.header
              eq_refl eq_refl ltac:(cbn; lia)) as (_ & stats & H & _ & _ & Ho).
  exists stats. split; assumption.
Defined.

(** ** The reported processing time *)

(** The quotient of two finite floats of any signs (magnitudes not too far
    apart) is finite and has the sign of the quotient. *)
Lemma SFdiv_finite_signed (s1 s2 : bool) (m1 m2 : positive) (e1 e2 : Z) :
  let D := Zdigits2 (Zpos m1) + e1 - (Zdigits2 (Zpos m2) + e2) in
  -1073 <= D <= 1022 ->
  exists m e,
    SFdiv 53 1024 (S754_finite s1 m1 e1) (S754_finite s2 m2 e2)
    = S754_finite (xorb s1 s2) m e.
Proof.
  intros D HD.
  unfold SFdiv, SFdiv_core_binary.
  set (d1 := Zdigits2 (Zpos m1)) in *. set (d2 := Zdigits2 (Zpos m2)) in *.
  pose proof (Zdigits2_bounds (Zpos m1) ltac:(lia)) as [Hlo1 Hhi1].
  pose proof (Zdigits2_bounds (Zpos m2) ltac:(lia)) as [Hlo2 Hhi2].
  pose proof (Zdigits2_pos (Zpos m1) ltac:(lia)) as Hd1.
  pose proof (Zdigits2_pos (Zpos m2) ltac:(lia)) as Hd2.
  fold d1 in Hlo1, Hhi1, Hd1. fold d2 in Hlo2, Hhi2, Hd2.
  set (e' := Z.min (fexp 53 1024 (d1 + e1 - (d2 + e2))) (e1 - e2)).
  assert (He' : e' <= e1 - e2 /\ e' <= Z.max (D - 53) (-1074)).
  { subst e' D. unfold fexp, emin. lia. }
  set (s := e1 - e2 - e').
  assert (Hs : 0 <= s) by (subst s; lia).
  set (m' := match s with Z.pos _ => Z.shiftl (Zpos m1) s | 0 => Zpos m1 | Z.neg _ => 0 end).
  assert (Hm' : m' = Zpos m1 * 2 ^ s).
  { subst m'. destruct s as [|p|p] eqn:Hsp; [cbn; lia | | lia].
    apply Z.shiftl_mul_pow2. lia. }
  destruct (Z.div_eucl m' (Zpos m2)) as [q r] eqn:Hdiv.
  assert (Hq : q = m' / Zpos m2) by (unfold Z.div; now rewrite Hdiv).
  set (k := d1 + s - d2).
  assert (Hk : 1 <= k) by (subst k s D; lia).
  assert (Hps : 0 < 2 ^ s) by (apply Z.pow_pos_nonneg; lia).
  assert (Hqlo : 2 ^ (k - 1) <= q).
  { rewrite Hq. apply Z.div_le_lower_bound; [lia|].
    rewrite Hm'.
    assert (Zpos m2 * 2 ^ (k - 1) <= 2 ^ d2 * 2 ^ (k - 1))
      by (apply Z.mul_le_mono_nonneg_r; [apply Z.pow_nonneg|]; lia).
    assert (2 ^ d2 * 2 ^ (k - 1) = 2 ^ (d1 - 1) * 2 ^ s).
    { rewrite <- !Z.pow_add_r by lia. f_equal. subst k. lia. }
    assert (2 ^ (d1 - 1) * 2 ^ s <= Zpos m1 * 2 ^ s)
      by (apply Z.mul_le_mono_nonneg_r; lia).
    lia. }
  assert (Hqhi : q < 2 ^ (k + 1)).
  { rewrite Hq. apply Z.div_lt_upper_bound; [lia|].
    rewrite Hm'.
    assert (Zpos m1 * 2 ^ s < 2 ^ d1 * 2 ^ s)
      by (apply Z.mul_lt_mono_pos_r; lia).
    assert (2 ^ d1 * 2 ^ s = 2 ^ (d2 - 1) * 2 ^ (k + 1)).
    { rewrite <- !Z.pow_add_r by lia. f_equal. subst k. lia. }
    assert (2 ^ (d2 - 1) * 2 ^ (k + 1) <= Zpos m2 * 2 ^ (k + 1))
      by (apply Z.mul_le_mono_nonneg_r; [apply Z.pow_nonneg|]; lia).
    lia. }
  assert (Hq0 : 0 < q) by (pose proof (Z.pow_pos_nonneg 2 (k - 1)); lia).
  assert (Hdq_lo : k <= Zdigits2 q) by (apply Zdigits2_ge; lia).
  assert (Hdq_hi : Zdigits2 q <= k + 1) by (apply Zdigits2_le; lia).
  destruct (binary_round_aux_finite (xorb s1 s2) q e' (new_location (Zpos m2) r) Hq0)
    as (m & e & Hr & Hme).
  - subst k s D. lia.
  - subst D. lia.
  - exists m, e. exact Hr.
Qed.

(** X7. With a clock that does not run backwards (readings being 64-bit
    microsecond counts), the [processing_time] that [convert_large_csv]
    reports is never positive: it is the first of two successive readings
    minus the second, so zero or negative, whatever the work done. *)
Theorem processing_time_is_never_positive self fs clock path out split stats written :
  (forall n, 0 <= clock n < 2 ^ 63) ->
  clock 1%nat <= clock 2%nat ->
  convert_large_csv self fs clock path out split = (Ok stats, written) ->
  SFltb (S754_zero false) (processing_time stats) = false
  /\ (clock 1%nat = clock 2%nat -> processing_time stats = S754_zero false).
Proof.
  intros Hclock Hmono. unfold convert_large_csv, _process_large_file.
  destruct (getsize fs path) as [size|e]; [|discriminate].
  destruct (read_csv_chunks fs path (chunk_size self)) as [chunks|e]; [|discriminate].
  intros [= <- _]. cbn [processing_time].
  pose proof (Hclock 1%nat) as H1. pose proof (Hclock 2%nat) as H2.
  destruct (clock 1%nat - clock 2%nat) as [|p|p] eqn:Hz; try lia.
  - split; reflexivity.
  - split; [|lia]. cbn [exact_of_int].
    destruct (SFdiv_finite_signed true false p 1000000 0 0) as (m & e & ->).
    + cbv zeta.
      assert (Hd : 1 <= Zdigits2 (Zpos p) <= 63).
      { split; [pose proof (Zdigits2_pos (Zpos p)); lia|].
        apply Zdigits2_le; lia. }
      change (Zdigits2 1000000) with 20. lia.
    + reflexivity.
Qed.

Lemma processing_time_is_never_positive_witness :
  exists stats written,
    convert_large_csv (__init__ 2 500) Sample.fs (fun n => Z.min (Z.of_nat n * 1000) 5000)
                      "train.csv" "out" true = (Ok stats, written)
    /\ SFltb (S754_zero false) (processing_time stats) = false.
Proof.
  do 2 eexists. split; [reflexivity|].
  refine (proj1 (processing_time_is_never_positive (__init__ 2 500) Sample.fs
                   (fun n => Z.min (Z.of_nat n * 1000) 5000)
                   "train.csv" "out" true _ _ _ _ eq_refl)).
  - intros n. cbv beta. split; [lia|].
    apply Z.le_lt_trans with 5000; [lia | reflexivity].
  - cbn. lia.
Defined.

(** ** Narrowing twice *)

Lemma narrowed_idempotent a : narrowed (narrowed a) = narrowed a.
Proof.
  destruct a as [t l|t l|l].
  - destruct t; try reflexivity.
    destruct (narrowed_int64 l) as (t & Ht & _). rewrite Ht.
    destruct t; try reflexivity. exact Ht.
  - destruct t; reflexivity.
  - reflexivity.
Qed.

(** X11. On a frame with distinct labels, narrowing the column types a
    second time changes nothing: a narrowed frame is a fixed point of
    [_optimize_dtypes]. *)
Theorem optimize_dtypes_idempotent df :
  NoDup (columns df) ->
  _optimize_dtypes (_optimize_dtypes df) = _optimize_dtypes df.
Proof.
  intros Hnd.
  assert (Hnd' : NoDup (columns (_optimize_dtypes df))) by (now rewrite columns_optimize).
  pose proof (optimize_dtypes_columnwise _ Hnd') as H2.
  pose proof (optimize_dtypes_columnwise _ Hnd) as H1.
  rewrite H1, map_map in H2. cbn [fst snd] in H2.
  assert (Hd : df_data (_optimize_dtypes (_optimize_dtypes df))
               = df_data (_optimize_dtypes df)).
  { rewrite H2, H1. apply map_ext. intros [k a]. cbn [fst snd].
    now rewrite narrowed_idempotent. }
  clear H1 H2.
  destruct (_optimize_dtypes (_optimize_dtypes df)) as [d2 n2] eqn:E2.
  destruct (_optimize_dtypes df) as [d1 n1] eqn:E1.
  cbn [df_data] in Hd. subst d2. f_equal.
  apply (f_equal df_len) in E2. cbn [df_len _optimize_dtypes] in E2.
  apply (f_equal df_len) in E1. cbn [df_len _optimize_dtypes] in E1. congruence.
Qed.

Lemma optimize_dtypes_idempotent_witness :
  let df := parse_frame Sample.header Sample.rows in
  _optimize_dtypes (_optimize_dtypes df) = _optimize_dtypes df.
Proof.
  intros df. apply optimize_dtypes_idempotent.
  unfold df. rewrite columns_parse_frame. unfold Sample.header.
  repeat (constructor; [simpl; intuition discriminate|]). constructor.
Defined.

(** ** Streaming *)

Lemma length_iterrows df : List.length (iterrows df) = df_len df.
Proof. unfold iterrows. now rewrite length_map, length_seq. Qed.

(** X9. On a file with a header and a chunk size of at least 1,
    [stream_json_processor] yields exactly one record per data row and ends
    without an exception. *)
Theorem stream_yields_one_record_per_row self fs path f header rows :
  fs path = Some f ->
  csv f = SrcTable header rows ->
  1 <= chunk_size self ->
  List.length (fst (stream_json_processor self fs path)) = List.length rows
  /\ snd (stream_json_processor self fs path) = None.
Proof.
  intros Hf Hc Hn. unfold stream_json_processor, read_csv_chunks, open_csv.
  rewrite Hf, Hc.
  replace (chunk_size self <? 1) with false by (symmetry; apply Z.ltb_ge; lia).
  cbn [bind fst snd]. split; [|reflexivity].
  rewrite <- (rows_of_chunk_frames header rows (Z.to_nat (chunk_size self))) by lia.
  induction (chunk_frames header rows (Z.to_nat (chunk_size self))) as [|c cs IH];
    [reflexivity|].
  cbn [flat_map map list_sum]. rewrite length_app, IH, length_map, length_iterrows.
  reflexivity.
Qed.

Lemma stream_yields_one_record_per_row_witness :
  List.length (fst (stream_json_processor (__init__ 2 500) Sample.fs "train.csv")) = 3%nat
  /\ snd (stream_json_processor (__init__ 2 500) Sample.fs "train.csv") = None.
Proof.
  apply (stream_yields_one_record_per_row (__init__ 2 500) Sample.fs "train.csv"
           Sample.train Sample.header Sample.rows eq_refl eq_refl).
  cbn. lia.
Defined.

Lemma plain_row_to_dict df i :
  NoDup (columns df) ->
  In DObject (map (fun c => dtype_of (snd c)) (df_data df)) ->
  series_to_dict (row_series df i) = record_at df i.
Proof.
  intros Hnd Hobj. unfold row_series, record_at.
  rewrite (find_common_type_object _ Hobj).
  unfold series_to_dict. cbn [s_index s_values cells_to_array].
  rewrite !map_map. cbn [size].
  set (l := map (fun c : string * ndarray => item (snd c) i) (df_data df)).
  replace (map (fun x : string * ndarray =>
                  match cast_item DObject (snd x) i with
                  | CObj v => v | _ => VNone end) (df_data df)) with l
    by (subst l; apply map_ext; intros [k a]; reflexivity).
  rewrite items_object_array.
  unfold columns, l. now rewrite combine_map_map.
Qed.

Lemma dtype_of_where a : dtype_of (where_notnull_None a) = dtype_of a.
Proof. destruct a; reflexivity. Qed.

Lemma narrowed_object a : dtype_of a = DObject -> narrowed a = a.
Proof. intros H. apply narrowed_other; rewrite H; discriminate. Qed.

Lemma object_column_survives header rows :
  NoDup header -> has_object_column header rows = true ->
  In DObject
     (map (fun c => dtype_of (snd c))
          (df_data (df_where_notnull_None (_optimize_dtypes (parse_frame header rows))))).
Proof.
  intros Hnd Hobj. apply has_object_column_In in Hobj.
  cbn [df_where_notnull_None df_data].
  rewrite optimize_dtypes_columnwise by (now apply NoDup_columns_parse_frame).
  rewrite !map_map. cbn [snd].
  apply in_map_iff in Hobj. destruct Hobj as ([k a] & Hd & Hin). cbn [snd] in Hd.
  apply in_map_iff. exists (k, a). split; [|exact Hin].
  cbn [snd]. now rewrite dtype_of_where, narrowed_object.
Qed.

Lemma stream_chunk_is_chunk_json header rows :
  NoDup header -> has_object_column header rows = true ->
  map series_to_dict
      (iterrows (df_where_notnull_None (_optimize_dtypes (parse_frame header rows))))
  = chunk_json (parse_frame header rows).
Proof.
  intros Hnd Hobj. unfold iterrows, chunk_json, to_dict_records.
  rewrite map_map. apply map_ext. intros i.
  apply plain_row_to_dict.
  - rewrite columns_where, columns_optimize, columns_parse_frame;
      auto using NoDup_columns_parse_frame.
  - now apply object_column_survives.
Qed.

(** X10. On a file with distinct labels, read with a chunk size of at least
    1 such that every chunk has a text column, [stream_json_processor]
    yields, in order, exactly the records [convert_large_csv] writes (in
    either mode) and ends without an exception. *)
Theorem stream_yields_chunk_records self fs clock path out split f header rows :
  fs path = Some f ->
  csv f = SrcTable header rows ->
  NoDup header ->
  1 <= chunk_size self ->
  every_chunk_has_text header rows (Z.to_nat (chunk_size self)) = true ->
  stream_json_processor self fs path
  = (records_written (snd (convert_large_csv self fs clock path out split)), None).
Proof.
  intros Hf Hc Hnd Hn Htext.
  unfold convert_large_csv, getsize. rewrite Hf.
  rewrite (process_large_file_table _ _ _ _ _ _ _ _ _ _ Hf Hc Hn).
  cbn [snd]. rewrite records_of_files_written.
  unfold stream_json_processor, read_csv_chunks, open_csv. rewrite Hf, Hc.
  replace (chunk_size self <? 1) with false by (symmetry; apply Z.ltb_ge; lia).
  cbn [bind fst snd]. f_equal.
  unfold chunk_frames. destruct rows as [|r0 rows']; [reflexivity|].
  set (rows := r0 :: rows') in *.
  unfold every_chunk_has_text in Htext. rewrite forallb_forall in Htext.
  rewrite !flat_map_concat_map, !map_map. f_equal.
  apply map_ext_in. intros c Hin. apply stream_chunk_is_chunk_json; auto.
Qed.

Lemma stream_yields_chunk_records_witness :
  stream_json_processor (__init__ 2 500) Sample.fs "ids.csv"
  = (records_written (snd (convert_large_csv (__init__ 2 500) Sample.fs (fun _ => 0)
                                             "ids.csv" "out" true)), None).
Proof.
  apply (stream_yields_chunk_records (__init__ 2 500) Sample.fs (fun _ => 0) "ids.csv"
           "out" true Sample.ids Sample.id_header Sample.id_rows eq_refl eq_refl).
  - unfold Sample.id_header.
    repeat (constructor; [simpl; intuition discriminate|]). constructor.
  - cbn. lia.
  - vm_compute. reflexivity.
Defined.

(** ** The whole file as one chunk *)

Lemma chunk_rows_single {A} (rows : list A) (n : nat) :
  rows <> [] -> (List.length rows <= n)%nat ->
  chunk_rows (List.length rows) n rows = [rows].
Proof.
  intros Hne Hlen. destruct rows as [|r rows]; [congruence|].
  cbn [List.length chunk_rows].
  rewrite firstn_all2, skipn_all2 by exact Hlen.
  destruct (List.length rows); reflexivity.
Qed.

(** X12. On a file with at least one data row, all within one chunk,
    [_process_small_file] and single-file [convert_large_csv] write the same
    records (to [data.json] and to [complete_data.json]) and report the same
    number of rows, one chunk and one file. *)
Theorem small_file_is_single_chunk self fs clock path out f header rows :
  fs path = Some f ->
  csv f = SrcTable header rows ->
  rows <> [] ->
  Z.of_nat (List.length rows) <= chunk_size self ->
  exists small large data,
    _process_small_file self fs path out = (Ok small, [(out ++ "/data.json", data)])
    /\ convert_large_csv self fs clock path out false
       = (Ok large, [(out ++ "/complete_data.json", data)])
    /\ List.length data = List.length rows
    /\ total_rows small = total_rows large
    /\ chunk_count small = chunk_count large
    /\ output_files small = output_files large.
Proof.
  intros Hf Hc Hne Hlen.
  assert (Hn : 1 <= chunk_size self).
  { destruct rows; [congruence|]. cbn [List.length] in Hlen. lia. }
  unfold convert_large_csv, getsize. rewrite Hf.
  rewrite (process_large_file_table _ _ _ _ _ _ _ _ _ _ Hf Hc Hn).
  unfold _process_small_file. rewrite (read_csv_table _ _ _ _ _ Hf Hc).
  unfold chunk_frames.
  destruct rows as [|r0 rows'] eqn:Hrows; [congruence|]. rewrite <- Hrows in *.
  rewrite chunk_rows_single by (try lia; congruence).
  cbn [map List.length files_written flat_map].
  rewrite app_nil_r. fold (chunk_json (parse_frame header rows)).
  assert (Hdata : List.length (chunk_json (parse_frame header rows)) = List.length rows)
    by (now rewrite df_len_chunk_json).
  destruct (chunk_json (parse_frame header rows)) as [|d data] eqn:Hj.
  - rewrite Hrows in Hdata. discriminate Hdata.
  - do 3 eexists. split; [reflexivity|]. split; [reflexivity|].
    split; [exact Hdata|]. repeat split.
Qed.

Lemma small_file_is_single_chunk_witness :
  exists small large data,
    _process_small_file (__init__ 10 500) Sample.fs "train.csv" "out"
    = (Ok small, [("out/data.json", data)])
    /\ convert_large_csv (__init__ 10 500) Sample.fs (fun _ => 0) "train.csv" "out" false
       = (Ok large, [("out/complete_data.json", data)])
    /\ total_rows small = total_rows large.
Proof.
  destruct (small_file_is_single_chunk (__init__ 10 500) Sample.fs (fun _ => 0)
              "train.csv" "out" Sample.train Sample.header Sample.rows
              eq_refl eq_refl ltac:(discriminate) ltac:(cbn; lia))
    as (small & large & data & Hs & Hl & _ & Ht & _).
  exists small, large, data. repeat split; assumption.
Defined.

(** ** What the estimate reads *)

(** X13. The estimate of the number of rows depends on the file size and
    on the lengths of the first 1000 lines only: two files that agree on
    these get the same estimate, however they differ further down. *)
Theorem estimate_reads_first_1000_lines fs1 fs2 path1 path2 f1 f2 :
  fs1 path1 = Some f1 ->
  fs2 path2 = Some f2 ->
  st_size f1 = st_size f2 ->
  firstn (Z.to_nat 1000) (line_lengths f1) = firstn (Z.to_nat 1000) (line_lengths f2) ->
  _estimate_total_rows fs1 path1 = _estimate_total_rows fs2 path2.
Proof.
  intros H1 H2 Hs Hl. unfold _estimate_total_rows, getsize.
  rewrite H1, H2, !sample_lines_firstn, Hs, Hl. reflexivity.
Qed.

Lemma estimate_reads_first_1000_lines_witness :
  let long_file tail :=
    {| st_size := 20000;
       line_lengths := (repeat 10%positive (Z.to_nat 1000) ++ tail)%list;
       csv := SrcEmpty |} in
  _estimate_total_rows (fun _ => Some (long_file [5%positive])) "a.csv"
  = _estimate_total_rows (fun _ => Some (long_file [7000; 9]%positive)) "b.csv".
Proof.
  intros long_file.
  apply (estimate_reads_first_1000_lines _ _ "a.csv" "b.csv"
           (long_file [5%positive]) (long_file [7000; 9]%positive) eq_refl eq_refl eq_refl).
  vm_compute. reflexivity.
Defined.

(** ** Exact division by [2 ^ 20] *)

Lemma shr_1_even (m : Z) :
  0 <= m -> Z.even m = true ->
  shr_1 {| shr_m := m; shr_r := false; shr_s := false |}
  = {| shr_m := m / 2; shr_r := false; shr_s := false |}.
Proof.
  intros Hm He.
  pose proof (shr_1_m {| shr_m := m; shr_r := false; shr_s := false |} Hm) as Hdiv.
  cbn [shr_m] in Hdiv. rewrite <- Hdiv.
  destruct m as [|[p|p|]|p]; try reflexivity; try discriminate He.
  exfalso. apply Hm. reflexivity.
Qed.

Lemma Zdigits2_mul_pow2 (m k : Z) :
  0 < m -> 0 <= k -> Zdigits2 (m * 2 ^ k) = Zdigits2 m + k.
Proof.
  intros Hm Hk.
  pose proof (Zdigits2_bounds m Hm) as [Hlo Hhi].
  pose proof (Zdigits2_pos m Hm) as Hd.
  assert (Hp : 0 < 2 ^ k) by (apply Z.pow_pos_nonneg; lia).
  apply Zdigits2_unique; [|lia]. split.
  - replace (Zdigits2 m + k - 1) with (Zdigits2 m - 1 + k) by lia.
    rewrite Z.pow_add_r by lia. apply Z.mul_le_mono_nonneg_r; lia.
  - rewrite Z.pow_add_r by lia. apply Z.mul_lt_mono_pos_r; lia.
Qed.

(** Rounding an even mantissa of 54 digits loses nothing. *)
Lemma binary_round_aux_exact_54 (s : bool) (m e : Z) :
  0 < m -> Zdigits2 m = 54 -> Z.even m = true -> -1075 <= e <= 970 ->
  binary_round_aux 53 1024 s m e loc_Exact = S754_finite s (Z.to_pos (m / 2)) (e + 1).
Proof.
  intros Hm Hd He Hr.
  assert (Hhalf : 0 < m / 2) by (apply (div_pow2_pos m 1); lia).
  assert (Hdhalf : Zdigits2 (m / 2) = 53).
  { pose proof (Zdigits2_shift m 1 Hm ltac:(lia)) as H. rewrite Hd in H. exact H. }
  unfold binary_round_aux, shr_fexp. rewrite Hd. unfold fexp, emin.
  replace (Z.max (54 + e - 53) (3 - 1024 - 53) - e) with 1 by lia.
  cbn [shr iter_pos shr_record_of_loc].
  rewrite shr_1_even by (auto; lia).
  cbn [shr_m loc_of_shr_record round_nearest_even].
  rewrite Hdhalf.
  replace (Z.max (53 + (e + 1) - 53) (3 - 1024 - 53) - (e + 1)) with 0 by lia.
  cbn [shr shr_record_of_loc shr_m].
  destruct (m / 2) as [|q|q] eqn:Hq; try lia.
  replace (e + 1 <=? 1024 - 53) with true by (symmetry; apply Z.leb_le; lia).
  reflexivity.
Qed.

Lemma SFdiv_by_2pow20 (p : positive) :
  Zdigits2 (Zpos p) <= 53 ->
  SFdiv 53 1024 (S754_finite false p 0) (S754_finite false 1048576 0)
  = megabytes (Zpos p).
Proof.
  intros Hd53. unfold megabytes.
  pose proof (Zdigits2_pos (Zpos p) ltac:(lia)) as Hd0.
  set (d := Zdigits2 (Zpos p)) in *.
  unfold SFdiv, SFdiv_core_binary. cbn [xorb].
  change (Zdigits2 1048576) with 21. fold d.
  unfold fexp, emin.
  replace (Z.min (Z.max (d + 0 - (21 + 0) - 53) (3 - 1024 - 53)) (0 - 0)) with (d - 74) by lia.
  replace (0 - 0 - (d - 74)) with (74 - d) by lia.
  assert (Hm' : match 74 - d with
                | Z.pos _ => Z.shiftl (Zpos p) (74 - d)
                | 0 => Zpos p
                | Z.neg _ => 0
                end = (Zpos p * 2 ^ (54 - d)) * 1048576).
  { destruct (74 - d) as [|s|s] eqn:Hs; try lia.
    rewrite <- Hs, Z.shiftl_mul_pow2 by lia.
    replace (74 - d) with (54 - d + 20) by lia.
    rewrite Z.pow_add_r by lia. change (2 ^ 20) with 1048576. ring. }
  rewrite Hm'.
  destruct (Z.div_eucl (Zpos p * 2 ^ (54 - d) * 1048576) 1048576) as [q r] eqn:Hdiv.
  assert (Hq : q = Zpos p * 2 ^ (54 - d)).
  { pose proof (Z.div_mul (Zpos p * 2 ^ (54 - d)) 1048576 ltac:(lia)) as H.
    unfold Z.div in H. now rewrite Hdiv in H. }
  assert (Hr0 : r = 0).
  { pose proof (Z.mod_mul (Zpos p * 2 ^ (54 - d)) 1048576 ltac:(lia)) as H.
    unfold Z.modulo in H. now rewrite Hdiv in H. }
  subst q r. change (new_location 1048576 0) with loc_Exact.
  assert (Hp : 0 < 2 ^ (53 - d)) by (apply Z.pow_pos_nonneg; lia).
  assert (Hsplit : Zpos p * 2 ^ (54 - d) = Zpos p * 2 ^ (53 - d) * 2).
  { replace (54 - d) with (53 - d + 1) by lia. rewrite Z.pow_add_r by lia.
    change (2 ^ 1) with 2. ring. }
  rewrite binary_round_aux_exact_54.
  - rewrite Hsplit, Z.div_mul by lia. f_equal. lia.
  - apply Z.mul_pos_pos; [lia | apply Z.pow_pos_nonneg; lia].
  - rewrite Zdigits2_mul_pow2 by lia. fold d. lia.
  - rewrite Hsplit, Z.even_mul. apply orb_true_r.
  - lia.
Qed.

(** Sizes in megabytes compare as the sizes in bytes do. *)
Lemma megabytes_ltb (a t : Z) :
  0 < a -> 0 < t -> Zdigits2 a <= 53 -> Zdigits2 t <= 53 ->
  SFltb (megabytes a) (megabytes t) = (a <? t).
Proof.
  intros Ha Ht Hda Hdt.
  pose proof (Zdigits2_bounds a Ha) as [Halo Hahi].
  pose proof (Zdigits2_bounds t Ht) as [Htlo Hthi].
  pose proof (Zdigits2_pos a Ha) as Hda0.
  pose proof (Zdigits2_pos t Ht) as Hdt0.
  unfold SFltb, SFcompare, megabytes.
  destruct (Z.compare_spec (Zdigits2 a - 73) (Zdigits2 t - 73)) as [Heq|Hlt|Hgt].
  - assert (Hd : Zdigits2 a = Zdigits2 t) by lia. rewrite Hd.
    assert (Hp : 0 < 2 ^ (53 - Zdigits2 t)) by (apply Z.pow_pos_nonneg; lia).
    change (Pos.compare_cont Eq) with Pos.compare.
    rewrite <- Z2Pos.inj_compare by (apply Z.mul_pos_pos; lia).
    set (P := 2 ^ (53 - Zdigits2 t)) in *.
    destruct (Z.compare_spec (a * P) (t * P)) as [E|L|G];
      destruct (Z.ltb_spec a t) as [L'|G']; try reflexivity; exfalso; nia.
  - assert (2 ^ Zdigits2 a <= 2 ^ (Zdigits2 t - 1)) by (apply Z.pow_le_mono_r; lia).
    symmetry. apply Z.ltb_lt. lia.
  - assert (2 ^ Zdigits2 t <= 2 ^ (Zdigits2 a - 1)) by (apply Z.pow_le_mono_r; lia).
    symmetry. apply Z.ltb_ge. lia.
Qed.

Lemma Zdigits2_below_2pow53 (a : Z) : 0 < a < 2 ^ 53 -> Zdigits2 a <= 53.
Proof. intros H. apply Zdigits2_le; lia. Qed.

(** X8. For a file size below [2 ^ 53] bytes [_recommend_chunk_size]
    returns 1000 under 10 MiB, 5000 under 100 MiB, 10000 under 1000 MiB and
    50000 from there on; the float division and comparisons it performs
    decide exactly as the sizes in bytes do. *)
Theorem recommend_chunk_size_brackets (file_size : Z) :
  0 <= file_size < 2 ^ 53 ->
  _recommend_chunk_size file_size = Ok (chunk_size_bracket file_size).
Proof.
  intros Hs. unfold _recommend_chunk_size, int_truediv, chunk_size_bracket.
  change (1024 * 1024) with 1048576. change (1048576 =? 0) with false. cbv iota.
  destruct file_size as [|p|p]; [reflexivity| |lia].
  cbn [exact_of_int].
  rewrite SFdiv_by_2pow20 by (apply Zdigits2_below_2pow53; lia).
  unfold megabytes at 1. cbn [is_finite bind].
  fold (megabytes (Zpos p)).
  change (float_of_int 10) with (megabytes (10 * 2 ^ 20)).
  change (float_of_int 100) with (megabytes (100 * 2 ^ 20)).
  change (float_of_int 1000) with (megabytes (1000 * 2 ^ 20)).
  rewrite !megabytes_ltb
    by (try (apply Zdigits2_below_2pow53; lia); try lia; vm_compute; congruence).
  destruct (Zpos p <? 10 * 2 ^ 20); [reflexivity|].
  destruct (Zpos p <? 100 * 2 ^ 20); [reflexivity|].
  destruct (Zpos p <? 1000 * 2 ^ 20); reflexivity.
Qed.

Lemma recommend_chunk_size_brackets_witness :
  _recommend_chunk_size (5 * 2 ^ 20) = Ok 1000
  /\ _recommend_chunk_size (50 * 2 ^ 20) = Ok 5000
  /\ _recommend_chunk_size (10 * 2 ^ 20) = Ok 5000.
Proof.
  split; [|split].
  - rewrite recommend_chunk_size_brackets by (vm_compute; split; congruence). reflexivity.
  - rewrite recommend_chunk_size_brackets by (vm_compute; split; congruence). reflexivity.
  - rewrite recommend_chunk_size_brackets by (vm_compute; split; congruence). reflexivity.
Defined.

(** ** The report of [get_file_info] *)

Lemma estimate_total_rows_ok fs path f :
  fs path = Some f -> line_lengths f <> [] -> word_sized f ->
  exists n, _estimate_total_rows fs path = Ok n.
Proof.
  intros Hf Hne [Hsize Hlens]. unfold _estimate_total_rows, getsize. rewrite Hf.
  rewrite sample_lines_firstn.
  set (lines := map Zpos (firstn (Z.to_nat 1000) (line_lengths f))).
  assert (Hlen : Z.of_nat (List.length lines)
                 = Z.min 1000 (Z.of_nat (List.length (line_lengths f)))).
  { subst lines. rewrite length_map, length_firstn. lia. }
  assert (Hb : 1 <= Z.of_nat (List.length lines) <= 1000).
  { destruct (line_lengths f); [congruence|]. cbn [List.length] in Hlen. lia. }
  assert (Hall : Forall (fun z => 1 <= z < 2 ^ 63) lines).
  { subst lines. apply Forall_map, Forall_firstn.
    eapply Forall_impl; [|exact Hlens]. cbv beta. lia. }
  pose proof (fold_add_bounds lines 0 (2 ^ 63) Hall) as [Hslo Hshi].
  fold (sum lines) in Hslo, Hshi.
  unfold int_truediv.
  replace (Z.of_nat (List.length lines) =? 0) with false by (symmetry; apply Z.eqb_neq; lia).
  destruct (sum lines) as [|a|a] eqn:Ha; try lia.
  destruct (Z.of_nat (List.length lines)) as [|b|b] eqn:Hbb; try lia.
  cbn [exact_of_int].
  assert (Hda : 1 <= Zdigits2 (Zpos a) <= 73).
  { split; [pose proof (Zdigits2_pos (Zpos a)); lia|]. apply Zdigits2_le; lia. }
  assert (Hdb : 1 <= Zdigits2 (Zpos b) <= 10).
  { split; [pose proof (Zdigits2_pos (Zpos b)); lia|]. apply Zdigits2_le; lia. }
  destruct (SFdiv_finite a b 0 0) as (m & e & Havg & Hme); [cbv zeta; lia|].
  cbv zeta in Hme. rewrite Havg. cbn [is_finite bind].
  unfold int_float_truediv, float_.
  destruct (Z.eq_dec (st_size f) 0) as [H0|H0].
  - rewrite H0. cbn. eexists; reflexivity.
  - destruct (float_of_int_finite (st_size f)) as (mx & ex & Hx & Hmx).
    { assert (2 ^ 63 < 2 ^ 1000) by (apply Z.pow_lt_mono_r; lia). lia. }
    assert (Hds : 1 <= Zdigits2 (st_size f) <= 63).
    { split; [pose proof (Zdigits2_pos (st_size f)); lia|]. apply Zdigits2_le; lia. }
    rewrite Hx. cbn [is_finite bind]. unfold float_truediv. cbn [is_zero].
    destruct (SFdiv_finite mx m ex e) as (mq & eq & Hq & _); [cbv zeta; lia|].
    rewrite Hq. cbn [bind int_]. eexists; reflexivity.
Qed.

Lemma size_in_megabytes_ok (size : Z) :
  0 <= size < 2 ^ 63 -> exists mb, int_truediv size (1024 * 1024) = Ok mb.
Proof.
  intros Hs. unfold int_truediv.
  change (1024 * 1024) with 1048576. change (1048576 =? 0) with false. cbv iota.
  destruct size as [|p|p]; [eexists; reflexivity| |lia].
  cbn [exact_of_int].
  assert (Hd : 1 <= Zdigits2 (Zpos p) <= 63).
  { split; [pose proof (Zdigits2_pos (Zpos p)); lia|]. apply Zdigits2_le; lia. }
  destruct (SFdiv_finite p 1048576 0 0) as (m & e & -> & _).
  - cbv zeta. change (Zdigits2 1048576) with 21. lia.
  - eexists; reflexivity.
Qed.

Lemma recommend_chunk_size_ok (size : Z) :
  0 <= size < 2 ^ 63 -> exists r, _recommend_chunk_size size = Ok r.
Proof.
  intros Hs. unfold _recommend_chunk_size.
  destruct (size_in_megabytes_ok size Hs) as (mb & ->). cbn [bind].
  repeat match goal with
         | |- context [if ?c then _ else _] => destruct c
         end; eexists; reflexivity.
Qed.

(** X14. [get_file_info] raises [FileNotFoundError] on a missing path and,
    on a file with nothing in it, the [EmptyDataError] of the sample read:
    the division of the estimate is not reached.  On a file with a header
    and at least one line (sizes being 64-bit quantities) it returns a
    report whose columns are the header labels, whose dtypes are inferred
    from the first five rows alone, and whose estimate and recommended chunk
    size are the results of [_estimate_total_rows] and
    [_recommend_chunk_size]. *)
Theorem get_file_info_report fs path :
  (fs path = None -> exists msg, get_file_info fs path = Raise (FileNotFoundError msg))
  /\ (forall f, fs path = Some f -> csv f = SrcEmpty ->
        exists msg, get_file_info fs path = Raise (EmptyDataError msg))
  /\ (forall f header rows,
        fs path = Some f -> csv f = SrcTable header rows ->
        line_lengths f <> [] -> word_sized f ->
        exists info,
          get_file_info fs path = Ok info
          /\ info_columns info = header
          /\ info_dtypes info = dtypes (parse_frame header (firstn 5 rows))
          /\ _estimate_total_rows fs path = Ok (estimated_rows info)
          /\ _recommend_chunk_size (st_size f) = Ok (recommended_chunk_size info)).
Proof.
  unfold get_file_info, getsize, read_csv_nrows, open_csv.
  split; [|split].
  - intros Hf. rewrite Hf. eexists; reflexivity.
  - intros f Hf Hc. rewrite Hf, Hc. eexists; reflexivity.
  - intros f header rows Hf Hc Hne Hw. rewrite Hf, Hc. cbn [bind fst snd].
    destruct (size_in_megabytes_ok (st_size f) (proj1 Hw)) as (mb & ->).
    destruct (estimate_total_rows_ok fs path f Hf Hne Hw) as (n & Hn).
    destruct (recommend_chunk_size_ok (st_size f) (proj1 Hw)) as (r & Hr).
    rewrite Hn, Hr. cbn [bind].
    eexists. split; [reflexivity|].
    cbn [info_columns info_dtypes estimated_rows recommended_chunk_size].
    repeat split; auto. apply columns_parse_frame.
Qed.

Lemma get_file_info_report_witness :
  exists info,
    get_file_info Sample.fs "train.csv" = Ok info
    /\ info_columns info = Sample.header
    /\ recommended_chunk_size info = 1000
    /\ estimated_rows info = 4.
Proof.
  destruct (proj2 (proj2 (get_file_info_report Sample.fs "train.csv"))
              Sample.train Sample.header Sample.rows eq_refl eq_refl)
    as (info & Hinfo & Hcols & _ & Hest & Hrec).
  - discriminate.
  - split; [cbn; lia|]. cbn. repeat constructor.
  - exists info. split; [exact Hinfo|]. split; [exact Hcols|].
    assert (He : _estimate_total_rows Sample.fs "train.csv" = Ok 4)
      by (vm_compute; reflexivity).
    assert (Hr : _recommend_chunk_size (st_size Sample.train) = Ok 1000)
      by (vm_compute; reflexivity).
    rewrite He in Hest. rewrite Hr in Hrec.
    injection Hest as Hest. injection Hrec as Hrec.
    split; [exact (eq_sym Hrec) | exact (eq_sym Hest)].
Defined.

(** ** Sizes of the chunks *)

Lemma chunk_rows_nil {A} (fuel n : nat) : @chunk_rows A fuel n [] = [].
Proof. destruct fuel; reflexivity. Qed.

Lemma chunk_rows_lengths {A} (n fuel : nat) (rows : list A) (i : nat) (c : list A) :
  (1 <= n)%nat -> (List.length rows <= fuel)%nat ->
  nth_error (chunk_rows fuel n rows) i = Some c ->
  (1 <= List.length c <= n)%nat
  /\ (S i < List.length (chunk_rows fuel n rows) -> List.length c = n)%nat.
Proof.
  intros Hn. revert rows i.
  induction fuel as [|fuel IH]; intros rows i Hlen Hc.
  - destruct i; discriminate Hc.
  - destruct rows as [|r rows]; [destruct i; discriminate Hc|].
    cbn [chunk_rows] in *. destruct i as [|i].
    + cbn [nth_error] in Hc. injection Hc as <-.
      rewrite length_firstn. cbn [List.length] in *. split; [lia|].
      intros Hmore.
      destruct (Nat.le_gt_cases (S (List.length rows)) n) as [Hle|Hgt]; [|lia].
      exfalso. rewrite skipn_all2, chunk_rows_nil in Hmore by (cbn [List.length]; lia).
      cbn [List.length] in Hmore. lia.
    + cbn [nth_error] in Hc.
      destruct (IH (skipn n (r :: rows)) i) as [H1 H2]; auto.
      { rewrite length_skipn. cbn [List.length] in *. lia. }
      split; [exact H1|]. intros Hmore. apply H2. cbn [List.length] in Hmore. lia.
Qed.

(** X16. In split mode, on a file with at least one data row and a chunk
    size [R >= 1], every file written holds between 1 and [R] records, and
    every file but the last holds exactly [R]. *)
Theorem chunk_files_hold_chunk_size_records self fs clock path out f header rows :
  fs path = Some f ->
  csv f = SrcTable header rows ->
  rows <> [] ->
  1 <= chunk_size self ->
  let written := snd (convert_large_csv self fs clock path out true) in
  forall i name data,
    nth_error written i = Some (name, data) ->
    1 <= Z.of_nat (List.length data) <= chunk_size self
    /\ ((S i < List.length written)%nat -> Z.of_nat (List.length data) = chunk_size self).
Proof.
  intros Hf Hc Hne Hn written i name data. subst written.
  unfold convert_large_csv, getsize. rewrite Hf.
  rewrite (process_large_file_table _ _ _ _ _ _ _ _ _ _ Hf Hc Hn).
  cbn [snd files_written]. rewrite length_map, length_enumerate_from.
  rewrite nth_error_map, nth_error_enumerate_from.
  unfold chunk_frames. destruct rows as [|r0 rows'] eqn:Hrows; [congruence|].
  rewrite <- Hrows in *. rewrite length_map, nth_error_map.
  destruct (nth_error (chunk_rows (List.length rows) (Z.to_nat (chunk_size self)) rows) i)
    as [c|] eqn:Hi; [|discriminate].
  cbn [option_map fst snd]. intros [= _ <-].
  rewrite df_len_chunk_json. cbn [parse_frame df_len].
  destruct (chunk_rows_lengths (Z.to_nat (chunk_size self)) (List.length rows) rows i c)
    as [H1 H2]; auto; lia.
Qed.

Lemma chunk_files_hold_chunk_size_records_witness :
  match nth_error (snd (convert_large_csv (__init__ 2 500) Sample.fs (fun _ => 0)
                                          "train.csv" "out" true)) 1 with
  | Some (_, data) => 1 <= Z.of_nat (List.length data) <= 2
  | None => False
  end.
Proof.
  destruct (nth_error (snd (convert_large_csv (__init__ 2 500) Sample.fs (fun _ => 0)
                                              "train.csv" "out" true)) 1)
    as [[name data]|] eqn:H.
  - exact (proj1 (chunk_files_hold_chunk_size_records (__init__ 2 500) Sample.fs
                    (fun _ => 0) "train.csv" "out" Sample.train Sample.header Sample.rows
                    eq_refl eq_refl ltac:(discriminate) ltac:(cbn; lia) 1%nat name data H)).
  - vm_compute in H. discriminate H.
Defined.

(** X15. For every file with a header and every chunk size of at least 1,
    in either mode, the records [convert_large_csv] writes are as many as
    the data rows: no row is dropped and none is written twice. *)
Theorem every_row_is_written_once self fs clock path out split f header rows :
  fs path = Some f ->
  csv f = SrcTable header rows ->
  1 <= chunk_size self ->
  List.length (records_written (snd (convert_large_csv self fs clock path out split)))
  = List.length rows.
Proof.
  intros Hf Hc Hn. unfold convert_large_csv, getsize. rewrite Hf.
  rewrite (process_large_file_table _ _ _ _ _ _ _ _ _ _ Hf Hc Hn).
  cbn [snd]. rewrite records_of_files_written, length_flat_map_chunk_json.
  apply rows_of_chunk_frames. lia.
Qed.

Lemma every_row_is_written_once_witness :
  List.length (records_written
                 (snd (convert_large_csv (__init__ 2 500) Sample.fs (fun _ => 0)
                                         "train.csv" "out" false))) = 3%nat.
Proof.
  apply (every_row_is_written_once (__init__ 2 500) Sample.fs (fun _ => 0) "train.csv"
           "out" false Sample.train Sample.header Sample.rows eq_refl eq_refl).
  cbn. lia.
Defined.

(** ** Rows of a table of numbers *)

Lemma col_dtype_cases rows j :
  col_dtype rows j = DInt int64 \/ col_dtype rows j = DFloat float64
  \/ col_dtype rows j = DObject.
Proof.
  unfold col_dtype, infer_column.
  destruct (column_fields j rows) as [|c cs]; [auto|].
  destruct (forallb is_int_field (c :: cs)); [auto|].
  destruct (forallb is_numeric_field (c :: cs)); auto.
Qed.

Lemma existsb_map_comp {A B} (g : B -> bool) (h : A -> B) (l : list A) :
  existsb g (map h l) = existsb (fun x => g (h x)) l.
Proof. induction l as [|x l IH]; cbn; [reflexivity | now rewrite IH]. Qed.

Lemma fold_promote_float64 (ds : list dtype) :
  Forall is_number_dtype ds -> fold_left promote ds (DFloat float64) = DFloat float64.
Proof.
  induction 1 as [|d ds [-> | ->] _ IH]; cbn [fold_left promote promote_int_float]; auto.
Qed.

Lemma fold_promote_numbers (ds : list dtype) :
  Forall is_number_dtype ds -> existsb is_float_dtype ds = true ->
  fold_left promote ds (DInt int64) = DFloat float64.
Proof.
  induction 1 as [|d ds [-> | ->] Hds IH]; cbn [existsb is_float_dtype orb]; intros Hex.
  - discriminate.
  - cbn [fold_left promote]. replace (promote_int int64 int64) with int64 by reflexivity.
    now apply IH.
  - cbn [fold_left promote promote_int_float]. now apply fold_promote_float64.
Qed.

Lemma find_common_type_numbers (ds : list dtype) :
  Forall is_number_dtype ds -> existsb is_float_dtype ds = true ->
  find_common_type ds = DFloat float64.
Proof.
  intros Hall Hex. destruct ds as [|d ds]; [discriminate|].
  inversion Hall as [|? ? [-> | ->] Hds]; subst; cbn [find_common_type].
  - apply fold_promote_numbers; auto.
  - now apply fold_promote_float64.
Qed.

Lemma cast_float_cell cells i :
  (i < List.length cells)%nat ->
  dtype_of (infer_column cells) <> DObject ->
  match cast_item (DFloat float64) (infer_column cells) i with
  | CFloat x => x
  | _ => S754_nan
  end = float_of_field (nth i cells FNA).
Proof.
  intros Hi Hd. unfold infer_column in *.
  destruct cells as [|c0 cells]; [cbn in Hi; lia|].
  set (cs := c0 :: cells) in *.
  destruct (forallb is_int_field cs) eqn:Hint;
    [|destruct (forallb is_numeric_field cs); [|now elim Hd]];
    cbn [cast_item box_float].
  - rewrite (nth_map_in_range int_of_field cs FNA) by exact Hi.
    rewrite forallb_forall in Hint. specialize (Hint _ (nth_In cs FNA Hi)).
    destruct (nth i cs FNA); try discriminate. reflexivity.
  - now apply nth_map_in_range.
Qed.

Lemma items_float_array (l : list spec_float) :
  map (item (FloatArray float64 l)) (seq 0 (List.length l)) = map VFloat l.
Proof.
  cbn [item box_float].
  rewrite <- (map_nth_seq_id l S754_nan) at 3. now rewrite map_map.
Qed.

(** X17. On a table with distinct labels, no text column and at least one
    float column, a valid index gives a record all of whose values are
    floats: an integer cell comes back as the float of its value, and a
    missing cell as NaN, not as [None]. *)
Theorem csv_row_to_json_of_numbers fs path f header rows i :
  fs path = Some f ->
  csv f = SrcTable header rows ->
  NoDup header ->
  has_object_column header rows = false ->
  has_float_column header rows = true ->
  0 <= i < Z.of_nat (List.length rows) ->
  csv_row_to_json fs path i = Ok (float_row_record header (nth (Z.to_nat i) rows [])).
Proof.
  intros Hf Hc Hnd Hobj Hfl Hi.
  rewrite (csv_row_to_json_table _ _ _ _ _ _ Hf Hc Hi). f_equal.
  assert (Hn : (Z.to_nat i < List.length rows)%nat) by lia.
  unfold has_object_column in Hobj. unfold has_float_column in Hfl.
  assert (Hnum : forall j, (j < List.length header)%nat -> col_dtype rows j <> DObject).
  { intros j Hj Hd.
    assert (Hex : existsb (fun j => is_object_dtype (col_dtype rows j))
                          (seq 0 (List.length header)) = true).
    { apply existsb_exists. exists j. split; [apply in_seq; lia | now rewrite Hd]. }
    congruence. }
  unfold row_series. rewrite dtypes_parse_frame.
  rewrite find_common_type_numbers.
  2:{ apply Forall_forall. intros d Hd. apply in_map_iff in Hd.
      destruct Hd as (j & <- & Hj). apply in_seq in Hj.
      destruct (col_dtype_cases rows j) as [H|[H|H]]; [now left | now right|].
      elim (Hnum j); [lia | exact H]. }
  2:{ rewrite existsb_map_comp. exact Hfl. }
  unfold series_where_notnull_None, series_to_dict.
  cbn [s_index s_values cells_to_array where_notnull_None size].
  rewrite columns_parse_frame.
  rewrite items_float_array, !map_map.
  cbn [parse_frame df_data]. rewrite map_map. cbn [snd].
  unfold float_row_record.
  rewrite <- (map_snd_combine_seq header 0) at 1.
  rewrite combine_map_map.
  rewrite dict_of_distinct by (rewrite map_map; cbn [fst]; now rewrite map_snd_combine_seq).
  apply map_ext_in. intros [j c] Hin. cbn [fst snd]. do 2 f_equal.
  apply in_combine_l, in_seq in Hin.
  rewrite cast_float_cell.
  - now rewrite nth_column_fields.
  - unfold column_fields. now rewrite length_map.
  - apply Hnum. lia.
Qed.

Lemma csv_row_to_json_of_numbers_witness :
  csv_row_to_json Sample.fs "numeric.csv" 0
  = Ok [("Pclass", VFloat (float_of_Z float64 3)); ("Fare", VFloat Sample.f7_25)].
Proof.
  apply (csv_row_to_json_of_numbers Sample.fs "numeric.csv" Sample.numeric
           ["Pclass"; "Fare"] [[FInt 3 "3"; FFloat Sample.f7_25 "7.25"]] 0 eq_refl eq_refl).
  - repeat (constructor; [simpl; intuition discriminate|]). constructor.
  - vm_compute. reflexivity.
  - vm_compute. reflexivity.
  - cbn. lia.
Defined.

(** ** Printed samples *)

Lemma list_getitem_in_range {A} (data : list A) (s : nat) (d : A) :
  nth_error data s = Some d -> list_getitem data (Z.of_nat s) = Ok d.
Proof.
  intros H. unfold list_getitem. cbv zeta.
  assert (Hs : (Z.of_nat s <? 0) = false) by (apply Z.ltb_ge; lia).
  rewrite !Hs, Nat2Z.id, H. reflexivity.
Qed.

Lemma print_samples_in_range dumps (data : list dict) (k s : nat) (out : list string) :
  (s + k <= List.length data)%nat ->
  print_samples dumps data (map Z.of_nat (seq s k)) out
  = ((out ++ flat_map (sample_lines_of dumps)
                      (enumerate_from (Z.of_nat s + 1) (firstn k (skipn s data))))%list,
     Ok tt).
Proof.
  revert s out. induction k as [|k IH]; intros s out Hk.
  - cbn. now rewrite app_nil_r.
  - cbn [seq map print_samples].
    destruct (nth_error data s) as [d|] eqn:Hd;
      [|apply nth_error_None in Hd; lia].
    rewrite (list_getitem_in_range data s d Hd).
    rewrite IH by lia.
    assert (Hs : skipn s data = d :: skipn (S s) data).
    { clear -Hd. revert data Hd. induction s as [|s IHs]; intros [|x data] Hd;
        try discriminate.
      - now injection Hd as ->.
      - cbn [skipn]. apply IHs. exact Hd. }
    rewrite Hs. cbn [firstn enumerate_from flat_map sample_lines_of fst snd].
    replace (Z.of_nat s + 1 + 1) with (Z.of_nat (S s) + 1) by lia.
    unfold sample_title. rewrite <- !app_assoc. reflexivity.
Qed.

Lemma firstn_min_length {A} (a : nat) (l : list A) :
  firstn (Nat.min a (List.length l)) l = firstn a l.
Proof.
  destruct (Nat.le_ge_cases a (List.length l)) as [H|H].
  - now rewrite Nat.min_l.
  - rewrite Nat.min_r by exact H. now rewrite !firstn_all2 by lia.
Qed.

(** X18. [print_json_sample] never fails, whatever the number of samples
    asked for: after the two heading lines it prints the first
    [num_samples] records in order, numbered from 1 (all of them when there
    are fewer, none when [num_samples] is zero or negative), three lines
    each. *)
Theorem print_json_sample_prints_first_records dumps (data : list dict) (num_samples : Z) :
  print_json_sample dumps data num_samples
  = ( ("총 " ++ str_int (Z.of_nat (List.length data)) ++ "개의 데이터 중 처음 "
         ++ str_int (Z.min num_samples (Z.of_nat (List.length data))) ++ "개 샘플:")
      :: rule
      :: flat_map (sample_lines_of dumps)
                  (enumerate_from 1 (firstn (Z.to_nat num_samples) data)),
      Ok tt ).
Proof.
  unfold print_json_sample, range.
  rewrite print_samples_in_range by lia.
  cbn [skipn Z.of_nat Z.add].
  replace (Z.to_nat (Z.min num_samples (Z.of_nat (List.length data))))
    with (Nat.min (Z.to_nat num_samples) (List.length data)) by lia.
  now rewrite firstn_min_length.
Qed.

(** ** One file or many *)



